(** * Mamacita backend: a shallow embedding of the request handlers

    The handlers of the Express application are embedded as pure functions
    over an explicit database value: a handler takes the tables it reads
    (and the clock readings and generated identifiers it consumes) together
    with the request, and returns the HTTP response paired with the tables as
    it leaves them.  A Prisma table is a list of rows; a unique index is the
    check that [create] performs before it appends a row. *)

From Stdlib Require Import ZArith QArith Qround List String Ascii Bool Lia.
Import ListNotations.

Local Open Scope string_scope.
Local Open Scope Z_scope.

(** ** The response envelope [{success, message, data}]

    The [error] detail that the 500 answers carry in development mode is
    left out. *)

Record Response (D : Type) : Type := mkResponse {
  status  : Z;
  success : bool;
  message : option string;
  data    : option D
}.

Arguments mkResponse {D} _ _ _ _.
Arguments status {D} _.
Arguments success {D} _.
Arguments message {D} _.
Arguments data {D} _.

(** [res.status(c).json({ success: false, message: m })] *)
Definition failure {D : Type} (c : Z) (m : string) : Response D :=
  mkResponse c false (Some m) None.

(** JavaScript truthiness of a request field that holds a string or is
    absent: [undefined] and the empty string are falsy. *)
Definition truthy (field : option string) : bool :=
  match field with
  | Some s => negb (s =? "")%string
  | None => false
  end.

Inductive UserRole : Type := MOTHER | COLLABORATOR | ADMIN.

Definition UserRole_eqb (a b : UserRole) : bool :=
  match a, b with
  | MOTHER, MOTHER | COLLABORATOR, COLLABORATOR | ADMIN, ADMIN => true
  | _, _ => false
  end.

(** ** src/utils/validation.js *)

Module Validation.

(** A value handed to [new Date(...)]: either it parses to a time value
    (milliseconds since the epoch) or the result is an Invalid Date, whose
    time value is NaN. *)
Inductive JsDate : Type :=
| InvalidDate
| DateAt (t : Z).

(** [isFutureDate]: [dateObj > new Date()]; a comparison with NaN is false.
    [now] is the clock reading taken by [new Date()]. *)
Definition isFutureDate (now : Z) (date : JsDate) : bool :=
  match date with
  | InvalidDate => false
  | DateAt t => now <? t
  end.

(** [isValidPassword]: [password && password.length >= 6]. *)
Definition isValidPassword (password : option string) : bool :=
  truthy password &&
  match password with
  | Some p => (6 <=? Z.of_nat (String.length p))
  | None => false
  end.

(** [validateRequiredFields]: the names of the required fields whose value
    is falsy, in the order of [requiredFields]. *)
Definition validateRequiredFields
  (data : string -> option string) (requiredFields : list string)
  : bool * list string :=
  let missing := filter (fun field => negb (truthy (data field))) requiredFields in
  (Nat.eqb (List.length missing) 0, missing).

(** The character class [\s] on 8-bit code units: tab, line feed, vertical
    tab, form feed, carriage return, space and the no-break space. *)
Definition isSpace (c : ascii) : bool :=
  let n := nat_of_ascii c in
  (Nat.leb 9 n && Nat.leb n 13) || Nat.eqb n 32 || Nat.eqb n 160.

(** The class [[^\s@]]. *)
Definition isPlain (c : ascii) : bool :=
  negb (isSpace c) && negb (Ascii.eqb c "@"%char).

Fixpoint allPlain (s : string) : bool :=
  match s with
  | EmptyString => true
  | String c r => isPlain c && allPlain r
  end.

(** [[^\s@]+\.[^\s@]+$]: a run of plain characters with a dot that is
    neither its first nor its last character. *)
Fixpoint domainPart (seenOne : bool) (s : string) : bool :=
  match s with
  | EmptyString => false
  | String c r =>
      isPlain c &&
      ((seenOne && Ascii.eqb c "."%char && negb (r =? "")%string && allPlain r)
       || domainPart true r)
  end.

(** [^[^\s@]+@] followed by the domain part. *)
Fixpoint localPart (seenOne : bool) (s : string) : bool :=
  match s with
  | EmptyString => false
  | String c r =>
      if Ascii.eqb c "@"%char then seenOne && domainPart false r
      else negb (isSpace c) && localPart true r
  end.

(** [isValidEmail]: [/^[^\s@]+@[^\s@]+\.[^\s@]+$/.test(email)]. *)
Definition isValidEmail (email : string) : bool := localPart false email.

End Validation.

(** ** src/domains/pregnancy/pregnancy.controller.js *)

Module Pregnancy.

Import Validation.

Definition weeksSinceLMP : Z := 40.
Definition millisecondsPerWeek : Z := 7 * 24 * 60 * 60 * 1000.

(** [(due - now) / millisecondsPerWeek], a JavaScript number division.  The
    two time values are integers, so the quotient is the rational below. *)
Definition weeksUntilDue (now due : Z) : Q :=
  (inject_Z (due - now) / inject_Z millisecondsPerWeek)%Q.

(** [calculateCurrentWeek(dueDate)], with the reading [now] of the clock made
    an argument.  [Math.floor] is [Qfloor].

    JavaScript evaluates the body in binary64.  For two valid time values the
    exact result below and the binary64 one agree: when the unclamped week
    lies in 1..39 the operands are below 2^53 and the two roundings move the
    value by less than 1e-14, while a non-integral exact value is at least
    1/604800000 away from every integer; outside that range rounding is
    monotone, so the clamp yields the same bound.

    Every caller passes a valid date: [createPregnancy] and
    [updatePregnancy] call the function after [isFutureDate] has accepted the
    date, and [getCurrentPregnancy] passes the stored column. *)
Definition calculateCurrentWeek (now due : Z) : Z :=
  let currentWeek := Qfloor (inject_Z weeksSinceLMP - weeksUntilDue now due)%Q in
  Z.max 1 (Z.min 40 currentWeek).

(** The formula as the specification words it: the remaining weeks are
    rounded down and then subtracted from 40. *)
Definition weeksRemaining_rounded_down (now due : Z) : Z :=
  Qfloor (weeksUntilDue now due).

Definition claimed_currentWeek (now due : Z) : Z :=
  Z.max 1 (Z.min 40 (40 - weeksRemaining_rounded_down now due)).

(** *** The tables the pregnancy handlers touch *)

Inductive PregnancyStatus : Type := ACTIVE | COMPLETED | LOST.

Definition PregnancyStatus_eqb (a b : PregnancyStatus) : bool :=
  match a, b with
  | ACTIVE, ACTIVE | COMPLETED, COMPLETED | LOST, LOST => true
  | _, _ => false
  end.

Record MotherProfile : Type := mkMotherProfile {
  mp_id     : string;
  mp_userId : string
}.

Record PregnancyRow : Type := mkPregnancy {
  p_id              : string;
  p_motherProfileId : string;
  p_dueDate         : Z;
  p_currentWeek     : Z;
  p_status          : PregnancyStatus
}.

Record SymptomLog : Type := mkSymptomLog {
  sl_pregnancyId : string;
  sl_week        : Z;
  sl_symptoms    : list string;
  sl_mood        : option string;
  sl_notes       : option string
}.

Record Db : Type := mkDb {
  motherProfiles : list MotherProfile;
  pregnancies    : list PregnancyRow;
  symptomLogs    : list SymptomLog
}.

Definition with_pregnancies (db : Db) (ps : list PregnancyRow) : Db :=
  mkDb (motherProfiles db) ps (symptomLogs db).

(** [prisma.motherProfile.findUnique({ where: { userId } })] *)
Definition findMotherProfile (db : Db) (userId : string) : option MotherProfile :=
  find (fun mp => (mp_userId mp =? userId)%string) (motherProfiles db).

(** [include: { pregnancy: true }]: the pregnancy record of a profile, which
    every handler reads as one record ([.status], [.id], [.dueDate]); where
    the table holds several rows of the profile it is the first of them. *)
Definition pregnancyOf (db : Db) (motherProfileId : string) : option PregnancyRow :=
  find (fun p => (p_motherProfileId p =? motherProfileId)%string) (pregnancies db).

(** [include: { pregnancy: { where: { status: 'ACTIVE' } } }] *)
Definition activePregnancyOf (db : Db) (motherProfileId : string) : option PregnancyRow :=
  match pregnancyOf db motherProfileId with
  | Some p => if PregnancyStatus_eqb (p_status p) ACTIVE then Some p else None
  | None => None
  end.

(** Modelled from the spec: the Prisma schema, which is not among the
    sources.  The schema has "one table per entity" with "unique constraints
    on (email), (group,user) membership, (post,user) reaction, (class,user)
    enrollment/review, (event,user) registration": none is on the pregnancy
    table.  So [prisma.pregnancy.create] appends the row, whatever rows the
    profile already owns; only the primary key [id], by which
    [updatePregnancy] finds a row, makes it throw. *)
Definition pregnancy_create (db : Db) (row : PregnancyRow) : option Db :=
  if existsb (fun p => (p_id p =? p_id row)%string) (pregnancies db) then None
  else Some (with_pregnancies db (pregnancies db ++ [row])).

(** [prisma.pregnancy.update({ where: { id }, data })] *)
Definition pregnancy_update (db : Db) (id : string)
  (change : PregnancyRow -> PregnancyRow) : Db :=
  with_pregnancies db
    (map (fun p => if (p_id p =? id)%string then change p else p) (pregnancies db)).

Record Request : Type := mkRequest {
  req_role     : UserRole;        (* req.user.role *)
  req_userId   : string;          (* req.userId *)
  params_id    : string;          (* req.params.id *)
  body_dueDate : option string;   (* req.body.dueDate *)
  body_status  : option string;   (* req.body.status *)
  body_symptoms : option (list string);
  body_mood    : option string;
  body_notes   : option string
}.

Definition body (req : Request) (field : string) : option string :=
  if (field =? "dueDate")%string then body_dueDate req
  else if (field =? "status")%string then body_status req
  else None.

(** [missing.join(', ')] *)
Definition join (l : list string) : string := String.concat ", " l.

(** ['ACTIVE', 'COMPLETED', 'LOST'].includes(status), with the enum value. *)
Definition statusOfString (s : string) : option PregnancyStatus :=
  if (s =? "ACTIVE")%string then Some ACTIVE
  else if (s =? "COMPLETED")%string then Some COMPLETED
  else if (s =? "LOST")%string then Some LOST
  else None.


Section Handlers.

(** [new Date(dueDate)] on a request string: the runtime's date parser. *)
Variable parseDate : string -> JsDate.

(** [createPregnancy].  [now1] and [now2] are the clock readings of
    [isFutureDate] and of [calculateCurrentWeek]; [newId] is the identifier
    the database gives the new row. *)
Definition createPregnancy (now1 now2 : Z) (newId : string)
  (db : Db) (req : Request) : Response PregnancyRow * Db :=
  if negb (UserRole_eqb (req_role req) MOTHER) then
    (failure 403 "Apenas mães podem criar rastreamento de gravidez", db)
  else
    let (valid, missing) := validateRequiredFields (body req) ["dueDate"] in
    if negb valid then
      (failure 400 ("Campos obrigatórios ausentes: " ++ join missing), db)
    else
      match option_map parseDate (body_dueDate req) with
      | Some (DateAt due) =>
          if negb (isFutureDate now1 (DateAt due)) then
            (failure 400 "A data prevista deve ser no futuro", db)
          else
            match findMotherProfile db (req_userId req) with
            | None =>
                (* reading [motherProfile.pregnancy] of null throws *)
                (failure 500 "Erro ao criar gravidez", db)
            | Some motherProfile =>
                let pregnancy := pregnancyOf db (mp_id motherProfile) in
                if match pregnancy with
                   | Some p => PregnancyStatus_eqb (p_status p) ACTIVE
                   | None => false
                   end
                then (failure 409 "Você já tem uma gravidez ativa", db)
                else
                  let currentWeek := calculateCurrentWeek now2 due in
                  let row := mkPregnancy newId (mp_id motherProfile) due
                                         currentWeek ACTIVE in
                  match pregnancy_create db row with
                  | Some db' =>
                      (mkResponse 201 true (Some "Gravidez criada com sucesso")
                                  (Some row), db')
                  | None => (failure 500 "Erro ao criar gravidez", db)
                  end
            end
      | _ =>
          (* [isFutureDate] is false on an Invalid Date *)
          (failure 400 "A data prevista deve ser no futuro", db)
      end.

(** [getCurrentPregnancy]: recomputes the week and stores it when it
    changed.  The nested query that selects checklist items only shapes the
    response and is left out. *)
Definition getCurrentPregnancy (now : Z) (db : Db) (req : Request)
  : Response PregnancyRow * Db :=
  if negb (UserRole_eqb (req_role req) MOTHER) then
    (failure 403 "Apenas mães podem acessar rastreamento de gravidez", db)
  else
    match option_map (fun mp => activePregnancyOf db (mp_id mp))
                     (findMotherProfile db (req_userId req)) with
    | Some (Some pregnancy) =>
        let updatedWeek := calculateCurrentWeek now (p_dueDate pregnancy) in
        if negb (updatedWeek =? p_currentWeek pregnancy) then
          let setWeek p := mkPregnancy (p_id p) (p_motherProfileId p)
                                       (p_dueDate p) updatedWeek (p_status p) in
          (mkResponse 200 true None (Some (setWeek pregnancy)),
           pregnancy_update db (p_id pregnancy) setWeek)
        else (mkResponse 200 true None (Some pregnancy), db)
    | _ => (failure 404 "Nenhuma gravidez ativa encontrada", db)
    end.

(** The part of [updateData] built from [req.body.dueDate]: [None] is the
    400 answer to a date that is not in the future. *)
Definition dueDateUpdate (now1 now2 : Z) (req : Request)
  : option (PregnancyRow -> PregnancyRow) :=
  if truthy (body_dueDate req) then
    match option_map parseDate (body_dueDate req) with
    | Some (DateAt due) =>
        if isFutureDate now1 (DateAt due) then
          Some (fun p => mkPregnancy (p_id p) (p_motherProfileId p) due
                           (calculateCurrentWeek now2 due) (p_status p))
        else None
    | _ => None
    end
  else Some (fun p => p).

(** The part of [updateData] built from [req.body.status]. *)
Definition statusUpdate (req : Request) (p : PregnancyRow) : PregnancyRow :=
  if truthy (body_status req) then
    match option_map statusOfString (body_status req) with
    | Some (Some st) =>
        mkPregnancy (p_id p) (p_motherProfileId p) (p_dueDate p)
                    (p_currentWeek p) st
    | _ => p
    end
  else p.

(** [updatePregnancy] *)
Definition updatePregnancy (now1 now2 : Z) (db : Db) (req : Request)
  : Response PregnancyRow * Db :=
  if negb (UserRole_eqb (req_role req) MOTHER) then
    (failure 403 "Apenas mães podem atualizar gravidez", db)
  else
    let id := params_id req in
    match find (fun p => (p_id p =? id)%string) (pregnancies db) with
    | None => (failure 404 "Gravidez não encontrada", db)
    | Some pregnancy =>
        match find (fun mp => (mp_id mp =? p_motherProfileId pregnancy)%string)
                   (motherProfiles db) with
        | None =>
            (* reading [pregnancy.motherProfile.userId] of null throws *)
            (failure 500 "Erro ao atualizar gravidez", db)
        | Some motherProfile =>
            if negb (mp_userId motherProfile =? req_userId req)%string then
              (failure 403 "Você não tem permissão para atualizar esta gravidez", db)
            else
              match dueDateUpdate now1 now2 req with
              | None => (failure 400 "A data prevista deve ser no futuro", db)
              | Some change =>
                  let updateData p := statusUpdate req (change p) in
                  (mkResponse 200 true (Some "Gravidez atualizada com sucesso")
                              (Some (updateData pregnancy)),
                   pregnancy_update db id updateData)
              end
        end
    end.

(** [logSymptoms]: the week is copied from the active pregnancy. *)
Definition logSymptoms (db : Db) (req : Request) : Response SymptomLog * Db :=
  if negb (UserRole_eqb (req_role req) MOTHER) then
    (failure 403 "Apenas mães podem registrar sintomas", db)
  else
    match option_map (fun mp => activePregnancyOf db (mp_id mp))
                     (findMotherProfile db (req_userId req)) with
    | Some (Some pregnancy) =>
        let symptomLog :=
          mkSymptomLog (p_id pregnancy) (p_currentWeek pregnancy)
            (match body_symptoms req with Some l => l | None => [] end)
            (body_mood req) (body_notes req) in
        (mkResponse 201 true (Some "Sintomas registrados com sucesso")
                    (Some symptomLog),
         mkDb (motherProfiles db) (pregnancies db) (symptomLogs db ++ [symptomLog]))
    | _ => (failure 404 "Nenhuma gravidez ativa encontrada", db)
    end.

(** One request served by the pregnancy domain.  The handlers of the other
    domains (registration, profile update, onboarding) write mother profiles
    and leave the pregnancy table alone: [step_profiles] covers them. *)
Inductive step : Db -> Db -> Prop :=
| step_createPregnancy now1 now2 newId db req :
    step db (snd (createPregnancy now1 now2 newId db req))
| step_getCurrentPregnancy now db req :
    step db (snd (getCurrentPregnancy now db req))
| step_updatePregnancy now1 now2 db req :
    step db (snd (updatePregnancy now1 now2 db req))
| step_logSymptoms db req :
    step db (snd (logSymptoms db req))
| step_profiles db mps :
    step db (mkDb mps (pregnancies db) (symptomLogs db)).

Inductive steps : Db -> Db -> Prop :=
| steps_refl db : steps db db
| steps_step db1 db2 db3 : steps db1 db2 -> step db2 db3 -> steps db1 db3.



End Handlers.





End Pregnancy.

(** ** src/domains/events/events.controller.js *)

Module Events.

Inductive RegistrationStatus : Type := REGISTERED | WAITLIST | CANCELLED.

Definition RegistrationStatus_eqb (a b : RegistrationStatus) : bool :=
  match a, b with
  | REGISTERED, REGISTERED | WAITLIST, WAITLIST | CANCELLED, CANCELLED => true
  | _, _ => false
  end.

(** The columns of an event that registration reads.  [e_capacity] is a
    nullable integer; [createEvent] stores [req.body.capacity] unchecked. *)
Record Event : Type := mkEvent {
  e_id              : string;
  e_capacity        : option Z;
  e_waitlistEnabled : bool;
  e_isPublished     : bool
}.

Record EventRegistration : Type := mkRegistration {
  r_eventId     : string;
  r_userId      : string;
  r_status      : RegistrationStatus;
  r_cancelledAt : option Z
}.

Record Db : Type := mkDb {
  events        : list Event;
  registrations : list EventRegistration
}.

Record Request : Type := mkRequest {
  req_role          : UserRole;        (* req.user.role *)
  req_motherProfile : option string;   (* req.user.motherProfile, by its id *)
  params_id         : string           (* req.params.id *)
}.

(** [prisma.event.findUnique({ where: { id, isPublished: true } })] *)
Definition findPublishedEvent (db : Db) (id : string) : option Event :=
  find (fun e => (e_id e =? id)%string && e_isPublished e) (events db).

Definition isRegistrationOf (eventId userId : string) (r : EventRegistration) : bool :=
  (r_eventId r =? eventId)%string && (r_userId r =? userId)%string.

(** [prisma.eventRegistration.findUnique({ where: { eventId_userId } })] *)
Definition findRegistration (db : Db) (eventId userId : string)
  : option EventRegistration :=
  find (isRegistrationOf eventId userId) (registrations db).

(** [_count.registrations] with [where: { status: 'REGISTERED' }] *)
Definition registeredCount (db : Db) (eventId : string) : Z :=
  Z.of_nat (List.length
    (filter (fun r => (r_eventId r =? eventId)%string
                      && RegistrationStatus_eqb (r_status r) REGISTERED)
            (registrations db))).

(** [event.capacity && registeredCount >= event.capacity]: [null] and [0]
    are falsy. *)
Definition isFull (capacity : option Z) (registeredCount : Z) : bool :=
  match capacity with
  | None => false
  | Some c => negb (c =? 0) && (c <=? registeredCount)
  end.

(** [prisma.eventRegistration.create]: the compound unique index
    [eventId_userId] makes it throw on a second row for the pair. *)
Definition registration_create (db : Db) (row : EventRegistration) : option Db :=
  match findRegistration db (r_eventId row) (r_userId row) with
  | Some _ => None
  | None => Some (mkDb (events db) (registrations db ++ [row]))
  end.

(** [registerForEvent] *)
Definition registerForEvent (db : Db) (req : Request)
  : Response EventRegistration * Db :=
  if negb (UserRole_eqb (req_role req) MOTHER) then
    (failure 403 "Apenas mães podem se registrar em eventos", db)
  else
    let id := params_id req in
    match findPublishedEvent db id with
    | None => (failure 404 "Evento não encontrado", db)
    | Some event =>
        match req_motherProfile req with
        | None =>
            (* reading [req.user.motherProfile.id] of null throws *)
            (failure 500 "Erro ao realizar inscrição", db)
        | Some userId =>
            match findRegistration db id userId with
            | Some existing =>
                (failure 409 "Você já está registrada neste evento", db)
            | None =>
                let registeredCount := registeredCount db (e_id event) in
                let register status :=
                  let row := mkRegistration id userId status None in
                  match registration_create db row with
                  | Some db' =>
                      (mkResponse 201 true
                         (Some (if RegistrationStatus_eqb status WAITLIST
                                then "Você foi adicionada à lista de espera"
                                else "Inscrição realizada com sucesso"))
                         (Some row), db')
                  | None => (failure 500 "Erro ao realizar inscrição", db)
                  end in
                if isFull (e_capacity event) registeredCount then
                  if e_waitlistEnabled event then register WAITLIST
                  else (failure 400 "Este evento está lotado", db)
                else register REGISTERED
            end
        end
    end.

(** [data: { status: 'CANCELLED', cancelledAt: new Date() }] on the row of
    the pair. *)
Definition cancel (id userId : string) (now : Z) (r : EventRegistration)
  : EventRegistration :=
  if isRegistrationOf id userId r
  then mkRegistration (r_eventId r) (r_userId r) CANCELLED (Some now)
  else r.

(** [cancelRegistration]; [now] is the reading of the clock stored in
    [cancelledAt]. *)
Definition cancelRegistration (now : Z) (db : Db) (req : Request)
  : Response EventRegistration * Db :=
  if negb (UserRole_eqb (req_role req) MOTHER) then
    (failure 403 "Ação não permitida", db)
  else
    let id := params_id req in
    match req_motherProfile req with
    | None => (failure 500 "Erro ao cancelar inscrição", db)
    | Some userId =>
        match findRegistration db id userId with
        | None => (failure 404 "Você não está registrada neste evento", db)
        | Some registration =>
            (mkResponse 200 true (Some "Inscrição cancelada com sucesso") None,
             mkDb (events db) (map (cancel id userId now) (registrations db)))
        end
    end.

(** [publishEvent] of the administration routes:
    [prisma.event.update({ where: { id }, data: { isPublished: true } })],
    which throws when no event has the id. *)
Definition publishEvent (db : Db) (id : string) : Response Event * Db :=
  match find (fun e => (e_id e =? id)%string) (events db) with
  | None => (failure 500 "Erro ao publicar evento", db)
  | Some event =>
      let publish e := mkEvent (e_id e) (e_capacity e) (e_waitlistEnabled e) true in
      (mkResponse 200 true (Some "Evento publicado com sucesso")
                  (Some (publish event)),
       mkDb (map (fun e => if (e_id e =? id)%string then publish e else e)
                 (events db))
            (registrations db))
  end.

(** One request that writes the event tables.  [createEvent] stores a new
    event with [isPublished: false]; its validation of the other columns is
    not modelled, so [step_createEvent] allows every new unpublished event. *)
Inductive step : Db -> Db -> Prop :=
| step_createEvent db event :
    e_isPublished event = false ->
    step db (mkDb (events db ++ [event]) (registrations db))
| step_publishEvent db id :
    step db (snd (publishEvent db id))
| step_registerForEvent db req :
    step db (snd (registerForEvent db req))
| step_cancelRegistration now db req :
    step db (snd (cancelRegistration now db req)).

Inductive steps : Db -> Db -> Prop :=
| steps_refl db : steps db db
| steps_step db1 db2 db3 : steps db1 db2 -> step db2 db3 -> steps db1 db3.

(** Every registration row refers to a published event. *)
Definition registrations_published (db : Db) : Prop :=
  forall r, In r (registrations db) ->
    exists event, findPublishedEvent db (r_eventId r) = Some event.

(** The pair has a registration row, of whatever status. *)
Definition hasRegistration (db : Db) (eventId userId : string) : Prop :=
  exists r, findRegistration db eventId userId = Some r.

End Events.

(** ** src/domains/community/community.routes.js: reactions *)

Module Community.

Inductive ReactionType : Type := HEART | SUPPORT | CELEBRATE.

Definition ReactionType_eqb (a b : ReactionType) : bool :=
  match a, b with
  | HEART, HEART | SUPPORT, SUPPORT | CELEBRATE, CELEBRATE => true
  | _, _ => false
  end.

(** A reaction row as the handler writes it; the generated columns
    (identifier, creation time) are left out. *)
Record Reaction : Type := mkReaction {
  rx_type   : ReactionType;
  rx_postId : string;
  rx_userId : string
}.

(** [posts] holds the identifiers of the post rows. *)
Record Db : Type := mkDb {
  posts     : list string;
  reactions : list Reaction
}.

Record Request : Type := mkRequest {
  req_role          : UserRole;        (* req.user.role *)
  req_motherProfile : option string;   (* req.user.motherProfile, by its id *)
  params_id         : string;          (* req.params.id *)
  body_type         : option string    (* req.body.type *)
}.

(** [data: { action: 'removed' }] and [data: { action: 'added', reaction }] *)
Inductive ReactionAction : Type :=
| removed
| added (reaction : Reaction).

(** ['HEART', 'SUPPORT', 'CELEBRATE'].includes(type), with the enum value. *)
Definition typeOfString (s : string) : option ReactionType :=
  if (s =? "HEART")%string then Some HEART
  else if (s =? "SUPPORT")%string then Some SUPPORT
  else if (s =? "CELEBRATE")%string then Some CELEBRATE
  else None.

Definition isReactionOf (postId userId : string) (r : Reaction) : bool :=
  (rx_postId r =? postId)%string && (rx_userId r =? userId)%string.

(** [prisma.reaction.findUnique({ where: { postId_userId } })] *)
Definition findReaction (db : Db) (postId userId : string) : option Reaction :=
  find (isReactionOf postId userId) (reactions db).

(** [prisma.reaction.delete({ where: { postId_userId } })] *)
Definition reaction_delete (db : Db) (postId userId : string) : Db :=
  mkDb (posts db) (filter (fun r => negb (isReactionOf postId userId r)) (reactions db)).

(** Modelled from the spec: the schema of the reaction table, which is not
    among the sources ("foreign keys enforcing the ownership relationships,
    unique constraints on ... (post,user) reaction").  [create] throws when
    the post does not exist or the pair already has a row. *)
Definition reaction_create (db : Db) (row : Reaction) : option Db :=
  if negb (existsb (String.eqb (rx_postId row)) (posts db)) then None
  else
    match findReaction db (rx_postId row) (rx_userId row) with
    | Some _ => None
    | None => Some (mkDb (posts db) (reactions db ++ [row]))
    end.

(** [req.body.type] as a member of the list of valid types. *)
Definition requestedType (req : Request) : option ReactionType :=
  match body_type req with Some s => typeOfString s | None => None end.

(** [toggleReaction] *)
Definition toggleReaction (db : Db) (req : Request) : Response ReactionAction * Db :=
  if negb (UserRole_eqb (req_role req) MOTHER) then
    (failure 403 "Apenas mães podem reagir", db)
  else
    let id := params_id req in
    match requestedType req with
    | None => (failure 400 "Tipo de reação inválido", db)
    | Some type =>
        match req_motherProfile req with
        | None =>
            (* reading [req.user.motherProfile.id] of null throws *)
            (failure 500 "Erro ao processar reação", db)
        | Some userId =>
            match findReaction db id userId with
            | Some existing =>
                (mkResponse 200 true (Some "Reação removida") (Some removed),
                 reaction_delete db id userId)
            | None =>
                let reaction := mkReaction type id userId in
                match reaction_create db reaction with
                | Some db' =>
                    (mkResponse 201 true (Some "Reação adicionada")
                                (Some (added reaction)), db')
                | None => (failure 500 "Erro ao processar reação", db)
                end
            end
        end
    end.

(** One request that writes the tables of this module: a toggle, or a new
    post ([createPost]; posts are never removed, deletion only stamps
    [deletedAt]). *)
Inductive step : Db -> Db -> Prop :=
| step_toggleReaction db req :
    step db (snd (toggleReaction db req))
| step_createPost db postId :
    step db (mkDb (posts db ++ [postId]) (reactions db)).

Inductive steps : Db -> Db -> Prop :=
| steps_refl db : steps db db
| steps_step db1 db2 db3 : steps db1 db2 -> step db2 db3 -> steps db1 db3.

(** The unique index [postId_userId] and the foreign key to the posts. *)
Definition keyOf (r : Reaction) : string * string := (rx_postId r, rx_userId r).

Definition reaction_index (db : Db) : Prop :=
  NoDup (map keyOf (reactions db)).

Definition reaction_posts (db : Db) : Prop :=
  forall r, In r (reactions db) -> In (rx_postId r) (posts db).

(** The rows of one (post, user) pair, and the reaction count of a post. *)
Definition reactionsOf (db : Db) (postId userId : string) : list Reaction :=
  filter (isReactionOf postId userId) (reactions db).

Definition reactionCount (db : Db) (postId : string) : nat :=
  List.length (filter (fun r => (rx_postId r =? postId)%string) (reactions db)).

(** The same toggle request served twice in succession. *)
Definition toggleTwice (db : Db) (req : Request) : Response ReactionAction * Db :=
  toggleReaction (snd (toggleReaction db req)) req.

(** The three things a toggle can do to the tables. *)
Inductive ToggleEffect (db : Db) (req : Request) : Prop :=
| toggle_rejected :
    snd (toggleReaction db req) = db ->
    ToggleEffect db req
| toggle_removed userId type stored :
    req_role req = MOTHER ->
    requestedType req = Some type ->
    req_motherProfile req = Some userId ->
    findReaction db (params_id req) userId = Some stored ->
    toggleReaction db req
    = (mkResponse 200 true (Some "Reação removida") (Some removed),
       reaction_delete db (params_id req) userId) ->
    ToggleEffect db req
| toggle_added userId type :
    req_role req = MOTHER ->
    requestedType req = Some type ->
    req_motherProfile req = Some userId ->
    findReaction db (params_id req) userId = None ->
    In (params_id req) (posts db) ->
    toggleReaction db req
    = (mkResponse 201 true (Some "Reação adicionada")
         (Some (added (mkReaction type (params_id req) userId))),
       mkDb (posts db)
            (reactions db ++ [mkReaction type (params_id req) userId])) ->
    ToggleEffect db req.

End Community.

(** ** The account handlers (auth.controller.js, users.controller.js) and
       src/middleware/auth.js *)

Module Auth.

Import Validation.

Record MotherProfile : Type := mkMotherProfile {
  mp_fullName       : string;
  mp_onboardingDone : bool
}.

Record CollaboratorProfile : Type := mkCollaboratorProfile {
  cp_fullName    : string;
  cp_profession  : string;
  cp_specialties : list string;
  cp_isVerified  : bool
}.

Record AdminProfile : Type := mkAdminProfile {
  ap_fullName : string
}.

(** A user row together with the profiles that the queries include. *)
Record User : Type := mkUser {
  u_id                  : string;
  u_email               : string;
  u_passwordHash        : string;
  u_role                : UserRole;
  u_isVerified          : bool;
  u_motherProfile       : option MotherProfile;
  u_collaboratorProfile : option CollaboratorProfile;
  u_adminProfile        : option AdminProfile
}.

(** [const { passwordHash: _, ...userWithoutPassword } = user] *)
Record UserWithoutPassword : Type := mkUserWithoutPassword {
  w_id                  : string;
  w_email               : string;
  w_role                : UserRole;
  w_isVerified          : bool;
  w_motherProfile       : option MotherProfile;
  w_collaboratorProfile : option CollaboratorProfile;
  w_adminProfile        : option AdminProfile
}.

Definition withoutPassword (u : User) : UserWithoutPassword :=
  mkUserWithoutPassword (u_id u) (u_email u) (u_role u) (u_isVerified u)
    (u_motherProfile u) (u_collaboratorProfile u) (u_adminProfile u).

Record Db : Type := mkDb {
  users : list User
}.

(** The claims of a token: [{ userId, email, role }]. *)
Record TokenPayload : Type := mkTokenPayload {
  t_userId : string;
  t_email  : string;
  t_role   : UserRole
}.

(** The ways in which verification of a token throws. *)
Inductive TokenError : Type := TokenExpired | TokenTampered | TokenMalformed.

(** [data: { user: userWithoutPassword, token }] *)
Record Session : Type := mkSession {
  s_user  : UserWithoutPassword;
  s_token : string
}.

(** [req.body] of the account routes. *)
Record Body : Type := mkBody {
  body_email           : option string;
  body_password        : option string;
  body_role            : option string;
  body_fullName        : option string;
  body_profession      : option string;
  body_specialties     : option (list string);
  body_currentPassword : option string;
  body_newPassword     : option string
}.

Definition field (b : Body) (name : string) : option string :=
  if (name =? "email")%string then body_email b
  else if (name =? "password")%string then body_password b
  else if (name =? "role")%string then body_role b
  else if (name =? "fullName")%string then body_fullName b
  else if (name =? "profession")%string then body_profession b
  else if (name =? "currentPassword")%string then body_currentPassword b
  else if (name =? "newPassword")%string then body_newPassword b
  else None.

Definition join (l : list string) : string := String.concat ", " l.

(** ['MOTHER', 'COLLABORATOR'].includes(role), with the enum value. *)
Definition registrableRole (s : string) : option UserRole :=
  if (s =? "MOTHER")%string then Some MOTHER
  else if (s =? "COLLABORATOR")%string then Some COLLABORATOR
  else None.

(** [prisma.user.findUnique({ where: { email } })] *)
Definition findUserByEmail (db : Db) (email : string) : option User :=
  find (fun u => (u_email u =? email)%string) (users db).

(** [prisma.user.findUnique({ where: { id } })] *)
Definition findUserById (db : Db) (id : string) : option User :=
  find (fun u => (u_id u =? id)%string) (users db).

(** [prisma.user.create]: the unique index [users_email_key] of the
    migration makes it throw on a second row with the email. *)
Definition user_create (db : Db) (row : User) : option Db :=
  match findUserByEmail db (u_email row) with
  | Some _ => None
  | None => Some (mkDb (users db ++ [row]))
  end.

(** [authHeader.split(' ')] *)
Fixpoint splitSpaces (current : string) (s : string) : list string :=
  match s with
  | EmptyString => [current]
  | String c r =>
      if Ascii.eqb c " "%char then current :: splitSpaces "" r
      else splitSpaces (current ++ String c "") r
  end.

(** [authHeader.split(' ')[1]] *)
Definition bearerToken (authHeader : string) : option string :=
  nth_error (splitSpaces "" authHeader) 1.

(** What [authenticate] attaches to the request: [req.user], [req.userId]
    and [req.userRole]. *)
Record AuthContext : Type := mkAuthContext {
  ctx_user     : User;
  ctx_userId   : string;
  ctx_userRole : UserRole
}.

Section Handlers.

(** The bcryptjs library and the token codec of src/utils/jwt.js, which is
    not among the sources: [bcrypt.hash] draws a salt, [verifyToken] returns
    the claims or throws. *)
Variable bcrypt_hash : string -> string -> string.
Variable bcrypt_compare : string -> string -> bool.
Variable generateToken : TokenPayload -> string.
Variable verifyToken : option string -> TokenError + TokenPayload.

(** [register]; [newId] is the identifier the database gives the row and
    [salt] the salt that [bcrypt.hash] draws. *)
Definition register (newId salt : string) (db : Db) (b : Body)
  : Response Session * Db :=
  let (valid, missing) :=
    validateRequiredFields (field b) ["email"; "password"; "role"; "fullName"] in
  if negb valid then
    (failure 400 ("Campos obrigatórios ausentes: " ++ join missing), db)
  else
    match body_email b, body_password b, body_role b, body_fullName b with
    | Some email, Some password, Some role, Some fullName =>
        if negb (isValidEmail email) then (failure 400 "Email inválido", db)
        else if negb (isValidPassword (Some password)) then
          (failure 400 "A senha deve ter pelo menos 6 caracteres", db)
        else
          match registrableRole role with
          | None => (failure 400 "Role inválido. Use MOTHER ou COLLABORATOR", db)
          | Some userRole =>
              match findUserByEmail db email with
              | Some existingUser =>
                  (failure 409 "Este email já está cadastrado", db)
              | None =>
                  let passwordHash := bcrypt_hash salt password in
                  let userData motherProfile collaboratorProfile :=
                    mkUser newId email passwordHash userRole false
                           motherProfile collaboratorProfile None in
                  let create user :=
                    match user_create db user with
                    | Some db' =>
                        let token :=
                          generateToken
                            (mkTokenPayload (u_id user) (u_email user) (u_role user)) in
                        (mkResponse 201 true (Some "Usuário criado com sucesso")
                           (Some (mkSession (withoutPassword user) token)), db')
                    | None => (failure 500 "Erro ao criar usuário", db)
                    end in
                  match userRole with
                  | MOTHER =>
                      create (userData (Some (mkMotherProfile fullName false)) None)
                  | COLLABORATOR =>
                      if negb (truthy (body_profession b)) then
                        (failure 400 "Profissão é obrigatória para colaboradores", db)
                      else
                        create (userData None
                          (Some (mkCollaboratorProfile fullName
                             (match body_profession b with Some p => p | None => "" end)
                             (match body_specialties b with Some l => l | None => [] end)
                             false)))
                  | ADMIN => create (userData None None)
                  end
              end
          end
    | _, _, _, _ =>
        (* unreachable: a required field that passed the check is present *)
        (failure 400 ("Campos obrigatórios ausentes: " ++ join missing), db)
    end.

(** [login] *)
Definition login (db : Db) (b : Body) : Response Session * Db :=
  let (valid, missing) := validateRequiredFields (field b) ["email"; "password"] in
  if negb valid then
    (failure 400 ("Campos obrigatórios ausentes: " ++ join missing), db)
  else
    match body_email b, body_password b with
    | Some email, Some password =>
        match findUserByEmail db email with
        | None => (failure 401 "Email ou senha incorretos", db)
        | Some user =>
            let isPasswordValid := bcrypt_compare password (u_passwordHash user) in
            if negb isPasswordValid then
              (failure 401 "Email ou senha incorretos", db)
            else
              let token :=
                generateToken (mkTokenPayload (u_id user) (u_email user) (u_role user)) in
              (mkResponse 200 true (Some "Login realizado com sucesso")
                 (Some (mkSession (withoutPassword user) token)), db)
        end
    | _, _ =>
        (failure 400 ("Campos obrigatórios ausentes: " ++ join missing), db)
    end.

(** The two ways in which a login with both fields present fails. *)
Inductive LoginFails (db : Db) (b : Body) : Prop :=
| no_account email password :
    body_email b = Some email -> email <> "" ->
    body_password b = Some password -> password <> "" ->
    findUserByEmail db email = None ->
    LoginFails db b
| wrong_password email password user :
    body_email b = Some email -> email <> "" ->
    body_password b = Some password -> password <> "" ->
    findUserByEmail db email = Some user ->
    bcrypt_compare password (u_passwordHash user) = false ->
    LoginFails db b.

(** [changePassword] of the user routes, for the account [userId]. *)
Definition changePassword (salt : string) (userId : string) (db : Db) (b : Body)
  : Response Session * Db :=
  if negb (truthy (body_currentPassword b)) || negb (truthy (body_newPassword b)) then
    (failure 400 "Senha atual e nova senha são obrigatórias", db)
  else
    let currentPassword :=
      match body_currentPassword b with Some p => p | None => "" end in
    let newPassword :=
      match body_newPassword b with Some p => p | None => "" end in
    if Z.of_nat (String.length newPassword) <? 6 then
      (failure 400 "A nova senha deve ter pelo menos 6 caracteres", db)
    else
      match findUserById db userId with
      | None =>
          (* reading [user.passwordHash] of null throws *)
          (failure 500 "Erro ao alterar senha", db)
      | Some user =>
          if negb (bcrypt_compare currentPassword (u_passwordHash user)) then
            (failure 401 "Senha atual incorreta", db)
          else
            let passwordHash := bcrypt_hash salt newPassword in
            (mkResponse 200 true (Some "Senha alterada com sucesso") None,
             mkDb (map (fun u =>
                          if (u_id u =? userId)%string then
                            mkUser (u_id u) (u_email u) passwordHash (u_role u)
                                   (u_isVerified u) (u_motherProfile u)
                                   (u_collaboratorProfile u) (u_adminProfile u)
                          else u)
                       (users db)))
      end.

(** [authenticate(req, res, next)]: [authorization] is
    [req.headers.authorization] and [next] the rest of the route, which
    receives the request with the account attached.  The [catch] block
    answers every exception in the same way. *)
Definition authenticate {D : Type} (db : Db) (authorization : option string)
  (next : AuthContext -> Response D) : Response D :=
  match authorization with
  | None => failure 401 "Token de autenticação não fornecido"
  | Some authHeader =>
      if negb (truthy (Some authHeader)) || negb (prefix "Bearer " authHeader) then
        failure 401 "Token de autenticação não fornecido"
      else
        let token := bearerToken authHeader in
        match verifyToken token with
        | inl _ => failure 401 "Token inválido ou expirado"
        | inr decoded =>
            match findUserById db (t_userId decoded) with
            | None => failure 401 "Usuário não encontrado"
            | Some user => next (mkAuthContext user (u_id user) (u_role user))
            end
        end
  end.

(** One request that writes the user table.  Profile updates, onboarding
    and the verification of collaborators rewrite profile columns and leave
    [id], [email], the credential and the role of every row as they are:
    [step_profile] covers them. *)
Inductive step : Db -> Db -> Prop :=
| step_register newId salt db b :
    step db (snd (register newId salt db b))
| step_login db b :
    step db (snd (login db b))
| step_changePassword salt userId db b :
    step db (snd (changePassword salt userId db b))
| step_profile db (edit : User -> User) :
    (forall u, u_id (edit u) = u_id u /\ u_email (edit u) = u_email u) ->
    step db (mkDb (map edit (users db))).

Inductive steps : Db -> Db -> Prop :=
| steps_refl db : steps db db
| steps_step db1 db2 db3 : steps db1 db2 -> step db2 db3 -> steps db1 db3.

End Handlers.

(** The unique index on the email column. *)
Definition email_index (db : Db) : Prop :=
  NoDup (map u_email (users db)).

(** A registration body that passes every check made before the lookup of
    the email. *)
Definition passesValidation (b : Body) : bool :=
  truthy (body_email b) && truthy (body_password b) &&
  truthy (body_role b) && truthy (body_fullName b) &&
  match body_email b with Some e => isValidEmail e | None => false end &&
  isValidPassword (body_password b) &&
  match body_role b with
  | Some r => match registrableRole r with Some _ => true | None => false end
  | None => false
  end.

(** *** A small instance of the library functions, to run the handlers on
        examples: the credential is the salt followed by the password, and
        a token is the account id behind a marker. *)

Definition sample_hash (salt password : string) : string :=
  (salt ++ "$" ++ password)%string.

Definition sample_compare (password hash : string) : bool :=
  (hash =? sample_hash "salt" password)%string.

Definition sample_token (claims : TokenPayload) : string :=
  ("token-" ++ t_userId claims)%string.

Definition sample_verify (token : option string) : TokenError + TokenPayload :=
  match token with
  | Some t =>
      if (t =? "token-u1")%string then inr (mkTokenPayload "u1" "ana@example.com" MOTHER)
      else if (t =? "token-u9")%string then inr (mkTokenPayload "u9" "eva@example.com" MOTHER)
      else if (t =? "token-old")%string then inl TokenExpired
      else inl TokenTampered
  | None => inl TokenMalformed
  end.

Definition ana : User :=
  mkUser "u1" "ana@example.com" (sample_hash "salt" "segredo1") MOTHER false
         (Some (mkMotherProfile "Ana" false)) None None.

Definition emptyBody : Body :=
  mkBody None None None None None None None None.

Definition registration (email password role fullName : string) : Body :=
  mkBody (Some email) (Some password) (Some role) (Some fullName)
         None None None None.

Definition credentials (email password : string) : Body :=
  mkBody (Some email) (Some password) None None None None None None.

End Auth.

(** ** Further functions of the same files *)

(** *** src/utils/validation.js: [isValidPregnancyWeek] *)

Module Weeks.

(** [Number.isInteger(week) && week >= 1 && week <= 40] on a finite
    number. *)
Definition isValidPregnancyWeek (week : Q) : bool :=
  Qeq_bool (inject_Z (Qfloor week)) week && Qle_bool 1 week && Qle_bool week 40.

End Weeks.

(** *** src/middleware/auth.js: [authorize], and the routes that chain the
        two middlewares *)

Module Authorization.

Import Auth.

(** [authorize(...roles)(req, res, next)]: [user] is [req.user] and [next]
    the answer of the rest of the route. *)
Definition authorize {D : Type} (roles : list UserRole) (user : option User)
  (next : Response D) : Response D :=
  match user with
  | None => failure 401 "Não autenticado"
  | Some u =>
      if negb (existsb (UserRole_eqb (u_role u)) roles) then
        failure 403 "Você não tem permissão para acessar este recurso"
      else next
  end.

Definition isMother {D : Type} := @authorize D [MOTHER].
Definition isCollaborator {D : Type} := @authorize D [COLLABORATOR].
Definition isAdmin {D : Type} := @authorize D [ADMIN].
Definition isCollaboratorOrAdmin {D : Type} := @authorize D [COLLABORATOR; ADMIN].

(** [getCurrentUser] of the account controller, for [req.userId].  The
    pregnancy that the query includes in the mother profile is left out. *)
Definition getCurrentUser (db : Db) (userId : string)
  : Response UserWithoutPassword :=
  match findUserById db userId with
  | None => failure 404 "Usuário não encontrado"
  | Some user => mkResponse 200 true None (Some (withoutPassword user))
  end.

(** No code unit of the string is a space. *)
Fixpoint noSpace (s : string) : bool :=
  match s with
  | EmptyString => true
  | String c r => negb (Ascii.eqb c " "%char) && noSpace r
  end.

(** The value of the [Authorization] header that carries a token. *)
Definition bearer (token : string) : string := ("Bearer " ++ token)%string.

(** The row of [userId] with its credential replaced, as [changePassword]
    writes it. *)
Definition withPasswordHash (passwordHash : string) (u : User) : User :=
  mkUser (u_id u) (u_email u) passwordHash (u_role u) (u_isVerified u)
         (u_motherProfile u) (u_collaboratorProfile u) (u_adminProfile u).

(** The primary key of the user table. *)
Definition id_index (db : Db) : Prop := NoDup (map u_id (users db)).

(** The body of a [changePassword] request. *)
Definition passwordChange (currentPassword newPassword : string) : Body :=
  mkBody None None None None None None (Some currentPassword) (Some newPassword).

Section Routes.

Variable verifyToken : option string -> TokenError + TokenPayload.

(** [router.use(authenticate); router.post(path, authorize(...roles), handler)] *)
Definition guarded {D : Type} (roles : list UserRole) (db : Db)
  (authorization : option string) (handler : AuthContext -> Response D)
  : Response D :=
  authenticate verifyToken db authorization
    (fun ctx => authorize roles (Some (ctx_user ctx)) (handler ctx)).

(** [router.get('/me', authenticate, getCurrentUser)] *)
Definition me (db : Db) (authorization : option string)
  : Response UserWithoutPassword :=
  authenticate verifyToken db authorization
    (fun ctx => getCurrentUser db (ctx_userId ctx)).

End Routes.

End Authorization.

(** *** src/domains/events/events.controller.js: [getEventById] *)

Module EventViews.

Import Events.

(** The event as [getEventById] returns it: the row with the count of
    Registered rows, the registration of the requester when the request has
    a mother profile ([null] when she has none), [isFull] and [spotsLeft]. *)
Record EventView : Type := mkEventView {
  v_event           : Event;
  v_registeredCount : Z;
  v_registration    : option (option EventRegistration);
  v_isFull          : bool;
  v_spotsLeft       : option Z
}.

(** [getEventById]; [motherProfile] is [req.user?.motherProfile], by its
    id. *)
Definition getEventById (db : Db) (motherProfile : option string) (id : string)
  : Response EventView :=
  match findPublishedEvent db id with
  | None => failure 404 "Evento não encontrado"
  | Some event =>
      let registration :=
        match motherProfile with
        | Some userId => Some (findRegistration db id userId)
        | None => None
        end in
      let registeredCount := registeredCount db (e_id event) in
      (* [event.capacity ? ... : ...]: [null] and [0] are falsy *)
      let isFull :=
        match e_capacity event with
        | Some capacity =>
            if negb (capacity =? 0) then capacity <=? registeredCount else false
        | None => false
        end in
      let spotsLeft :=
        match e_capacity event with
        | Some capacity =>
            if negb (capacity =? 0) then Some (Z.max 0 (capacity - registeredCount))
            else None
        | None => None
        end in
      mkResponse 200 true None
        (Some (mkEventView event registeredCount registration isFull spotsLeft))
  end.

(** The compound unique index of the registration table. *)
Definition registration_index (db : Db) : Prop :=
  NoDup (map (fun r => (r_eventId r, r_userId r)) (registrations db)).

End EventViews.

(** *** src/domains/community/community.routes.js: groups and posts *)

Module Groups.

Import Validation.

(** The role of a member in a group: ['ADMIN'] or ['MEMBER']. *)
Inductive MemberRole : Type := GROUP_ADMIN | GROUP_MEMBER.

Record Group : Type := mkGroup {
  g_id          : string;
  g_name        : string;
  g_description : option string;
  g_isPublic    : bool;
  g_category    : option string;
  g_coverImage  : option string;
  g_createdById : string;
  g_deletedAt   : option Z
}.

Record GroupMember : Type := mkGroupMember {
  m_groupId : string;
  m_userId  : string;
  m_role    : MemberRole
}.

Record Db : Type := mkDb {
  groups  : list Group;
  members : list GroupMember
}.

Record Request : Type := mkRequest {
  req_role          : UserRole;        (* req.user.role *)
  req_motherProfile : option string;   (* req.user.motherProfile, by its id *)
  params_id         : string;          (* req.params.id *)
  body_name         : option string;
  body_description  : option string;
  body_isPublic     : option bool;
  body_category     : option string;
  body_coverImage   : option string
}.

Definition body (req : Request) (field : string) : option string :=
  if (field =? "name")%string then body_name req
  else if (field =? "description")%string then body_description req
  else if (field =? "category")%string then body_category req
  else if (field =? "coverImage")%string then body_coverImage req
  else None.

Definition join (l : list string) : string := String.concat ", " l.

(** [prisma.group.findUnique({ where: { id, deletedAt: null } })] *)
Definition findGroup (db : Db) (id : string) : option Group :=
  find (fun g => (g_id g =? id)%string
                 && match g_deletedAt g with None => true | Some _ => false end)
       (groups db).

Definition isMemberOf (groupId userId : string) (m : GroupMember) : bool :=
  (m_groupId m =? groupId)%string && (m_userId m =? userId)%string.

(** [prisma.groupMember.findUnique({ where: { groupId_userId } })] *)
Definition findMember (db : Db) (groupId userId : string) : option GroupMember :=
  find (isMemberOf groupId userId) (members db).

(** [include: { members: ... }]: the member rows of a group. *)
Definition membersOf (db : Db) (groupId : string) : list GroupMember :=
  filter (fun m => (m_groupId m =? groupId)%string) (members db).

(** The group as [getGroupById] returns it, with its members. *)
Record GroupView : Type := mkGroupView {
  v_group   : Group;
  v_members : list GroupMember
}.

(** [getGroupById]; [motherProfile] is [req.user.motherProfile?.id], which
    is [undefined] for an account that is not a mother and then equals the
    user of no member. *)
Definition getGroupById (db : Db) (motherProfile : option string) (id : string)
  : Response GroupView :=
  match findGroup db id with
  | None => failure 404 "Grupo não encontrado"
  | Some group =>
      let groupMembers := membersOf db (g_id group) in
      let isMember :=
        existsb (fun m => match motherProfile with
                          | Some userId => (m_userId m =? userId)%string
                          | None => false
                          end) groupMembers in
      if negb (g_isPublic group) && negb isMember then
        failure 403 "Este grupo é privado"
      else mkResponse 200 true None (Some (mkGroupView group groupMembers))
  end.

(** [prisma.group.create] with the nested [members: { create }]: the
    primary key of the group and the unique index [groupId_userId] of the
    members make it throw. *)
Definition group_create (db : Db) (group : Group) (member : GroupMember)
  : option Db :=
  if existsb (fun g => (g_id g =? g_id group)%string) (groups db) then None
  else
    match findMember db (m_groupId member) (m_userId member) with
    | Some _ => None
    | None => Some (mkDb (groups db ++ [group]) (members db ++ [member]))
    end.

(** [createGroup]; [newId] is the identifier the database gives the group. *)
Definition createGroup (newId : string) (db : Db) (req : Request)
  : Response Group * Db :=
  if negb (UserRole_eqb (req_role req) MOTHER) then
    (failure 403 "Apenas mães podem criar grupos", db)
  else
    let (valid, missing) := validateRequiredFields (body req) ["name"] in
    if negb valid then
      (failure 400 ("Campos obrigatórios ausentes: " ++ join missing), db)
    else
      match req_motherProfile req with
      | None => (failure 500 "Erro ao criar grupo", db)
      | Some userId =>
          let group :=
            mkGroup newId
              (match body_name req with Some n => n | None => "" end)
              (body_description req)
              (* [isPublic !== false] *)
              (match body_isPublic req with Some false => false | _ => true end)
              (body_category req) (body_coverImage req) userId None in
          match group_create db group (mkGroupMember newId userId GROUP_ADMIN) with
          | Some db' =>
              (mkResponse 201 true (Some "Grupo criado com sucesso") (Some group), db')
          | None => (failure 500 "Erro ao criar grupo", db)
          end
      end.

(** [joinGroup] *)
Definition joinGroup (db : Db) (req : Request) : Response GroupMember * Db :=
  if negb (UserRole_eqb (req_role req) MOTHER) then
    (failure 403 "Apenas mães podem entrar em grupos", db)
  else
    let id := params_id req in
    match findGroup db id with
    | None => (failure 404 "Grupo não encontrado", db)
    | Some group =>
        match req_motherProfile req with
        | None => (failure 500 "Erro ao entrar no grupo", db)
        | Some userId =>
            match findMember db id userId with
            | Some existingMember =>
                (failure 409 "Você já é membro deste grupo", db)
            | None =>
                let member := mkGroupMember id userId GROUP_MEMBER in
                (mkResponse 200 true (Some "Você entrou no grupo com sucesso")
                            (Some member),
                 mkDb (groups db) (members db ++ [member]))
            end
        end
    end.

(** [leaveGroup]: [prisma.groupMember.delete] throws P2025 when the pair
    has no row, which the handler answers with 404. *)
Definition leaveGroup (db : Db) (req : Request) : Response GroupMember * Db :=
  if negb (UserRole_eqb (req_role req) MOTHER) then
    (failure 403 "Ação não permitida", db)
  else
    let id := params_id req in
    match req_motherProfile req with
    | None => (failure 500 "Erro ao sair do grupo", db)
    | Some userId =>
        match findMember db id userId with
        | None => (failure 404 "Você não é membro deste grupo", db)
        | Some _ =>
            (mkResponse 200 true (Some "Você saiu do grupo") None,
             mkDb (groups db)
                  (filter (fun m => negb (isMemberOf id userId m)) (members db)))
        end
    end.

(** The requests that write to the two tables. *)
Inductive step : Db -> Db -> Prop :=
| step_createGroup newId db req :
    step db (snd (createGroup newId db req))
| step_joinGroup db req :
    step db (snd (joinGroup db req))
| step_leaveGroup db req :
    step db (snd (leaveGroup db req)).

Inductive steps : Db -> Db -> Prop :=
| steps_refl db : steps db db
| steps_step db1 db2 db3 : steps db1 db2 -> step db2 db3 -> steps db1 db3.

(** The primary key of the groups. *)
Definition group_index (db : Db) : Prop :=
  NoDup (map g_id (groups db)).

(** The unique index [groupId_userId] of the members. *)
Definition member_index (db : Db) : Prop :=
  NoDup (map (fun m => (m_groupId m, m_userId m)) (members db)).

End Groups.

Module Posts.

(** A post row; the [images] column, which no handler below reads, is left
    out. *)
Record Post : Type := mkPost {
  po_id        : string;
  po_content   : string;
  po_groupId   : option string;
  po_authorId  : string;
  po_deletedAt : option Z
}.

Record Db : Type := mkDb {
  posts : list Post
}.

Record Request : Type := mkRequest {
  req_role          : UserRole;        (* req.user.role *)
  req_motherProfile : option string;   (* req.user.motherProfile, by its id *)
  params_id         : string           (* req.params.id *)
}.

(** [getPostById]: [findUnique({ where: { id, deletedAt: null } })].  The
    comments and reactions that the query includes are left out. *)
Definition getPostById (db : Db) (id : string) : Response Post :=
  match find (fun p => (po_id p =? id)%string
                       && match po_deletedAt p with None => true | Some _ => false end)
             (posts db) with
  | None => failure 404 "Post não encontrado"
  | Some post => mkResponse 200 true None (Some post)
  end.

(** [deletePost]; [now] is the clock reading stored in [deletedAt]. *)
Definition deletePost (now : Z) (db : Db) (req : Request) : Response Post * Db :=
  let id := params_id req in
  match find (fun p => (po_id p =? id)%string) (posts db) with
  | None => (failure 404 "Post não encontrado", db)
  | Some post =>
      (* [post.authorId !== req.user.motherProfile?.id && role !== 'ADMIN'] *)
      if negb (match req_motherProfile req with
               | Some userId => (po_authorId post =? userId)%string
               | None => false
               end)
         && negb (UserRole_eqb (req_role req) ADMIN)
      then (failure 403 "Você não tem permissão para deletar este post", db)
      else
        (mkResponse 200 true (Some "Post deletado com sucesso") None,
         mkDb (map (fun p => if (po_id p =? id)%string
                             then mkPost (po_id p) (po_content p) (po_groupId p)
                                         (po_authorId p) (Some now)
                             else p)
                   (posts db)))
  end.

End Posts.

(** * Properties *)

(** ** Facts shared by the modules below *)

Ltac break_match :=
  match goal with
  | |- context [match ?x with _ => _ end] => destruct x eqn:?
  end.

Lemma UserRole_eqb_eq (a b : UserRole) : UserRole_eqb a b = true <-> a = b.
Proof. destruct a, b; simpl; split; congruence. Qed.

Lemma role_is_mother (r : UserRole) :
  r = MOTHER -> negb (UserRole_eqb r MOTHER) = false.
Proof. now intros ->. Qed.

Lemma find_app {A : Type} (f : A -> bool) (l l' : list A) :
  find f (l ++ l') = match find f l with Some x => Some x | None => find f l' end.
Proof. induction l as [|a l IH]; simpl; [reflexivity|]. now destruct (f a). Qed.

(** A lookup keeps succeeding when the rows are rewritten by a function that
    leaves the looked-up property of every row true. *)
Lemma find_map_some {A : Type} (f : A -> bool) (g : A -> A) (l : list A) (x : A) :
  (forall a, f a = true -> f (g a) = true) ->
  find f l = Some x -> exists y, find f (map g l) = Some y.
Proof.
  intros Hkeep. induction l as [|a l IH]; simpl; [discriminate|].
  destruct (f a) eqn:Hfa.
  - intros _. rewrite (Hkeep a Hfa). eauto.
  - intros Hfind. destruct (f (g a)); eauto.
Qed.

Module PregnancyWeek.

Import Pregnancy.

Lemma millisecondsPerWeek_val : millisecondsPerWeek = 604800000.
Proof. reflexivity. Qed.

(** The floor of [40 - d / W] is an integer division. *)
Lemma floor_week_div (now due : Z) :
  Qfloor (inject_Z weeksSinceLMP - weeksUntilDue now due)%Q
  = (40 * millisecondsPerWeek - (due - now)) / millisecondsPerWeek.
Proof.
  rewrite Zdiv_Qdiv. apply Qfloor_comp.
  unfold weeksUntilDue, weeksSinceLMP.
  replace (40 * millisecondsPerWeek - (due - now))
    with (40 * millisecondsPerWeek + - (due - now)) by ring.
  rewrite inject_Z_plus, inject_Z_opp, inject_Z_mult.
  field. discriminate.
Qed.

Lemma calculateCurrentWeek_div (now due : Z) :
  calculateCurrentWeek now due
  = Z.max 1 (Z.min 40
      ((40 * millisecondsPerWeek - (due - now)) / millisecondsPerWeek)).
Proof. unfold calculateCurrentWeek. cbv zeta. now rewrite floor_week_div. Qed.

Lemma floor_remaining_div (now due : Z) :
  weeksRemaining_rounded_down now due = (due - now) / millisecondsPerWeek.
Proof.
  unfold weeksRemaining_rounded_down, weeksUntilDue. now rewrite <- Zdiv_Qdiv.
Qed.

Lemma ceiling_remaining_div (now due : Z) :
  Qceiling (weeksUntilDue now due) = - ((- (due - now)) / millisecondsPerWeek).
Proof.
  unfold Qceiling. f_equal.
  rewrite Zdiv_Qdiv. apply Qfloor_comp.
  unfold weeksUntilDue. rewrite inject_Z_opp. field. discriminate.
Qed.

(** Subtracting the rounded-up remaining weeks from 40 is the floor the code
    takes. *)
Lemma floor_week_ceiling (now due : Z) :
  (40 * millisecondsPerWeek - (due - now)) / millisecondsPerWeek
  = 40 - Qceiling (weeksUntilDue now due).
Proof.
  rewrite ceiling_remaining_div.
  replace (40 * millisecondsPerWeek - (due - now))
    with (- (due - now) + 40 * millisecondsPerWeek) by ring.
  rewrite Z.div_add by discriminate. ring.
Qed.

(** C1, as claimed, fails: one day more than twelve weeks before the due
    date the code answers week 27, and the claimed formula gives 28. *)
Lemma claimed_week_differs :
  calculateCurrentWeek 0 (12 * millisecondsPerWeek + 86400000) = 27 /\
  claimed_currentWeek 0 (12 * millisecondsPerWeek + 86400000) = 28 /\
  ~ (forall now due, calculateCurrentWeek now due = claimed_currentWeek now due).
Proof.
  split; [reflexivity | split; [reflexivity |]].
  intros H. specialize (H 0 (12 * millisecondsPerWeek + 86400000)).
  vm_compute in H. discriminate H.
Qed.

(** C1, amended: the calculator is a function of the clock reading and the
    due date alone, equal to clamp(40 - weeksRemaining, 1, 40) with the
    remaining weeks (dueDate - now) / (7 days) rounded up, not down, which
    is the floor of 40 - (dueDate - now) / (7 days); it agrees with the
    claimed formula whenever the due date is a whole number of weeks away,
    and twelve weeks before the due date it returns 28. *)
Theorem calculateCurrentWeek_rounds_remaining_up :
  (forall now due,
     calculateCurrentWeek now due
     = Z.max 1 (Z.min 40 (40 - Qceiling (weeksUntilDue now due)))) /\
  (forall now k,
     calculateCurrentWeek now (now + k * millisecondsPerWeek)
     = claimed_currentWeek now (now + k * millisecondsPerWeek)) /\
  (forall now, calculateCurrentWeek now (now + 12 * millisecondsPerWeek) = 28).
Proof.
  split; [| split].
  - intros now due. rewrite calculateCurrentWeek_div. now rewrite floor_week_ceiling.
  - intros now k. rewrite calculateCurrentWeek_div.
    unfold claimed_currentWeek. rewrite floor_remaining_div.
    replace (now + k * millisecondsPerWeek - now) with (k * millisecondsPerWeek) by ring.
    replace (40 * millisecondsPerWeek - k * millisecondsPerWeek)
      with ((40 - k) * millisecondsPerWeek) by ring.
    now rewrite !Z.div_mul by discriminate.
  - intros now. rewrite calculateCurrentWeek_div.
    replace (40 * millisecondsPerWeek - (now + 12 * millisecondsPerWeek - now))
      with (28 * millisecondsPerWeek) by ring.
    now rewrite Z.div_mul by discriminate.
Qed.

(** C8: the computed week always lies in 1..40, and for a fixed due date it
    does not decrease when the clock advances. *)
Theorem calculateCurrentWeek_bounded_monotone (due now1 now2 : Z) :
  1 <= calculateCurrentWeek now1 due <= 40 /\
  (now1 <= now2 ->
   calculateCurrentWeek now1 due <= calculateCurrentWeek now2 due).
Proof.
  split.
  - unfold calculateCurrentWeek. cbv zeta. lia.
  - intros Hle. rewrite !calculateCurrentWeek_div.
    assert (Hdiv : (40 * millisecondsPerWeek - (due - now1)) / millisecondsPerWeek
                   <= (40 * millisecondsPerWeek - (due - now2)) / millisecondsPerWeek).
    { apply Z.div_le_mono; [reflexivity | lia]. }
    lia.
Qed.

Lemma calculateCurrentWeek_bounded_monotone_witness :
  (1 <= calculateCurrentWeek 0 (30 * millisecondsPerWeek) <= 40) /\
  calculateCurrentWeek 0 (30 * millisecondsPerWeek)
  <= calculateCurrentWeek (15 * millisecondsPerWeek) (30 * millisecondsPerWeek).
Proof.
  split.
  - apply (calculateCurrentWeek_bounded_monotone (30 * millisecondsPerWeek) 0 0).
  - apply (calculateCurrentWeek_bounded_monotone
             (30 * millisecondsPerWeek) 0 (15 * millisecondsPerWeek)).
    vm_compute. discriminate.
Defined.

End PregnancyWeek.

Module PregnancyInvariant.

Import Validation Pregnancy.

Lemma PregnancyStatus_eqb_eq (a b : PregnancyStatus) :
  PregnancyStatus_eqb a b = true <-> a = b.
Proof. destruct a, b; simpl; split; congruence. Qed.








Section Handlers.

Variable parseDate : string -> JsDate.



Lemma dueDateUpdate_keeps_profile now1 now2 req change p :
  dueDateUpdate parseDate now1 now2 req = Some change ->
  p_motherProfileId (change p) = p_motherProfileId p.
Proof.
  unfold dueDateUpdate. intros H.
  destruct (truthy _); [|injection H as <-; reflexivity].
  destruct (option_map _ _) as [[|due]|]; try discriminate.
  destruct (isFutureDate _ _); [|discriminate].
  injection H as <-. reflexivity.
Qed.


Lemma statusUpdate_keeps_profile req p :
  p_motherProfileId (statusUpdate req p) = p_motherProfileId p.
Proof. unfold statusUpdate. repeat (break_match; simpl; auto). Qed.






Lemma required_dueDate req :
  validateRequiredFields (body req) ["dueDate"]
  = if truthy (body_dueDate req) then (true, []) else (false, ["dueDate"]).
Proof.
  unfold validateRequiredFields, body. simpl.
  destruct (truthy (body_dueDate req)); reflexivity.
Qed.



End Handlers.



End PregnancyInvariant.

Module EventRegistration.

Import Events.

Lemma registration_create_fresh db eventId userId st :
  findRegistration db eventId userId = None ->
  registration_create db (mkRegistration eventId userId st None)
  = Some (mkDb (events db)
               (registrations db ++ [mkRegistration eventId userId st None])).
Proof. unfold registration_create. simpl. now intros ->. Qed.

(** C3, as claimed, fails: an event whose capacity is 0 is finite, and its
    count of Registered rows, 0, is at least the capacity; yet with the
    waitlist disabled the request is accepted, and with the waitlist
    enabled the new row is Registered, not Waitlisted. *)
Lemma registerForEvent_zero_capacity :
  let req := mkRequest MOTHER (Some "mp1") "e1" in
  let closed := mkDb [mkEvent "e1" (Some 0) false true] [] in
  let waiting := mkDb [mkEvent "e1" (Some 0) true true] [] in
  (0 <= registeredCount closed "e1") /\
  status (fst (registerForEvent closed req)) = 201 /\
  registrations (snd (registerForEvent closed req))
  = [mkRegistration "e1" "mp1" REGISTERED None] /\
  registrations (snd (registerForEvent waiting req))
  = [mkRegistration "e1" "mp1" REGISTERED None].
Proof. repeat split. discriminate. Qed.

(** C3, amended: for a published event whose capacity is a number other
    than 0 and a mother who has no registration row for it, a count of
    Registered rows that reaches the capacity makes the request fail with
    400 when the waitlist is disabled and creates a row with status
    Waitlisted when it is enabled; a count below the capacity creates a row
    with status Registered. *)
Theorem registerForEvent_capacity (db : Db) (req : Request)
  (event : Event) (userId : string) (capacity : Z) :
  req_role req = MOTHER ->
  req_motherProfile req = Some userId ->
  findPublishedEvent db (params_id req) = Some event ->
  findRegistration db (params_id req) userId = None ->
  e_capacity event = Some capacity ->
  capacity <> 0 ->
  (capacity <= registeredCount db (e_id event) ->
   e_waitlistEnabled event = false ->
   registerForEvent db req = (failure 400 "Este evento está lotado", db)) /\
  (capacity <= registeredCount db (e_id event) ->
   e_waitlistEnabled event = true ->
   status (fst (registerForEvent db req)) = 201 /\
   registrations (snd (registerForEvent db req))
   = (registrations db ++ [mkRegistration (params_id req) userId WAITLIST None])%list) /\
  (registeredCount db (e_id event) < capacity ->
   status (fst (registerForEvent db req)) = 201 /\
   registrations (snd (registerForEvent db req))
   = (registrations db ++ [mkRegistration (params_id req) userId REGISTERED None])%list).
Proof.
  intros Hrole Hmp Hevent Hnone Hcap Hnz.
  unfold registerForEvent.
  rewrite (role_is_mother _ Hrole), Hevent, Hmp, Hnone. cbv zeta.
  rewrite !registration_create_fresh by exact Hnone.
  unfold isFull. rewrite Hcap.
  apply Z.eqb_neq in Hnz. rewrite Hnz. simpl.
  split; [|split].
  - intros Hfull Hwait. apply Z.leb_le in Hfull. now rewrite Hfull, Hwait.
  - intros Hfull Hwait. apply Z.leb_le in Hfull. now rewrite Hfull, Hwait.
  - intros Hfree. apply Z.leb_gt in Hfree. now rewrite Hfree.
Qed.

Lemma registerForEvent_capacity_witness :
  let req := mkRequest MOTHER (Some "mp2") "e1" in
  let row := mkRegistration "e1" "mp1" REGISTERED None in
  let closed := mkDb [mkEvent "e1" (Some 1) false true] [row] in
  let waiting := mkDb [mkEvent "e1" (Some 1) true true] [row] in
  let free := mkDb [mkEvent "e1" (Some 2) false true] [row] in
  registerForEvent closed req = (failure 400 "Este evento está lotado", closed) /\
  registrations (snd (registerForEvent waiting req))
  = [row; mkRegistration "e1" "mp2" WAITLIST None] /\
  registrations (snd (registerForEvent free req))
  = [row; mkRegistration "e1" "mp2" REGISTERED None].
Proof.
  intros req row closed waiting free.
  destruct (registerForEvent_capacity closed req
              (mkEvent "e1" (Some 1) false true) "mp2" 1
              eq_refl eq_refl eq_refl eq_refl eq_refl) as (Hclosed & _ & _);
    [discriminate|].
  destruct (registerForEvent_capacity waiting req
              (mkEvent "e1" (Some 1) true true) "mp2" 1
              eq_refl eq_refl eq_refl eq_refl eq_refl) as (_ & Hwaiting & _);
    [discriminate|].
  destruct (registerForEvent_capacity free req
              (mkEvent "e1" (Some 2) false true) "mp2" 2
              eq_refl eq_refl eq_refl eq_refl eq_refl) as (_ & _ & Hfree);
    [discriminate|].
  split; [|split].
  - apply Hclosed; [vm_compute; discriminate | reflexivity].
  - apply Hwaiting; [vm_compute; discriminate | reflexivity].
  - apply Hfree. reflexivity.
Defined.

(** *** Cancelled registrations *)

Lemma cancel_keeps_key id userId now e u r :
  isRegistrationOf e u (cancel id userId now r) = isRegistrationOf e u r.
Proof. unfold cancel. now destruct (isRegistrationOf id userId r). Qed.

Lemma cancel_keeps_event id userId now r :
  r_eventId (cancel id userId now r) = r_eventId r.
Proof. unfold cancel. now destruct (isRegistrationOf id userId r). Qed.

(** What each handler leaves in the tables. *)
Lemma registerForEvent_db db req :
  snd (registerForEvent db req) = db \/
  exists event row,
    findPublishedEvent db (params_id req) = Some event /\
    r_eventId row = params_id req /\
    snd (registerForEvent db req) = mkDb (events db) (registrations db ++ [row]).
Proof.
  unfold registerForEvent.
  destruct (negb _); [now left|].
  destruct (findPublishedEvent db (params_id req)) as [event|] eqn:Hev; [|now left].
  destruct (req_motherProfile req) as [userId|]; [|now left].
  destruct (findRegistration db (params_id req) userId) eqn:Hnone; [now left|].
  cbv zeta. rewrite !registration_create_fresh by exact Hnone.
  destruct (isFull _ _); [destruct (e_waitlistEnabled event)|];
    simpl; try (now left);
    right; eexists event, _; (split; [reflexivity | split; [|reflexivity]]);
    reflexivity.
Qed.

Lemma cancelRegistration_db now db req :
  snd (cancelRegistration now db req) = db \/
  exists userId,
    snd (cancelRegistration now db req)
    = mkDb (events db) (map (cancel (params_id req) userId now) (registrations db)).
Proof.
  unfold cancelRegistration.
  destruct (negb _); [now left|].
  destruct (req_motherProfile req) as [userId|]; [|now left].
  destruct (findRegistration db (params_id req) userId); [|now left].
  right. exists userId. reflexivity.
Qed.

Lemma publishEvent_db db id :
  snd (publishEvent db id)
  = mkDb (map (fun e => if (e_id e =? id)%string
                        then mkEvent (e_id e) (e_capacity e) (e_waitlistEnabled e) true
                        else e)
              (events db)) (registrations db)
  \/ snd (publishEvent db id) = db.
Proof. unfold publishEvent. destruct (find _ _); [now left | now right]. Qed.

Lemma step_keeps_published_event db db' id event :
  step db db' -> findPublishedEvent db id = Some event ->
  exists event', findPublishedEvent db' id = Some event'.
Proof.
  intros Hstep Hfind. destruct Hstep.
  - unfold findPublishedEvent. simpl. rewrite find_app.
    unfold findPublishedEvent in Hfind. rewrite Hfind. eauto.
  - destruct (publishEvent_db db id0) as [-> | ->]; [|eauto].
    unfold findPublishedEvent in *. simpl.
    eapply find_map_some; [|exact Hfind].
    intros a Ha. destruct (e_id a =? id0)%string; [|exact Ha].
    simpl. apply andb_true_iff in Ha as [-> _]. reflexivity.
  - destruct (registerForEvent_db db req) as [-> | (ev & row & _ & _ & ->)]; eauto.
  - destruct (cancelRegistration_db now db req) as [-> | (u & ->)]; eauto.
Qed.

Lemma step_keeps_registration db db' eventId userId :
  step db db' -> hasRegistration db eventId userId ->
  hasRegistration db' eventId userId.
Proof.
  intros Hstep [r Hfind]. unfold hasRegistration, findRegistration in *.
  destruct Hstep.
  - simpl. eauto.
  - destruct (publishEvent_db db id) as [-> | ->]; simpl; eauto.
  - destruct (registerForEvent_db db req) as [-> | (ev & row & _ & _ & ->)];
      [eauto|].
    simpl. rewrite find_app, Hfind. eauto.
  - destruct (cancelRegistration_db now db req) as [-> | (u & ->)]; [eauto|].
    simpl. eapply find_map_some; [|exact Hfind].
    intros a Ha. now rewrite cancel_keeps_key.
Qed.

Lemma step_published db db' :
  step db db' -> registrations_published db -> registrations_published db'.
Proof.
  intros Hstep Hpub r Hin.
  assert (Hold : forall r0, In r0 (registrations db) ->
            exists event, findPublishedEvent db' (r_eventId r0) = Some event).
  { intros r0 Hr0. destruct (Hpub r0 Hr0) as [ev Hev].
    eapply step_keeps_published_event; eauto. }
  pose proof Hstep as Hstep'.
  destruct Hstep.
  - apply Hold. exact Hin.
  - destruct (publishEvent_db db id) as [Heq | Heq]; rewrite Heq in *;
      apply Hold; exact Hin.
  - destruct (registerForEvent_db db req) as [Heq | (ev & row & Hev & Hrow & Heq)];
      rewrite Heq in *; [apply Hold; exact Hin|].
    simpl in Hin. apply in_app_iff in Hin as [Hin | [<- | []]]; [now apply Hold|].
    rewrite Hrow. eapply step_keeps_published_event; eauto.
  - destruct (cancelRegistration_db now db req) as [Heq | (u & Heq)];
      rewrite Heq in *; [apply Hold; exact Hin|].
    simpl in Hin. apply in_map_iff in Hin as (r0 & <- & Hr0).
    rewrite cancel_keeps_event. now apply Hold.
Qed.

Lemma steps_published db db' :
  steps db db' -> registrations_published db -> registrations_published db'.
Proof. induction 1; eauto using step_published. Qed.

Lemma steps_keep_registration db db' eventId userId :
  steps db db' -> hasRegistration db eventId userId ->
  hasRegistration db' eventId userId.
Proof. induction 1; eauto using step_keeps_registration. Qed.

(** The duplicate check answers 409 for a row of any status. *)
Lemma registerForEvent_existing db req userId :
  registrations_published db ->
  req_role req = MOTHER ->
  req_motherProfile req = Some userId ->
  hasRegistration db (params_id req) userId ->
  registerForEvent db req
  = (failure 409 "Você já está registrada neste evento", db).
Proof.
  intros Hpub Hrole Hmp [r Hfind].
  assert (Hev : exists event, findPublishedEvent db (params_id req) = Some event).
  { apply find_some in Hfind as Hr. destruct Hr as [Hin Hkey].
    destruct (Hpub r Hin) as [ev Hev]. exists ev.
    apply andb_true_iff in Hkey as [Hid _].
    apply String.eqb_eq in Hid. now rewrite <- Hid. }
  destruct Hev as [ev Hev].
  unfold registerForEvent.
  now rewrite (role_is_mother _ Hrole), Hev, Hmp, Hfind.
Qed.

(** A successful cancellation, unfolded. *)
Lemma cancelRegistration_ok now db req :
  status (fst (cancelRegistration now db req)) = 200 ->
  exists userId registration,
    req_role req = MOTHER /\
    req_motherProfile req = Some userId /\
    findRegistration db (params_id req) userId = Some registration /\
    snd (cancelRegistration now db req)
    = mkDb (events db) (map (cancel (params_id req) userId now) (registrations db)).
Proof.
  unfold cancelRegistration.
  destruct (req_role req); simpl; try discriminate.
  destruct (req_motherProfile req) as [userId|]; simpl; [|discriminate].
  destruct (findRegistration db (params_id req) userId) as [r|] eqn:Hr;
    simpl; [|discriminate].
  intros _. exists userId, r.
  split; [reflexivity | split; [reflexivity | split; [exact Hr | reflexivity]]].
Qed.

Lemma find_cancelled id userId now l r :
  find (isRegistrationOf id userId) l = Some r ->
  find (isRegistrationOf id userId) (map (cancel id userId now) l)
  = Some (mkRegistration id userId CANCELLED (Some now)).
Proof.
  induction l as [|a l IH]; simpl; [discriminate|].
  rewrite cancel_keeps_key.
  destruct (isRegistrationOf id userId a) eqn:Ha; [|exact IH].
  intros _. unfold cancel. rewrite Ha.
  apply andb_true_iff in Ha as [He Hu].
  apply String.eqb_eq in He, Hu. now rewrite He, Hu.
Qed.

(** C9: a successful cancellation keeps the registration row and sets its
    status to Cancelled; from then on, whatever requests are served, every
    attempt of the same user to register for the same event is answered 409
    Conflict and changes nothing. *)
Theorem cancelled_registration_blocks_registration
  (db0 db : Db) (now : Z) (req : Request) :
  registrations_published db0 ->
  steps db0 db ->
  status (fst (cancelRegistration now db req)) = 200 ->
  (exists userId,
     req_motherProfile req = Some userId /\
     findRegistration (snd (cancelRegistration now db req)) (params_id req) userId
     = Some (mkRegistration (params_id req) userId CANCELLED (Some now)) /\
     map (fun r => (r_eventId r, r_userId r))
         (registrations (snd (cancelRegistration now db req)))
     = map (fun r => (r_eventId r, r_userId r)) (registrations db)) /\
  (forall db2,
     steps (snd (cancelRegistration now db req)) db2 ->
     registerForEvent db2 req
     = (failure 409 "Você já está registrada neste evento", db2)).
Proof.
  intros Hpub Hsteps Hok.
  destruct (cancelRegistration_ok now db req Hok)
    as (userId & r & Hrole & Hmp & Hfind & Hdb).
  assert (Hfound : findRegistration (snd (cancelRegistration now db req))
                     (params_id req) userId
                   = Some (mkRegistration (params_id req) userId CANCELLED (Some now))).
  { rewrite Hdb. unfold findRegistration. simpl. eapply find_cancelled; eauto. }
  split.
  - exists userId. split; [exact Hmp | split; [exact Hfound|]].
    rewrite Hdb. simpl. rewrite map_map. apply map_ext.
    intros a. unfold cancel. now destruct (isRegistrationOf _ _ a).
  - intros db2 Hsteps2.
    assert (Hpub1 : registrations_published (snd (cancelRegistration now db req))).
    { eapply step_published; [apply step_cancelRegistration|].
      eapply steps_published; eauto. }
    apply (registerForEvent_existing db2 req userId); auto.
    + eapply steps_published; eauto.
    + eapply steps_keep_registration; [exact Hsteps2|].
      eexists. exact Hfound.
Qed.

(** A mother registers, cancels, and tries again after another mother has
    taken the free place. *)
Lemma cancelled_registration_blocks_registration_witness :
  let db0 := mkDb [mkEvent "e1" (Some 1) false true] [] in
  let ana := mkRequest MOTHER (Some "mp1") "e1" in
  let bia := mkRequest MOTHER (Some "mp2") "e1" in
  let db := snd (registerForEvent db0 ana) in
  let db1 := snd (cancelRegistration 7 db ana) in
  let db2 := snd (registerForEvent db1 bia) in
  registrations db1 = [mkRegistration "e1" "mp1" CANCELLED (Some 7)] /\
  registerForEvent db2 ana
  = (failure 409 "Você já está registrada neste evento", db2).
Proof.
  intros db0 ana bia db db1 db2.
  assert (Hpub : registrations_published db0) by (intros r []).
  assert (Hsteps : steps db0 db).
  { eapply steps_step; [apply steps_refl | apply step_registerForEvent]. }
  destruct (cancelled_registration_blocks_registration db0 db 7 ana
              Hpub Hsteps eq_refl) as (_ & Hblocked).
  split; [reflexivity|].
  apply Hblocked.
  eapply steps_step; [apply steps_refl | apply step_registerForEvent].
Defined.

End EventRegistration.

Module Reactions.

Import Community.

Lemma isReactionOf_key postId userId r :
  isReactionOf postId userId r = true <-> keyOf r = (postId, userId).
Proof.
  unfold isReactionOf, keyOf. rewrite andb_true_iff, !String.eqb_eq.
  split; [intros [-> ->]; reflexivity | intros [= -> ->]; auto].
Qed.

Lemma find_none_key postId userId l :
  find (isReactionOf postId userId) l = None ->
  ~ In (postId, userId) (map keyOf l).
Proof.
  intros Hfind Hin. apply in_map_iff in Hin as (r & Hkey & Hin).
  apply (find_none _ _ Hfind) in Hin.
  apply isReactionOf_key in Hkey. congruence.
Qed.

Lemma not_in_key_find postId userId l :
  ~ In (postId, userId) (map keyOf l) ->
  find (isReactionOf postId userId) l = None.
Proof.
  induction l as [|a l IH]; simpl; [reflexivity|]. intros Hnot.
  destruct (isReactionOf postId userId a) eqn:Ha.
  - exfalso. apply Hnot. left. now apply isReactionOf_key.
  - apply IH. tauto.
Qed.

Lemma filter_absent postId userId l :
  find (isReactionOf postId userId) l = None ->
  filter (fun r => negb (isReactionOf postId userId r)) l = l.
Proof.
  induction l as [|a l IH]; simpl; [reflexivity|].
  destruct (isReactionOf postId userId a); [discriminate|].
  simpl. intros H. now rewrite IH.
Qed.

Lemma find_after_delete postId userId l :
  find (isReactionOf postId userId)
       (filter (fun r => negb (isReactionOf postId userId r)) l) = None.
Proof.
  induction l as [|a l IH]; simpl; [reflexivity|].
  destruct (isReactionOf postId userId a) eqn:Ha; simpl; [exact IH|].
  now rewrite Ha.
Qed.

Lemma filter_after_delete postId userId l :
  filter (isReactionOf postId userId)
         (filter (fun r => negb (isReactionOf postId userId r)) l) = [].
Proof.
  induction l as [|a l IH]; simpl; [reflexivity|].
  destruct (isReactionOf postId userId a) eqn:Ha; simpl; [exact IH|].
  now rewrite Ha.
Qed.

Lemma NoDup_map_filter {A B : Type} (k : A -> B) (f : A -> bool) (l : list A) :
  NoDup (map k l) -> NoDup (map k (filter f l)).
Proof.
  induction l as [|a l IH]; simpl; intros Hnd; [constructor|].
  inversion Hnd as [|? ? Hnotin Hnd']; subst.
  destruct (f a); simpl; [|auto].
  constructor; [|auto].
  intros Hin. apply Hnotin.
  apply in_map_iff in Hin as (x & Hx & Hin). apply filter_In in Hin as [Hin _].
  apply in_map_iff. eauto.
Qed.

(** Deleting the row of a pair removes exactly one row of its post. *)
Lemma count_after_delete postId userId q l stored :
  NoDup (map keyOf l) ->
  find (isReactionOf postId userId) l = Some stored ->
  (List.length (filter (fun r => (rx_postId r =? q)%string)
                  (filter (fun r => negb (isReactionOf postId userId r)) l))
   + (if (postId =? q)%string then 1 else 0)
   = List.length (filter (fun r => (rx_postId r =? q)%string) l))%nat.
Proof.
  induction l as [|a l IH]; simpl; [discriminate|].
  intros Hnd Hfind. inversion Hnd as [|? ? Hnotin Hnd']; subst.
  destruct (isReactionOf postId userId a) eqn:Ha; simpl.
  - assert (Hkey : keyOf a = (postId, userId)) by now apply isReactionOf_key.
    rewrite Hkey in Hnotin.
    rewrite (filter_absent _ _ _ (not_in_key_find _ _ _ Hnotin)).
    injection Hkey as Hp _. rewrite Hp.
    destruct (postId =? q)%string; simpl; lia.
  - specialize (IH Hnd' Hfind).
    destruct (rx_postId a =? q)%string; simpl; lia.
Qed.

Lemma length_after_delete postId userId l stored :
  NoDup (map keyOf l) ->
  find (isReactionOf postId userId) l = Some stored ->
  S (List.length (filter (fun r => negb (isReactionOf postId userId r)) l))
  = List.length l.
Proof.
  induction l as [|a l IH]; simpl; [discriminate|].
  intros Hnd Hfind. inversion Hnd as [|? ? Hnotin Hnd']; subst.
  destruct (isReactionOf postId userId a) eqn:Ha; simpl.
  - assert (Hkey : keyOf a = (postId, userId)) by now apply isReactionOf_key.
    rewrite Hkey in Hnotin.
    now rewrite (filter_absent _ _ _ (not_in_key_find _ _ _ Hnotin)).
  - now rewrite (IH Hnd' Hfind).
Qed.

Lemma post_exists db postId :
  In postId (posts db) -> existsb (String.eqb postId) (posts db) = true.
Proof. intros Hin. apply existsb_exists. exists postId. now rewrite String.eqb_refl. Qed.

Lemma toggleReaction_effect db req : ToggleEffect db req.
Proof.
  destruct (UserRole_eqb (req_role req) MOTHER) eqn:Hrole.
  2:{ apply toggle_rejected. unfold toggleReaction. now rewrite Hrole. }
  assert (Hmother : req_role req = MOTHER)
    by (destruct (req_role req); auto; discriminate).
  destruct (requestedType req) as [type|] eqn:Htype.
  2:{ apply toggle_rejected. unfold toggleReaction. now rewrite Hrole, Htype. }
  destruct (req_motherProfile req) as [userId|] eqn:Hmp.
  2:{ apply toggle_rejected. unfold toggleReaction. now rewrite Hrole, Htype, Hmp. }
  destruct (findReaction db (params_id req) userId) as [stored|] eqn:Hfind.
  - apply (toggle_removed db req userId type stored); auto.
    unfold toggleReaction. now rewrite Hrole, Htype, Hmp, Hfind.
  - destruct (existsb (String.eqb (params_id req)) (posts db)) eqn:Hpost.
    + apply (toggle_added db req userId type); auto.
      * apply existsb_exists in Hpost as (x & Hin & Hx).
        apply String.eqb_eq in Hx. now subst x.
      * unfold toggleReaction. rewrite Hrole, Htype, Hmp, Hfind. simpl.
        unfold reaction_create. simpl. now rewrite Hpost, Hfind.
    + apply toggle_rejected.
      unfold toggleReaction. rewrite Hrole, Htype, Hmp, Hfind. simpl.
      unfold reaction_create. simpl. now rewrite Hpost.
Qed.

Lemma toggleReaction_index db req :
  reaction_index db -> reaction_index (snd (toggleReaction db req)).
Proof.
  intros Hidx. destruct (toggleReaction_effect db req) as
    [Hsame | userId type stored _ _ _ _ Heq | userId type _ _ _ Hnone _ Heq].
  - now rewrite Hsame.
  - rewrite Heq. simpl. unfold reaction_index, reaction_delete. simpl.
    now apply NoDup_map_filter.
  - rewrite Heq. unfold reaction_index. simpl. rewrite map_app. simpl.
    apply NoDup_app; [exact Hidx | repeat constructor; intros [] |].
    intros k Hin [<- | []]. simpl in Hin.
    now apply (find_none_key _ _ _ Hnone).
Qed.

Lemma toggleReaction_posts db req :
  reaction_posts db -> reaction_posts (snd (toggleReaction db req)).
Proof.
  intros Hfk. destruct (toggleReaction_effect db req) as
    [Hsame | userId type stored _ _ _ _ Heq | userId type _ _ _ _ Hpost Heq].
  - now rewrite Hsame.
  - rewrite Heq. intros r Hin. simpl in *.
    apply filter_In in Hin as [Hin _]. now apply Hfk.
  - rewrite Heq. intros r Hin. simpl in *.
    apply in_app_iff in Hin as [Hin | [<- | []]]; [now apply Hfk | exact Hpost].
Qed.

Lemma steps_reaction_index db db' :
  steps db db' -> reaction_index db -> reaction_index db'.
Proof.
  induction 1 as [|db1 db2 db3 _ IH Hstep]; intros Hidx; [exact Hidx|].
  destruct Hstep; [apply toggleReaction_index | ]; auto.
Qed.

Lemma toggleReaction_existing db req userId type stored :
  req_role req = MOTHER -> requestedType req = Some type ->
  req_motherProfile req = Some userId ->
  findReaction db (params_id req) userId = Some stored ->
  toggleReaction db req
  = (mkResponse 200 true (Some "Reação removida") (Some removed),
     reaction_delete db (params_id req) userId).
Proof.
  intros Hrole Htype Hmp Hfind.
  unfold toggleReaction. now rewrite (role_is_mother _ Hrole), Htype, Hmp, Hfind.
Qed.

Lemma toggleReaction_absent db req userId type :
  req_role req = MOTHER -> requestedType req = Some type ->
  req_motherProfile req = Some userId ->
  findReaction db (params_id req) userId = None ->
  In (params_id req) (posts db) ->
  toggleReaction db req
  = (mkResponse 201 true (Some "Reação adicionada")
       (Some (added (mkReaction type (params_id req) userId))),
     mkDb (posts db) (reactions db ++ [mkReaction type (params_id req) userId])).
Proof.
  intros Hrole Htype Hmp Hfind Hpost.
  unfold toggleReaction. rewrite (role_is_mother _ Hrole), Htype, Hmp, Hfind.
  simpl. unfold reaction_create. simpl.
  now rewrite (post_exists _ _ Hpost), Hfind.
Qed.

Lemma isReactionOf_new type postId userId :
  isReactionOf postId userId (mkReaction type postId userId) = true.
Proof. unfold isReactionOf. simpl. now rewrite !String.eqb_refl. Qed.

(** A reaction that was just added is removed by the next toggle. *)
Lemma toggleTwice_absent db req userId type :
  req_role req = MOTHER -> requestedType req = Some type ->
  req_motherProfile req = Some userId ->
  findReaction db (params_id req) userId = None ->
  In (params_id req) (posts db) ->
  toggleTwice db req
  = (mkResponse 200 true (Some "Reação removida") (Some removed), db).
Proof.
  intros Hrole Htype Hmp Hfind Hpost. unfold toggleTwice.
  rewrite (toggleReaction_absent db req userId type) by assumption. simpl.
  erewrite toggleReaction_existing; eauto.
  - f_equal. unfold reaction_delete. simpl.
    rewrite filter_app. simpl. rewrite isReactionOf_new. simpl.
    rewrite app_nil_r, filter_absent by exact Hfind. now destruct db.
  - unfold findReaction. simpl. rewrite find_app.
    unfold findReaction in Hfind. rewrite Hfind. simpl.
    now rewrite isReactionOf_new.
Qed.

(** A reaction that was there is removed, and the next toggle adds one of
    the requested type. *)
Lemma toggleTwice_existing db req userId type stored :
  reaction_posts db ->
  req_role req = MOTHER -> requestedType req = Some type ->
  req_motherProfile req = Some userId ->
  findReaction db (params_id req) userId = Some stored ->
  toggleTwice db req
  = (mkResponse 201 true (Some "Reação adicionada")
       (Some (added (mkReaction type (params_id req) userId))),
     mkDb (posts db)
          (filter (fun r => negb (isReactionOf (params_id req) userId r))
                  (reactions db)
           ++ [mkReaction type (params_id req) userId])).
Proof.
  intros Hfk Hrole Htype Hmp Hfind. unfold toggleTwice.
  rewrite (toggleReaction_existing db req userId type stored) by assumption.
  simpl. erewrite toggleReaction_absent; eauto.
  - unfold findReaction, reaction_delete. simpl. apply find_after_delete.
  - simpl. apply find_some in Hfind as [Hin Hkey].
    apply isReactionOf_key in Hkey. injection Hkey as <- _. now apply Hfk.
Qed.

Lemma reactionsOf_length db postId userId :
  reaction_index db -> (List.length (reactionsOf db postId userId) <= 1)%nat.
Proof.
  unfold reaction_index, reactionsOf.
  induction (reactions db) as [|a l IH]; simpl; intros Hnd; [lia|].
  inversion Hnd as [|? ? Hnotin Hnd']; subst.
  destruct (isReactionOf postId userId a) eqn:Ha; [|auto].
  apply isReactionOf_key in Ha. rewrite Ha in Hnotin.
  assert (Hnone : filter (isReactionOf postId userId) l = []).
  { clear IH Hnd Hnd'. induction l as [|b l IH]; simpl; [reflexivity|].
    destruct (isReactionOf postId userId b) eqn:Hb.
    - exfalso. apply Hnotin. left. now apply isReactionOf_key.
    - apply IH. intros Hin. apply Hnotin. now right. }
  simpl. rewrite Hnone. simpl. lia.
Qed.

(** C10: in every state reached from one that respects the unique index,
    a (post, user) pair has at most one reaction row; the toggle finds the
    row by the pair alone, so a call with any valid type, in particular one
    that differs from the stored type, removes the row: afterwards the pair
    has no row, one row less is stored, and the other rows are untouched. *)
Theorem toggleReaction_one_row_per_pair (db0 db : Db) :
  reaction_index db0 ->
  steps db0 db ->
  (forall postId userId,
     (List.length (reactionsOf db postId userId) <= 1)%nat) /\
  (forall req userId s type stored,
     req_role req = MOTHER ->
     req_motherProfile req = Some userId ->
     body_type req = Some s ->
     typeOfString s = Some type ->
     findReaction db (params_id req) userId = Some stored ->
     fst (toggleReaction db req)
     = mkResponse 200 true (Some "Reação removida") (Some removed) /\
     reactions (snd (toggleReaction db req))
     = filter (fun r => negb (isReactionOf (params_id req) userId r))
              (reactions db) /\
     reactionsOf (snd (toggleReaction db req)) (params_id req) userId = [] /\
     S (List.length (reactions (snd (toggleReaction db req))))
     = List.length (reactions db)).
Proof.
  intros Hidx0 Hsteps.
  pose proof (steps_reaction_index _ _ Hsteps Hidx0) as Hidx.
  split.
  - intros postId userId. now apply reactionsOf_length.
  - intros req userId s type stored Hrole Hmp Hs Htype Hfind.
    assert (Hreq : requestedType req = Some type)
      by (unfold requestedType; now rewrite Hs).
    rewrite (toggleReaction_existing db req userId type stored) by assumption.
    simpl. repeat split.
    + unfold reactionsOf. simpl. apply filter_after_delete.
    + eapply length_after_delete; eauto.
Qed.

(** A mother who reacted with a heart toggles with SUPPORT. *)
Lemma toggleReaction_one_row_per_pair_witness :
  let db0 := mkDb ["p1"] [] in
  let heart := mkRequest MOTHER (Some "mp1") "p1" (Some "HEART") in
  let support := mkRequest MOTHER (Some "mp1") "p1" (Some "SUPPORT") in
  let db := snd (toggleReaction db0 heart) in
  reactions db = [mkReaction HEART "p1" "mp1"] /\
  (List.length (reactionsOf db "p1" "mp1") <= 1)%nat /\
  fst (toggleReaction db support)
  = mkResponse 200 true (Some "Reação removida") (Some removed) /\
  reactionsOf (snd (toggleReaction db support)) "p1" "mp1" = [].
Proof.
  intros db0 heart support db.
  assert (Hidx : reaction_index db0) by constructor.
  assert (Hsteps : steps db0 db).
  { eapply steps_step; [apply steps_refl | apply step_toggleReaction]. }
  destruct (toggleReaction_one_row_per_pair db0 db Hidx Hsteps) as (Hone & Htoggle).
  destruct (Htoggle support "mp1" "SUPPORT" SUPPORT (mkReaction HEART "p1" "mp1")
              eq_refl eq_refl eq_refl eq_refl eq_refl) as (Hres & _ & Hgone & _).
  split; [reflexivity | split; [apply Hone | split; [exact Hres | exact Hgone]]].
Defined.

(** C4, as claimed, fails: when the user already has a reaction of another
    type, the first call deletes it instead of creating a row, and after
    the second call the row of the pair has the requested type, so the set
    of rows is not the one before the first call. *)
Lemma toggleTwice_changes_type :
  let db := mkDb ["p1"] [mkReaction HEART "p1" "mp1"] in
  let req := mkRequest MOTHER (Some "mp1") "p1" (Some "SUPPORT") in
  status (fst (toggleReaction db req)) = 200 /\
  reactions (snd (toggleReaction db req)) = [] /\
  reactions (snd (toggleTwice db req)) = [mkReaction SUPPORT "p1" "mp1"] /\
  snd (toggleTwice db req) <> db.
Proof. repeat split. discriminate. Qed.

(** C4, amended: two toggles in succession with the same request return
    the reaction count of every post to what it was.  When the user had no
    reaction on the post, the first call creates the row and the second
    deletes it, and the set of rows is exactly the one before the first
    call; when the user had one, the first call deletes it and the second
    creates a row of the requested type. *)
Theorem toggleTwice_restores_count (db : Db) (req : Request) :
  reaction_index db ->
  reaction_posts db ->
  (forall postId,
     reactionCount (snd (toggleTwice db req)) postId = reactionCount db postId) /\
  (forall userId s type,
     req_role req = MOTHER ->
     req_motherProfile req = Some userId ->
     body_type req = Some s ->
     typeOfString s = Some type ->
     (findReaction db (params_id req) userId = None ->
      In (params_id req) (posts db) ->
      status (fst (toggleReaction db req)) = 201 /\
      reactions (snd (toggleReaction db req))
      = (reactions db ++ [mkReaction type (params_id req) userId])%list /\
      status (fst (toggleTwice db req)) = 200 /\
      snd (toggleTwice db req) = db) /\
     (forall stored,
        findReaction db (params_id req) userId = Some stored ->
        status (fst (toggleReaction db req)) = 200 /\
        status (fst (toggleTwice db req)) = 201 /\
        reactions (snd (toggleTwice db req))
        = (filter (fun r => negb (isReactionOf (params_id req) userId r))
                  (reactions db)
           ++ [mkReaction type (params_id req) userId])%list)).
Proof.
  intros Hidx Hfk. split.
  - intros postId. unfold reactionCount.
    destruct (toggleReaction_effect db req) as
      [Hsame | userId type stored Hrole Htype Hmp Hfind _
             | userId type Hrole Htype Hmp Hfind Hpost _].
    + unfold toggleTwice. now rewrite Hsame, Hsame.
    + rewrite (toggleTwice_existing db req userId type stored) by assumption.
      simpl. rewrite filter_app, length_app. simpl.
      rewrite <- (count_after_delete (params_id req) userId postId
                    (reactions db) stored Hidx Hfind).
      f_equal. now destruct (params_id req =? postId)%string.
    + now rewrite (toggleTwice_absent db req userId type) by assumption.
  - intros userId s type Hrole Hmp Hs Htype.
    assert (Hreq : requestedType req = Some type)
      by (unfold requestedType; now rewrite Hs).
    split.
    + intros Hnone Hpost.
      rewrite (toggleReaction_absent db req userId type) by assumption.
      rewrite (toggleTwice_absent db req userId type) by assumption.
      repeat split.
    + intros stored Hfind.
      rewrite (toggleReaction_existing db req userId type stored) by assumption.
      rewrite (toggleTwice_existing db req userId type stored) by assumption.
      repeat split.
Qed.

Lemma toggleTwice_restores_count_witness :
  let db := mkDb ["p1"] [mkReaction HEART "p1" "mp2"] in
  let req := mkRequest MOTHER (Some "mp1") "p1" (Some "SUPPORT") in
  reactionCount (snd (toggleTwice db req)) "p1" = 1%nat /\
  status (fst (toggleReaction db req)) = 201 /\
  status (fst (toggleTwice db req)) = 200 /\
  snd (toggleTwice db req) = db.
Proof.
  intros db req.
  assert (Hidx : reaction_index db)
    by (unfold reaction_index; simpl; constructor; [intros [] | constructor]).
  assert (Hfk : reaction_posts db) by (intros r [<-|[]]; now left).
  destruct (toggleTwice_restores_count db req Hidx Hfk) as (Hcount & Hcases).
  destruct (Hcases "mp1" "SUPPORT" SUPPORT eq_refl eq_refl eq_refl eq_refl)
    as (Habsent & _).
  destruct (Habsent eq_refl (or_introl eq_refl)) as (H1 & _ & H2 & H3).
  split; [rewrite Hcount; reflexivity | split; [exact H1 | split; [exact H2 | exact H3]]].
Defined.

End Reactions.

Module Accounts.

Import Validation Auth.

Lemma truthy_some (s : string) : s <> "" -> truthy (Some s) = true.
Proof. intros Hne. simpl. apply String.eqb_neq in Hne. now rewrite Hne. Qed.

Lemma required_register (b : Body) :
  fst (validateRequiredFields (field b) ["email"; "password"; "role"; "fullName"])
  = truthy (body_email b) && truthy (body_password b)
    && truthy (body_role b) && truthy (body_fullName b).
Proof.
  unfold validateRequiredFields, field. simpl.
  destruct (truthy (body_email b)), (truthy (body_password b)),
    (truthy (body_role b)), (truthy (body_fullName b)); reflexivity.
Qed.

Lemma required_login (b : Body) :
  fst (validateRequiredFields (field b) ["email"; "password"])
  = truthy (body_email b) && truthy (body_password b).
Proof.
  unfold validateRequiredFields, field. simpl.
  destruct (truthy (body_email b)), (truthy (body_password b)); reflexivity.
Qed.

Lemma user_create_index db db' row :
  email_index db -> user_create db row = Some db' -> email_index db'.
Proof.
  unfold user_create, email_index, findUserByEmail.
  intros Hidx Hc. destruct (find _ _) eqn:Hfind; [discriminate|].
  injection Hc as <-. simpl. rewrite map_app. simpl.
  apply NoDup_app; [exact Hidx | repeat constructor; intros [] |].
  intros k Hin [Hk|[]]. subst k.
  apply in_map_iff in Hin as [u [Hu Hin]].
  apply (find_none _ _ Hfind) in Hin. simpl in Hin.
  rewrite Hu, String.eqb_refl in Hin. discriminate.
Qed.

Section Handlers.

Variable bcrypt_hash : string -> string -> string.
Variable bcrypt_compare : string -> string -> bool.
Variable generateToken : TokenPayload -> string.
Variable verifyToken : option string -> TokenError + TokenPayload.

Lemma register_index newId salt db b :
  email_index db ->
  email_index (snd (register bcrypt_hash generateToken newId salt db b)).
Proof.
  intros Hidx. unfold register.
  destruct (validateRequiredFields _ _) as [valid missing].
  repeat (break_match; simpl; auto);
    eapply user_create_index; eauto.
Qed.

Lemma login_db db b : snd (login bcrypt_compare generateToken db b) = db.
Proof.
  unfold login. destruct (validateRequiredFields _ _) as [valid missing].
  repeat (break_match; simpl; auto).
Qed.

Lemma changePassword_index salt userId db b :
  email_index db ->
  email_index (snd (changePassword bcrypt_hash bcrypt_compare salt userId db b)).
Proof.
  intros Hidx. unfold changePassword.
  destruct (_ || _); [exact Hidx|]. cbv zeta.
  destruct (_ <? 6); [exact Hidx|].
  destruct (findUserById db userId) as [user|]; [|exact Hidx].
  destruct (negb _); [exact Hidx|].
  unfold email_index. simpl. rewrite map_map.
  erewrite map_ext; [exact Hidx|].
  intros row. simpl. now destruct (u_id row =? userId)%string.
Qed.

Lemma step_email_index db db' :
  step bcrypt_hash bcrypt_compare generateToken db db' ->
  email_index db -> email_index db'.
Proof.
  intros Hstep Hidx. destruct Hstep as [| | |db edit Hedit].
  - now apply register_index.
  - now rewrite login_db.
  - now apply changePassword_index.
  - unfold email_index. simpl. rewrite map_map.
    erewrite map_ext; [exact Hidx|]. intros u. apply Hedit.
Qed.

Lemma steps_email_index db db' :
  steps bcrypt_hash bcrypt_compare generateToken db db' ->
  email_index db -> email_index db'.
Proof. induction 1; eauto using step_email_index. Qed.

(** Before the lookup of the email [register] answers 400 to every body
    that fails one of its checks. *)
Lemma register_invalid newId salt db b :
  passesValidation b = false ->
  status (fst (register bcrypt_hash generateToken newId salt db b)) = 400.
Proof.
  unfold passesValidation, register. intros Hfail.
  pose proof (required_register b) as Hreq.
  destruct (validateRequiredFields _ _) as [valid missing]. simpl in Hreq.
  rewrite <- Hreq in Hfail.
  destruct valid; simpl; [|reflexivity]. simpl in Hfail.
  destruct (body_email b) as [email|]; [|reflexivity].
  destruct (body_password b) as [password|]; [|reflexivity].
  destruct (body_role b) as [role|]; [|reflexivity].
  destruct (body_fullName b) as [fullName|]; [|reflexivity].
  destruct (isValidEmail email); simpl; [|reflexivity]. simpl in Hfail.
  destruct (isValidPassword (Some password)); simpl; [|reflexivity].
  simpl in Hfail.
  destruct (registrableRole role); [discriminate | reflexivity].
Qed.

Lemma register_duplicate newId salt db b email existing :
  body_email b = Some email ->
  findUserByEmail db email = Some existing ->
  snd (register bcrypt_hash generateToken newId salt db b) = db /\
  In (status (fst (register bcrypt_hash generateToken newId salt db b)))
     [400; 409] /\
  (passesValidation b = true ->
   fst (register bcrypt_hash generateToken newId salt db b)
   = failure 409 "Este email já está cadastrado").
Proof.
  intros Hemail Hfind. unfold register.
  pose proof (required_register b) as Hreq.
  destruct (validateRequiredFields _ _) as [valid missing]. simpl in Hreq.
  rewrite Hemail.
  split; [|split].
  - repeat (break_match; simpl; auto); congruence.
  - repeat (break_match; simpl; auto); congruence.
  - unfold passesValidation. intros Hpass.
    apply andb_true_iff in Hpass as [Hpass Hrole].
    apply andb_true_iff in Hpass as [Hpass Hpw].
    apply andb_true_iff in Hpass as [Hpass Hmail].
    rewrite Hpass in Hreq. subst valid. rewrite Hemail in Hmail. simpl.
    destruct (body_password b) as [password|]; [|discriminate].
    destruct (body_role b) as [role|]; [|discriminate].
    destruct (body_fullName b) as [fullName|];
      [|now rewrite andb_false_r in Hpass].
    destruct (registrableRole role); [|discriminate].
    now rewrite Hmail, Hpw, Hfind.
Qed.

(** C5, amended: no two accounts ever share an email, and a registration
    whose email belongs to an existing account creates no account; it is
    answered 409 Conflict when the request passes the validation of its
    fields (all four present, a well-formed email, a password of six
    characters or more, role MOTHER or COLLABORATOR), and 400 otherwise. *)
Theorem register_rejects_duplicate_email (db0 db : Db) :
  email_index db0 ->
  steps bcrypt_hash bcrypt_compare generateToken db0 db ->
  email_index db /\
  (forall newId salt b email existing,
     body_email b = Some email ->
     findUserByEmail db email = Some existing ->
     snd (register bcrypt_hash generateToken newId salt db b) = db /\
     In (status (fst (register bcrypt_hash generateToken newId salt db b)))
        [400; 409] /\
     (passesValidation b = true ->
      fst (register bcrypt_hash generateToken newId salt db b)
      = failure 409 "Este email já está cadastrado") /\
     (passesValidation b = false ->
      status (fst (register bcrypt_hash generateToken newId salt db b)) = 400)).
Proof.
  intros Hidx Hsteps. split.
  - eapply steps_email_index; eauto.
  - intros newId salt b email existing Hemail Hfound.
    destruct (register_duplicate newId salt db b email existing Hemail Hfound)
      as (Hsame & Hstatus & Hconflict).
    split; [exact Hsame | split; [exact Hstatus | split; [exact Hconflict|]]].
    apply register_invalid.
Qed.

(** C7: a login that fails because no account has the email, or because the
    password does not match the stored credential, is answered 401 with the
    one message "Email ou senha incorretos" and changes nothing; the
    responses of any two such runs are equal. *)
Theorem login_failure_is_generic :
  (forall db b,
     LoginFails bcrypt_compare db b ->
     login bcrypt_compare generateToken db b
     = (failure 401 "Email ou senha incorretos", db)) /\
  (forall db1 b1 db2 b2,
     LoginFails bcrypt_compare db1 b1 ->
     LoginFails bcrypt_compare db2 b2 ->
     fst (login bcrypt_compare generateToken db1 b1)
     = fst (login bcrypt_compare generateToken db2 b2)).
Proof.
  assert (Hone : forall db b,
            LoginFails bcrypt_compare db b ->
            login bcrypt_compare generateToken db b
            = (failure 401 "Email ou senha incorretos", db)).
  { intros db b Hfails. unfold login.
    pose proof (required_login b) as Hreq.
    destruct (validateRequiredFields _ _) as [valid missing]. simpl in Hreq.
    destruct Hfails as [email password He Hne Hp Hnp Hnone
                       | email password user He Hne Hp Hnp Hsome Hcmp];
      rewrite He, Hp in *;
      rewrite (truthy_some _ Hne), (truthy_some _ Hnp) in Hreq;
      subst valid; simpl.
    - now rewrite Hnone.
    - now rewrite Hsome, Hcmp. }
  split; [exact Hone|].
  intros db1 b1 db2 b2 H1 H2. now rewrite (Hone _ _ H1), (Hone _ _ H2).
Qed.

Lemma bearer_truthy (h : string) : prefix "Bearer " h = true -> truthy (Some h) = true.
Proof. destruct h; [discriminate | reflexivity]. Qed.

(** C6: the gate answers 401 whatever the rest of the route is, so without
    running it, when the header is absent, when it does not start with
    "Bearer ", when the token fails verification (with one message for
    every reason of the failure) and when no account has the decoded id;
    otherwise it runs the rest of the route on the request with the
    account, its id and its role attached. *)
Theorem authenticate_gate {D : Type} (db : Db) (next : AuthContext -> Response D) :
  authenticate verifyToken db None next
  = failure 401 "Token de autenticação não fornecido" /\
  (forall authHeader,
     prefix "Bearer " authHeader = false ->
     authenticate verifyToken db (Some authHeader) next
     = failure 401 "Token de autenticação não fornecido") /\
  (forall authHeader reason,
     prefix "Bearer " authHeader = true ->
     verifyToken (bearerToken authHeader) = inl reason ->
     authenticate verifyToken db (Some authHeader) next
     = failure 401 "Token inválido ou expirado") /\
  (forall authHeader decoded,
     prefix "Bearer " authHeader = true ->
     verifyToken (bearerToken authHeader) = inr decoded ->
     findUserById db (t_userId decoded) = None ->
     authenticate verifyToken db (Some authHeader) next
     = failure 401 "Usuário não encontrado") /\
  (forall authHeader decoded user,
     prefix "Bearer " authHeader = true ->
     verifyToken (bearerToken authHeader) = inr decoded ->
     findUserById db (t_userId decoded) = Some user ->
     authenticate verifyToken db (Some authHeader) next
     = next (mkAuthContext user (u_id user) (u_role user))).
Proof.
  split; [reflexivity|].
  split.
  { intros h Hp. unfold authenticate. rewrite Hp. simpl.
    now rewrite orb_true_r. }
  split; [|split].
  - intros h reason Hp Hv. unfold authenticate.
    now rewrite (bearer_truthy _ Hp), Hp, Hv.
  - intros h decoded Hp Hv Hu. unfold authenticate.
    now rewrite (bearer_truthy _ Hp), Hp, Hv, Hu.
  - intros h decoded user Hp Hv Hu. unfold authenticate.
    now rewrite (bearer_truthy _ Hp), Hp, Hv, Hu.
Qed.

End Handlers.

(** C5, as claimed, fails: a registration with the email of an existing
    account and a password of three characters is answered 400 by the
    password check, not 409; no account is created. *)
Lemma register_duplicate_short_password :
  status (fst (register sample_hash sample_token "u2" "salt" (mkDb [ana])
                 (registration "ana@example.com" "abc" "MOTHER" "Ana B")))
  = 400 /\
  findUserByEmail (mkDb [ana]) "ana@example.com" = Some ana /\
  snd (register sample_hash sample_token "u2" "salt" (mkDb [ana])
         (registration "ana@example.com" "abc" "MOTHER" "Ana B"))
  = mkDb [ana].
Proof. repeat split. Qed.

(** Ana registers; a second registration with her email is refused. *)
Lemma register_rejects_duplicate_email_witness :
  let first := registration "ana@example.com" "segredo1" "MOTHER" "Ana" in
  let second := registration "ana@example.com" "outra-senha" "COLLABORATOR" "Ana B" in
  let db := snd (register sample_hash sample_token "u1" "salt" (mkDb []) first) in
  users db = [ana] /\
  email_index db /\
  register sample_hash sample_token "u2" "salt" db second
  = (failure 409 "Este email já está cadastrado", db).
Proof.
  intros first second db.
  assert (Hidx : email_index (mkDb [])) by constructor.
  assert (Hsteps : steps sample_hash sample_compare sample_token (mkDb []) db).
  { eapply steps_step; [apply steps_refl | apply step_register]. }
  destruct (register_rejects_duplicate_email sample_hash sample_compare
              sample_token (mkDb []) db Hidx Hsteps) as (Hdb & Hdup).
  destruct (Hdup "u2" "salt" second "ana@example.com" ana eq_refl eq_refl)
    as (Hsame & _ & Hconflict & _).
  split; [reflexivity | split; [exact Hdb|]].
  rewrite (surjective_pairing (register _ _ _ _ _ _)).
  rewrite Hsame, (Hconflict eq_refl). reflexivity.
Defined.

(** An unknown email and a wrong password give the same response. *)
Lemma login_failure_is_generic_witness :
  login sample_compare sample_token (mkDb [ana])
        (credentials "bia@example.com" "segredo1")
  = (failure 401 "Email ou senha incorretos", mkDb [ana]) /\
  fst (login sample_compare sample_token (mkDb [ana])
         (credentials "bia@example.com" "segredo1"))
  = fst (login sample_compare sample_token (mkDb [ana])
           (credentials "ana@example.com" "errada")).
Proof.
  assert (Hunknown : LoginFails sample_compare (mkDb [ana])
                       (credentials "bia@example.com" "segredo1")).
  { apply (no_account _ _ _ "bia@example.com" "segredo1");
      try reflexivity; discriminate. }
  assert (Hwrong : LoginFails sample_compare (mkDb [ana])
                     (credentials "ana@example.com" "errada")).
  { apply (wrong_password _ _ _ "ana@example.com" "errada" ana);
      try reflexivity; discriminate. }
  destruct (login_failure_is_generic sample_compare sample_token) as (Hone & Htwo).
  split; [apply Hone; exact Hunknown | apply Htwo; assumption].
Defined.

(** The gate on a route that echoes the id of the account. *)
Lemma authenticate_gate_witness :
  let next := fun ctx : AuthContext =>
    mkResponse 200 true None (Some (ctx_userId ctx, ctx_userRole ctx)) in
  authenticate sample_verify (mkDb [ana]) (Some "Basic abc") next
  = failure 401 "Token de autenticação não fornecido" /\
  authenticate sample_verify (mkDb [ana]) (Some "Bearer token-old") next
  = failure 401 "Token inválido ou expirado" /\
  authenticate sample_verify (mkDb [ana]) (Some "Bearer forged") next
  = failure 401 "Token inválido ou expirado" /\
  authenticate sample_verify (mkDb [ana]) (Some "Bearer token-u9") next
  = failure 401 "Usuário não encontrado" /\
  authenticate sample_verify (mkDb [ana]) (Some "Bearer token-u1") next
  = mkResponse 200 true None (Some ("u1", MOTHER)).
Proof.
  intros next.
  destruct (authenticate_gate sample_verify (mkDb [ana]) next)
    as (_ & Hmalformed & Hinvalid & Hghost & Hok).
  split; [apply Hmalformed; reflexivity|].
  split; [apply (Hinvalid _ TokenExpired); reflexivity|].
  split; [apply (Hinvalid _ TokenTampered); reflexivity|].
  split; [apply (Hghost _ (mkTokenPayload "u9" "eva@example.com" MOTHER));
          reflexivity|].
  apply (Hok _ (mkTokenPayload "u1" "ana@example.com" MOTHER) ana); reflexivity.
Defined.

End Accounts.

(** * Properties of the further functions *)

(** ** Facts about lookups in tables *)

(** A unique key finds the row that carries it. *)
Lemma find_unique_key {A : Type} (key : A -> string) (l : list A) (x : A) :
  NoDup (map key l) -> In x l ->
  find (fun y => (key y =? key x)%string) l = Some x.
Proof.
  induction l as [|a l IH]; simpl; intros Hnd Hin; [destruct Hin|].
  inversion Hnd as [|? ? Hnotin Hnd']; subst.
  destruct Hin as [-> | Hin].
  - now rewrite String.eqb_refl.
  - destruct (String.eqb_spec (key a) (key x)) as [Heq|Hne]; [|auto].
    exfalso. apply Hnotin. rewrite Heq. now apply in_map.
Qed.

(** A lookup commutes with a rewrite of the rows that keeps what it looks
    at. *)
Lemma find_map_key {A : Type} (f : A -> bool) (g : A -> A) (l : list A) :
  (forall a, f (g a) = f a) ->
  find f (map g l) = option_map g (find f l).
Proof.
  intros Hkeep. induction l as [|a l IH]; simpl; [reflexivity|].
  rewrite Hkeep. now destruct (f a).
Qed.

Lemma map_same {A : Type} (f : A -> bool) (l : list A) :
  map (fun a => if f a then a else a) l = l.
Proof.
  induction l as [|a l IH]; simpl; [reflexivity|].
  rewrite IH. now destruct (f a).
Qed.

Module ValidationFacts.

Import Validation Weeks Pregnancy.

(** X1: the required fields are all present exactly when [valid] is true,
    and [missing] lists exactly the required fields whose value is falsy. *)
Theorem validateRequiredFields_missing
  (data : string -> option string) (requiredFields : list string) :
  (fst (validateRequiredFields data requiredFields) = true <->
   forall field, In field requiredFields -> truthy (data field) = true) /\
  (forall field,
     In field (snd (validateRequiredFields data requiredFields)) <->
     In field requiredFields /\ truthy (data field) = false).
Proof.
  unfold validateRequiredFields. simpl. split.
  - rewrite Nat.eqb_eq, length_zero_iff_nil. split.
    + intros Hnil field Hin.
      destruct (truthy (data field)) eqn:Ht; [reflexivity|].
      assert (Hmiss : In field (filter (fun f => negb (truthy (data f))) requiredFields)).
      { apply filter_In. split; [exact Hin | now rewrite Ht]. }
      rewrite Hnil in Hmiss. destruct Hmiss.
    + intros Hall.
      destruct (filter _ requiredFields) as [|f l] eqn:Hf; [reflexivity|].
      assert (Hin : In f (filter (fun f => negb (truthy (data f))) requiredFields))
        by (rewrite Hf; now left).
      apply filter_In in Hin as [Hin Hneg].
      rewrite (Hall f Hin) in Hneg. discriminate.
  - intros field. rewrite filter_In, negb_true_iff. reflexivity.
Qed.

Lemma allPlain_app a b :
  allPlain (a ++ b) = allPlain a && allPlain b.
Proof.
  induction a as [|c a IH]; simpl; [reflexivity|].
  now rewrite IH, andb_assoc.
Qed.

Lemma isPlain_dot : isPlain "."%char = true.
Proof. reflexivity. Qed.

Lemma isPlain_not_at c : isPlain c = true -> Ascii.eqb c "@"%char = false.
Proof. unfold isPlain. intros H. apply andb_true_iff in H as [_ H]. now apply negb_true_iff. Qed.

Lemma isPlain_not_space c : isPlain c = true -> isSpace c = false.
Proof. unfold isPlain. intros H. apply andb_true_iff in H as [H _]. now apply negb_true_iff. Qed.

Lemma domainPart_shape (s : string) : forall seenOne,
  domainPart seenOne s = true <->
  exists b c, s = (b ++ "." ++ c)%string /\ (seenOne = true \/ b <> "") /\
              c <> "" /\ allPlain b = true /\ allPlain c = true.
Proof.
  induction s as [|ch r IH]; intros seenOne; simpl.
  - split; [discriminate|].
    intros (b & c & Hs & _). destruct b; discriminate.
  - split.
    + intros H. apply andb_true_iff in H as [Hch H].
      apply orb_true_iff in H as [H|H].
      * apply andb_true_iff in H as [H Hr].
        apply andb_true_iff in H as [H Hne].
        apply andb_true_iff in H as [Hseen Hdot].
        apply Ascii.eqb_eq in Hdot. subst ch.
        apply negb_true_iff, String.eqb_neq in Hne.
        exists "", r.
        split; [reflexivity | split; [now left | split; [exact Hne | split; [reflexivity | exact Hr]]]].
      * apply IH in H as (b & c & Hs & _ & Hc & Hb & Hcp).
        exists (String ch b), c. subst r.
        split; [reflexivity | split; [right; discriminate | split; [exact Hc | split; [|exact Hcp]]]].
        simpl. now rewrite Hch, Hb.
    + intros (b & c & Hs & Hseen & Hc & Hb & Hcp).
      destruct b as [|ch' b]; simpl in Hs; injection Hs as -> ->.
      * destruct Hseen as [-> | Hne]; [|congruence].
        simpl. rewrite Hcp. apply String.eqb_neq in Hc. now rewrite Hc.
      * simpl in Hb. apply andb_true_iff in Hb as [Hch Hb].
        rewrite Hch. simpl. apply orb_true_iff. right.
        apply IH. exists b, c.
        split; [reflexivity | split; [now left | split; [exact Hc | split; assumption]]].
Qed.

Lemma localPart_shape (s : string) : forall seenOne,
  localPart seenOne s = true <->
  exists a d, s = (a ++ "@" ++ d)%string /\ (seenOne = true \/ a <> "") /\
              allPlain a = true /\ domainPart false d = true.
Proof.
  induction s as [|ch r IH]; intros seenOne; simpl.
  - split; [discriminate|].
    intros (a & d & Hs & _). destruct a; discriminate.
  - destruct (Ascii.eqb ch "@"%char) eqn:Hat.
    + apply Ascii.eqb_eq in Hat. subst ch. split.
      * intros H. apply andb_true_iff in H as [Hseen Hd].
        exists "", r.
        split; [reflexivity | split; [now left | split; [reflexivity | exact Hd]]].
      * intros (a & d & Hs & Hseen & Ha & Hd).
        destruct a as [|ch' a]; simpl in Hs.
        -- injection Hs as Hr. subst r.
           destruct Hseen as [-> | Hne]; [|congruence]. exact Hd.
        -- injection Hs as Hch Hr. subst ch'. simpl in Ha. discriminate.
    + split.
      * intros H. apply andb_true_iff in H as [Hsp H].
        apply IH in H as (a & d & Hs & _ & Ha & Hd).
        exists (String ch a), d. subst r.
        split; [reflexivity | split; [right; discriminate | split; [|exact Hd]]].
        simpl. unfold isPlain. now rewrite Hsp, Hat, Ha.
      * intros (a & d & Hs & Hseen & Ha & Hd).
        destruct a as [|ch' a]; simpl in Hs; injection Hs as Hch Hr.
        -- subst ch. discriminate.
        -- subst ch' r. simpl in Ha. apply andb_true_iff in Ha as [Hch Ha].
           rewrite (isPlain_not_space _ Hch). simpl.
           apply IH. exists a, d.
           split; [reflexivity | split; [now left | split; assumption]].
Qed.

(** X2: an email is accepted exactly when it reads local@domain.tld, the
    three parts being non-empty and free of whitespace and of further at
    signs (the domain and the tld may hold more dots). *)
Theorem isValidEmail_shape (email : string) :
  isValidEmail email = true <->
  exists a b c,
    email = (a ++ "@" ++ b ++ "." ++ c)%string /\
    a <> "" /\ b <> "" /\ c <> "" /\
    allPlain a = true /\ allPlain b = true /\ allPlain c = true.
Proof.
  unfold isValidEmail. rewrite localPart_shape. split.
  - intros (a & d & Hs & Hseen & Ha & Hd).
    apply domainPart_shape in Hd as (b & c & Hd & Hb & Hc & Hbp & Hcp).
    exists a, b, c. subst d.
    destruct Hseen as [? | Hne]; [discriminate|].
    destruct Hb as [? | Hbne]; [discriminate|].
    repeat split; assumption.
  - intros (a & b & c & Hs & Ha & Hb & Hc & Hap & Hbp & Hcp).
    exists a, (b ++ "." ++ c)%string.
    split; [exact Hs | split; [now right | split; [exact Hap|]]].
    apply domainPart_shape. exists b, c.
    split; [reflexivity | split; [now right | split; [exact Hc | split; assumption]]].
Qed.

(** X3: a number is a valid pregnancy week exactly when it is one of the
    integers 1..40, and every week that [calculateCurrentWeek] computes is
    one. *)
Theorem isValidPregnancyWeek_calculated :
  (forall week : Q,
     isValidPregnancyWeek week = true <->
     exists z, 1 <= z <= 40 /\ (week == inject_Z z)%Q) /\
  (forall now due,
     isValidPregnancyWeek (inject_Z (calculateCurrentWeek now due)) = true).
Proof.
  assert (Hchar : forall week : Q,
            isValidPregnancyWeek week = true <->
            exists z, 1 <= z <= 40 /\ (week == inject_Z z)%Q).
  { intros week. unfold isValidPregnancyWeek.
    rewrite !andb_true_iff, Qeq_bool_iff, !Qle_bool_iff. split.
    - intros [[Hint Hlo] Hhi]. exists (Qfloor week).
      split; [|symmetry; exact Hint].
      rewrite <- Hint in Hlo, Hhi.
      change 1%Q with (inject_Z 1) in Hlo. change 40%Q with (inject_Z 40) in Hhi.
      rewrite <- Zle_Qle in Hlo, Hhi. lia.
    - intros (z & [Hlo Hhi] & Hz).
      assert (Hfloor : Qfloor week = z)
        by (rewrite (Qfloor_comp _ _ Hz); apply Qfloor_Z).
      rewrite Hfloor.
      split; [split; [symmetry; exact Hz|]|];
        destruct week as [n d]; unfold Qeq, Qle in *; simpl in *; nia. }
  split; [exact Hchar|].
  intros now due. apply Hchar. exists (calculateCurrentWeek now due).
  split; [|reflexivity].
  unfold calculateCurrentWeek. cbv zeta. lia.
Qed.

End ValidationFacts.

Module AuthorizationFacts.

Import Validation Auth Authorization.

Lemma findUserById_id db userId user :
  findUserById db userId = Some user -> In user (users db) /\ u_id user = userId.
Proof.
  intros Hfind. apply find_some in Hfind as [Hin Hid].
  apply String.eqb_eq in Hid. auto.
Qed.

Lemma findUserById_found db userId user :
  findUserById db userId = Some user -> findUserById db (u_id user) = Some user.
Proof.
  intros Hfind. destruct (findUserById_id _ _ _ Hfind) as [_ Hid]. now rewrite Hid.
Qed.

Lemma existsb_role r roles :
  existsb (UserRole_eqb r) roles = true <-> In r roles.
Proof.
  rewrite existsb_exists. split.
  - intros (x & Hin & Hx). apply UserRole_eqb_eq in Hx. now subst.
  - intros Hin. exists r. split; [exact Hin | now apply UserRole_eqb_eq].
Qed.

Section Routes.

Variable verifyToken : option string -> TokenError + TokenPayload.

(** What the authentication gate does with a header, whatever follows it. *)
Lemma authenticate_cases db authorization :
  (exists user,
     In user (users db) /\
     findUserById db (u_id user) = Some user /\
     forall D (next : AuthContext -> Response D),
       authenticate verifyToken db authorization next
       = next (mkAuthContext user (u_id user) (u_role user))) \/
  (exists m,
     In m ["Token de autenticação não fornecido"; "Token inválido ou expirado";
           "Usuário não encontrado"] /\
     forall D (next : AuthContext -> Response D),
       authenticate verifyToken db authorization next = failure 401 m).
Proof.
  unfold authenticate.
  destruct authorization as [h|]; [|right; eexists; split; [left; reflexivity | reflexivity]].
  destruct (negb (truthy (Some h)) || negb (prefix "Bearer " h));
    [right; eexists; split; [left; reflexivity | reflexivity]|].
  cbv zeta. destruct (verifyToken (bearerToken h)) as [reason|decoded];
    [right; eexists; split; [right; left; reflexivity | reflexivity]|].
  destruct (findUserById db (t_userId decoded)) as [user|] eqn:Hfind;
    [|right; eexists; split; [right; right; left; reflexivity | reflexivity]].
  left. exists user.
  split; [now apply findUserById_id in Hfind|].
  split; [now apply findUserById_found in Hfind | reflexivity].
Qed.

(** X4: behind [authenticate] and [authorize(...roles)] the handler runs
    only on an account of the database whose role is among [roles];
    otherwise the answer is 401 with one of the three messages of the gate,
    or 403, without running the handler.  The 401 of [authorize] itself
    never appears behind the gate. *)
Theorem guarded_runs_permitted_roles (roles : list UserRole) (db : Db)
  (authorization : option string) :
  (exists user,
     In user (users db) /\ In (u_role user) roles /\
     forall D (handler : AuthContext -> Response D),
       guarded verifyToken roles db authorization handler
       = handler (mkAuthContext user (u_id user) (u_role user))) \/
  (exists m,
     In m ["Token de autenticação não fornecido"; "Token inválido ou expirado";
           "Usuário não encontrado"] /\
     forall D (handler : AuthContext -> Response D),
       guarded verifyToken roles db authorization handler = failure 401 m) \/
  (forall D (handler : AuthContext -> Response D),
     guarded verifyToken roles db authorization handler
     = failure 403 "Você não tem permissão para acessar este recurso").
Proof.
  unfold guarded.
  destruct (authenticate_cases db authorization)
    as [(user & Hin & _ & Hnext) | (m & Hm & Hfail)].
  - destruct (existsb (UserRole_eqb (u_role user)) roles) eqn:Hrole.
    + left. exists user. split; [exact Hin | split; [now apply existsb_role|]].
      intros D handler. rewrite Hnext. unfold authorize. simpl. now rewrite Hrole.
    + right. right. intros D handler. rewrite Hnext. unfold authorize. simpl.
      now rewrite Hrole.
  - right. left. exists m. split; [exact Hm|]. intros D handler. apply Hfail.
Qed.

(** X5: the route [GET /auth/me] answers 401 or 200, never the 404 of
    [getCurrentUser]; with a header whose token verifies to the id of an
    account, the data is that account without its credential. *)
Theorem me_is_account_of_token (db : Db) (authorization : option string) :
  ((exists user,
      In user (users db) /\
      me verifyToken db authorization
      = mkResponse 200 true None (Some (withoutPassword user))) \/
   (exists m, me verifyToken db authorization = failure 401 m)) /\
  (forall authHeader decoded user,
     authorization = Some authHeader ->
     prefix "Bearer " authHeader = true ->
     verifyToken (bearerToken authHeader) = inr decoded ->
     findUserById db (t_userId decoded) = Some user ->
     u_id user = t_userId decoded /\
     me verifyToken db authorization
     = mkResponse 200 true None (Some (withoutPassword user))).
Proof.
  split.
  - unfold me.
    destruct (authenticate_cases db authorization)
      as [(user & Hin & Hfound & Hnext) | (m & _ & Hfail)].
    + left. exists user. split; [exact Hin|]. rewrite Hnext. simpl.
      unfold getCurrentUser. now rewrite Hfound.
    + right. exists m. apply Hfail.
  - intros h decoded user -> Hp Hv Hu.
    destruct (findUserById_id _ _ _ Hu) as [_ Hid].
    split; [exact Hid|].
    unfold me, authenticate.
    assert (Ht : truthy (Some h) = true) by (destruct h; [discriminate | reflexivity]).
    rewrite Ht, Hp, Hv, Hu. simpl.
    unfold getCurrentUser. now rewrite (findUserById_found _ _ _ Hu).
Qed.

End Routes.

Lemma me_is_account_of_token_witness :
  me sample_verify (mkDb [ana]) (Some "Bearer token-u1")
  = mkResponse 200 true None (Some (withoutPassword ana)).
Proof.
  destruct (me_is_account_of_token sample_verify (mkDb [ana])
              (Some "Bearer token-u1")) as [_ Hme].
  apply (Hme "Bearer token-u1" (mkTokenPayload "u1" "ana@example.com" MOTHER) ana);
    reflexivity.
Defined.

End AuthorizationFacts.

Module AccountFacts.

Import Validation Auth Authorization.

Lemma user_create_fresh db user :
  findUserByEmail db (u_email user) = None ->
  user_create db user = Some (mkDb (users db ++ [user])).
Proof. unfold user_create. now intros ->. Qed.

Lemma append_empty (s : string) : (s ++ "")%string = s.
Proof. induction s as [|c s IH]; simpl; [reflexivity | now rewrite IH]. Qed.

Lemma append_snoc (s r : string) (c : ascii) :
  ((s ++ String c "") ++ r)%string = (s ++ String c r)%string.
Proof. induction s as [|d s IH]; simpl; [reflexivity | now rewrite IH]. Qed.

Lemma splitSpaces_noSpace (s : string) : forall current,
  noSpace s = true -> splitSpaces current s = [(current ++ s)%string].
Proof.
  induction s as [|c r IH]; intros current Hs; simpl.
  - now rewrite append_empty.
  - simpl in Hs. apply andb_true_iff in Hs as [Hc Hr].
    apply negb_true_iff in Hc. rewrite Hc, (IH _ Hr). now rewrite append_snoc.
Qed.

Lemma bearerToken_bearer token :
  noSpace token = true ->
  prefix "Bearer " (bearer token) = true /\
  bearerToken (bearer token) = Some token.
Proof.
  intros Hs. split.
  - unfold bearer. simpl. now destruct token.
  - unfold bearerToken, bearer. simpl.
    now rewrite (splitSpaces_noSpace _ "" Hs).
Qed.

Section Handlers.

Variable bcrypt_hash : string -> string -> string.
Variable bcrypt_compare : string -> string -> bool.
Variable generateToken : TokenPayload -> string.
Variable verifyToken : option string -> TokenError + TokenPayload.

(** X6: a registration that is not answered 201 leaves the table as it
    was; one that is answered 201 appends exactly one account, which has
    the posted email, the hash of the posted password, role MOTHER or
    COLLABORATOR, never ADMIN, is not verified and carries the profile of
    its role and no other. *)
Theorem register_creates_unprivileged_account
  (newId salt : string) (db : Db) (b : Body) :
  (status (fst (register bcrypt_hash generateToken newId salt db b)) <> 201 ->
   snd (register bcrypt_hash generateToken newId salt db b) = db) /\
  (status (fst (register bcrypt_hash generateToken newId salt db b)) = 201 ->
   exists email password fullName user,
     body_email b = Some email /\
     body_password b = Some password /\
     body_fullName b = Some fullName /\
     isValidEmail email = true /\
     isValidPassword (Some password) = true /\
     findUserByEmail db email = None /\
     users (snd (register bcrypt_hash generateToken newId salt db b))
     = (users db ++ [user])%list /\
     u_id user = newId /\ u_email user = email /\
     u_passwordHash user = bcrypt_hash salt password /\
     u_isVerified user = false /\ u_adminProfile user = None /\
     (u_role user = MOTHER /\
      u_motherProfile user = Some (mkMotherProfile fullName false) /\
      u_collaboratorProfile user = None
      \/
      u_role user = COLLABORATOR /\
      u_motherProfile user = None /\
      exists profession,
        body_profession b = Some profession /\ profession <> "" /\
        u_collaboratorProfile user
        = Some (mkCollaboratorProfile fullName profession
                  (match body_specialties b with Some l => l | None => [] end)
                  false)) /\
     fst (register bcrypt_hash generateToken newId salt db b)
     = mkResponse 201 true (Some "Usuário criado com sucesso")
         (Some (mkSession (withoutPassword user)
                  (generateToken (mkTokenPayload newId email (u_role user)))))).
Proof.
  unfold register.
  destruct (validateRequiredFields _ _) as [valid missing].
  destruct valid; simpl; [|split; [reflexivity | discriminate]].
  destruct (body_email b) as [email|]; [|split; [reflexivity | discriminate]].
  destruct (body_password b) as [password|]; [|split; [reflexivity | discriminate]].
  destruct (body_role b) as [role|]; [|split; [reflexivity | discriminate]].
  destruct (body_fullName b) as [fullName|]; [|split; [reflexivity | discriminate]].
  destruct (isValidEmail email) eqn:Hmail; simpl; [|split; [reflexivity | discriminate]].
  destruct (isValidPassword (Some password)) eqn:Hpw;
    [|split; [reflexivity | discriminate]].
  cbv beta iota.
  destruct (registrableRole role) as [userRole|] eqn:Hrole;
    [|split; [reflexivity | discriminate]].
  destruct (findUserByEmail db email) eqn:Hnone; [split; [reflexivity | discriminate]|].
  assert (Hadmin : userRole <> ADMIN).
  { unfold registrableRole in Hrole.
    destruct (role =? "MOTHER")%string; [injection Hrole as <-; discriminate|].
    destruct (role =? "COLLABORATOR")%string; [injection Hrole as <-|]; discriminate. }
  cbv zeta.
  destruct userRole; [| |congruence].
  - rewrite user_create_fresh by exact Hnone.
    split; [intros H; now elim H|]. intros _.
    eexists email, password, fullName, _.
    repeat (split; [reflexivity || eassumption|]).
    split; [left; repeat split|]; reflexivity.
  - destruct (body_profession b) as [profession|] eqn:Hprof; simpl;
      [|split; [reflexivity | discriminate]].
    destruct (profession =? "")%string eqn:Hne; simpl;
      [split; [reflexivity | discriminate]|].
    rewrite user_create_fresh by exact Hnone.
    split; [intros H; now elim H|]. intros _.
    eexists email, password, fullName, _.
    repeat (split; [reflexivity || eassumption|]).
    split; [|reflexivity].
    right. split; [reflexivity | split; [reflexivity|]].
    exists profession. split; [reflexivity | split; [|reflexivity]].
    now apply String.eqb_neq.
Qed.

Lemma register_201 newId salt db b :
  status (fst (register bcrypt_hash generateToken newId salt db b)) = 201 ->
  exists email password user,
    body_email b = Some email /\ truthy (Some email) = true /\
    body_password b = Some password /\ truthy (Some password) = true /\
    findUserByEmail db email = None /\
    snd (register bcrypt_hash generateToken newId salt db b)
    = mkDb (users db ++ [user]) /\
    u_id user = newId /\ u_email user = email /\
    u_passwordHash user = bcrypt_hash salt password.
Proof.
  unfold register.
  pose proof (Accounts.required_register b) as Hreq.
  destruct (validateRequiredFields _ _) as [valid missing]. simpl in Hreq.
  destruct valid; simpl; [|discriminate].
  symmetry in Hreq.
  apply andb_true_iff in Hreq as [Hreq _].
  apply andb_true_iff in Hreq as [Hreq _].
  apply andb_true_iff in Hreq as [Hte Htp].
  destruct (body_email b) as [email|]; [|discriminate].
  destruct (body_password b) as [password|]; [|discriminate].
  destruct (body_role b) as [role|]; [|discriminate].
  destruct (body_fullName b) as [fullName|]; [|discriminate].
  destruct (isValidEmail email); simpl; [|discriminate].
  destruct (isValidPassword (Some password)); [|discriminate].
  cbv beta iota.
  destruct (registrableRole role) as [userRole|]; [|discriminate].
  destruct (findUserByEmail db email) eqn:Hnone; [discriminate|].
  cbv zeta.
  destruct userRole.
  - rewrite user_create_fresh by exact Hnone. intros _.
    eexists email, password, _. repeat (split; [reflexivity || eassumption|]).
    reflexivity.
  - destruct (negb (truthy (body_profession b))); [discriminate|].
    rewrite user_create_fresh by exact Hnone. intros _.
    eexists email, password, _. repeat (split; [reflexivity || eassumption|]).
    reflexivity.
  - rewrite user_create_fresh by exact Hnone. intros _.
    eexists email, password, _. repeat (split; [reflexivity || eassumption|]).
    reflexivity.
Qed.

Lemma login_ok db b email password user :
  body_email b = Some email -> truthy (Some email) = true ->
  body_password b = Some password -> truthy (Some password) = true ->
  findUserByEmail db email = Some user ->
  bcrypt_compare password (u_passwordHash user) = true ->
  login bcrypt_compare generateToken db b
  = (mkResponse 200 true (Some "Login realizado com sucesso")
       (Some (mkSession (withoutPassword user)
                (generateToken
                   (mkTokenPayload (u_id user) (u_email user) (u_role user))))),
     db).
Proof.
  intros He Hte Hp Htp Hfind Hcmp. unfold login.
  pose proof (Accounts.required_login b) as Hreq.
  destruct (validateRequiredFields _ _) as [valid missing]. simpl in Hreq.
  rewrite He, Hp in *. rewrite Hte, Htp in Hreq. subst valid. simpl.
  now rewrite Hfind, Hcmp.
Qed.

(** X7: an account that was just registered can log in: after a
    registration answered 201, a login with the same email and password on
    the resulting table is answered 200 with the new account, provided
    [bcrypt.compare] accepts the password against the hash that
    [bcrypt.hash] made of it. *)
Theorem register_then_login (newId salt : string) (db : Db) (b : Body) :
  status (fst (register bcrypt_hash generateToken newId salt db b)) = 201 ->
  (forall password,
     body_password b = Some password ->
     bcrypt_compare password (bcrypt_hash salt password) = true) ->
  exists user,
    In user (users (snd (register bcrypt_hash generateToken newId salt db b))) /\
    u_id user = newId /\
    body_email b = Some (u_email user) /\
    login bcrypt_compare generateToken
          (snd (register bcrypt_hash generateToken newId salt db b)) b
    = (mkResponse 200 true (Some "Login realizado com sucesso")
         (Some (mkSession (withoutPassword user)
                  (generateToken
                     (mkTokenPayload (u_id user) (u_email user) (u_role user))))),
       snd (register bcrypt_hash generateToken newId salt db b)).
Proof.
  intros Hok Hbcrypt.
  destruct (register_201 newId salt db b Hok)
    as (email & password & user & He & Hte & Hp & Htp & Hnone & Hdb & Hid & Hmail & Hhash).
  exists user. rewrite Hdb. simpl.
  split; [apply in_app_iff; right; now left|].
  split; [exact Hid|].
  split; [now rewrite Hmail|].
  apply (login_ok _ b email password user); auto.
  - unfold findUserByEmail in *. simpl. rewrite find_app, Hnone. simpl.
    now rewrite Hmail, String.eqb_refl.
  - rewrite Hhash. now apply Hbcrypt.
Qed.

(** X8: the token of a successful login opens the gate for the account that
    logged in: when the token holds no space and verifies to the claims it
    was issued for, [authenticate] on the header "Bearer <token>" passes
    that account, its id and its role to the rest of the route. *)
Theorem login_token_authenticates (db : Db) (b : Body) (email : string) (user : User) :
  id_index db ->
  body_email b = Some email ->
  findUserByEmail db email = Some user ->
  status (fst (login bcrypt_compare generateToken db b)) = 200 ->
  noSpace (generateToken (mkTokenPayload (u_id user) (u_email user) (u_role user)))
  = true ->
  verifyToken
    (Some (generateToken (mkTokenPayload (u_id user) (u_email user) (u_role user))))
  = inr (mkTokenPayload (u_id user) (u_email user) (u_role user)) ->
  data (fst (login bcrypt_compare generateToken db b))
  = Some (mkSession (withoutPassword user)
            (generateToken (mkTokenPayload (u_id user) (u_email user) (u_role user)))) /\
  (forall D (next : AuthContext -> Response D),
     authenticate verifyToken db
       (Some (bearer (generateToken
                        (mkTokenPayload (u_id user) (u_email user) (u_role user)))))
       next
     = next (mkAuthContext user (u_id user) (u_role user))).
Proof.
  clear bcrypt_hash.
  intros Hidx He Hfind Hok Hspace Hverify. split.
  - revert Hok. unfold login.
    destruct (validateRequiredFields _ _) as [valid missing].
    destruct valid; simpl; [|discriminate].
    rewrite He. destruct (body_password b) as [password|]; [|discriminate].
    rewrite Hfind.
    destruct (negb (bcrypt_compare password (u_passwordHash user)));
      [discriminate | reflexivity].
  - intros D next.
    destruct (bearerToken_bearer _ Hspace) as [Hprefix Htoken].
    unfold authenticate. rewrite Hprefix, Htoken, Hverify. simpl.
    assert (Hin : In user (users db)) by (apply find_some in Hfind; tauto).
    unfold findUserById. now rewrite (find_unique_key u_id _ _ Hidx Hin).
Qed.

Lemma changePassword_200 salt userId db b :
  status (fst (changePassword bcrypt_hash bcrypt_compare salt userId db b)) = 200 ->
  exists user currentPassword newPassword,
    findUserById db userId = Some user /\
    body_currentPassword b = Some currentPassword /\
    body_newPassword b = Some newPassword /\
    bcrypt_compare currentPassword (u_passwordHash user) = true /\
    6 <= Z.of_nat (String.length newPassword) /\
    users (snd (changePassword bcrypt_hash bcrypt_compare salt userId db b))
    = map (fun u => if (u_id u =? userId)%string
                    then withPasswordHash (bcrypt_hash salt newPassword) u
                    else u)
          (users db).
Proof.
  unfold changePassword.
  destruct (body_currentPassword b) as [currentPassword|]; [|discriminate].
  destruct (body_newPassword b) as [newPassword|];
    [|rewrite orb_true_r; discriminate].
  destruct (_ || _); [discriminate|].
  cbv zeta.
  destruct (Z.of_nat (String.length newPassword) <? 6) eqn:Hlen; [discriminate|].
  destruct (findUserById db userId) as [user|]; [|discriminate].
  destruct (bcrypt_compare currentPassword (u_passwordHash user)) eqn:Hcmp; simpl;
    [|discriminate].
  intros _. exists user, currentPassword, newPassword.
  apply Z.ltb_ge in Hlen. repeat split; auto.
Qed.

(** X9: [changePassword] replaces the credential of the rows with the given
    id and nothing else, and only when it answers 200, which takes the
    current password to match the stored credential and the new one to
    have six characters or more; any other answer leaves the table as it
    was. *)
Theorem changePassword_changes_one_credential
  (salt userId : string) (db : Db) (b : Body) :
  (status (fst (changePassword bcrypt_hash bcrypt_compare salt userId db b)) <> 200 ->
   snd (changePassword bcrypt_hash bcrypt_compare salt userId db b) = db) /\
  (status (fst (changePassword bcrypt_hash bcrypt_compare salt userId db b)) = 200 ->
   exists user currentPassword newPassword,
     findUserById db userId = Some user /\
     body_currentPassword b = Some currentPassword /\
     body_newPassword b = Some newPassword /\
     bcrypt_compare currentPassword (u_passwordHash user) = true /\
     6 <= Z.of_nat (String.length newPassword) /\
     users (snd (changePassword bcrypt_hash bcrypt_compare salt userId db b))
     = map (fun u => if (u_id u =? userId)%string
                     then withPasswordHash (bcrypt_hash salt newPassword) u
                     else u)
           (users db)).
Proof.
  split; [|apply changePassword_200].
  unfold changePassword.
  destruct (_ || _); [reflexivity|]. cbv zeta.
  destruct (_ <? 6); [reflexivity|].
  destruct (findUserById db userId) as [user|]; [|reflexivity].
  destruct (negb _); [reflexivity|].
  simpl. intros H. now elim H.
Qed.

(** X10: after a change of password answered 200, the account logs in with
    the new password, and no longer with a password that [bcrypt.compare]
    rejects against the new hash. *)
Theorem changePassword_then_login
  (salt userId : string) (db : Db) (b : Body) (user : User) (newPassword : string) :
  email_index db ->
  findUserById db userId = Some user ->
  u_email user <> "" ->
  body_newPassword b = Some newPassword ->
  status (fst (changePassword bcrypt_hash bcrypt_compare salt userId db b)) = 200 ->
  (bcrypt_compare newPassword (bcrypt_hash salt newPassword) = true ->
   forall b',
     body_email b' = Some (u_email user) ->
     body_password b' = Some newPassword ->
     status (fst (login bcrypt_compare generateToken
                    (snd (changePassword bcrypt_hash bcrypt_compare salt userId db b))
                    b')) = 200) /\
  (forall b' oldPassword,
     body_email b' = Some (u_email user) ->
     body_password b' = Some oldPassword ->
     bcrypt_compare oldPassword (bcrypt_hash salt newPassword) = false ->
     status (fst (login bcrypt_compare generateToken
                    (snd (changePassword bcrypt_hash bcrypt_compare salt userId db b))
                    b')) <> 200).
Proof.
  intros Hidx Hfind Hmail Hnew Hok.
  destruct (changePassword_200 salt userId db b Hok)
    as (user' & current & new' & Hfind' & _ & Hnew' & _ & Hlen & Hdb).
  rewrite Hfind in Hfind'. injection Hfind' as <-.
  rewrite Hnew in Hnew'. injection Hnew' as <-.
  assert (Hin : In user (users db) /\ u_id user = userId).
  { apply find_some in Hfind as [Hin Hid]. apply String.eqb_eq in Hid. auto. }
  destruct Hin as [Hin Hid].
  assert (Hlookup :
            findUserByEmail
              (snd (changePassword bcrypt_hash bcrypt_compare salt userId db b))
              (u_email user)
            = Some (withPasswordHash (bcrypt_hash salt newPassword) user)).
  { unfold findUserByEmail. rewrite Hdb.
    rewrite find_map_key.
    - rewrite (find_unique_key u_email _ _ Hidx Hin). simpl.
      now rewrite Hid, String.eqb_refl.
    - intros a. now destruct (u_id a =? userId)%string. }
  split.
  - intros Hbcrypt b' He Hp.
    erewrite login_ok; eauto.
    + now apply Accounts.truthy_some.
    + apply Accounts.truthy_some. intros ->. simpl in Hlen. lia.
  - intros b' oldPassword He Hp Hcmp. unfold login.
    destruct (validateRequiredFields _ _) as [valid missing].
    destruct valid; simpl; [|discriminate].
    rewrite He, Hp, Hlookup. simpl. rewrite Hcmp. simpl. discriminate.
Qed.

End Handlers.

(** Bia registers as a collaborator; a registration without a password
    creates nothing. *)
Lemma register_creates_unprivileged_account_witness :
  snd (register sample_hash sample_token "u2" "salt" (mkDb [ana])
         (mkBody (Some "bia@example.com") None (Some "MOTHER") (Some "Bia")
                 None None None None))
  = mkDb [ana] /\
  exists user,
    users (snd (register sample_hash sample_token "u2" "salt" (mkDb [ana])
                  (mkBody (Some "bia@example.com") (Some "segredo2")
                          (Some "COLLABORATOR") (Some "Bia")
                          (Some "Doula") None None None)))
    = [ana; user] /\
    u_role user = COLLABORATOR /\ u_adminProfile user = None /\
    u_isVerified user = false.
Proof.
  split.
  - apply (register_creates_unprivileged_account sample_hash sample_token).
    vm_compute. discriminate.
  - destruct (register_creates_unprivileged_account sample_hash sample_token
                "u2" "salt" (mkDb [ana])
                (mkBody (Some "bia@example.com") (Some "segredo2")
                        (Some "COLLABORATOR") (Some "Bia")
                        (Some "Doula") None None None)) as [_ Hcreated].
    destruct (Hcreated eq_refl)
      as (email & password & fullName & user & _ & _ & _ & _ & _ & _ & Husers
          & _ & _ & _ & Hver & Hadmin & _ & _).
    exists user. split; [exact Husers|].
    split; [|split; assumption].
    cbv in Husers. injection Husers as <-. reflexivity.
Defined.

Lemma register_then_login_witness :
  exists user,
    u_id user = "u1" /\
    status (fst (login sample_compare sample_token
                   (snd (register sample_hash sample_token "u1" "salt" (mkDb [])
                           (registration "ana@example.com" "segredo1" "MOTHER" "Ana")))
                   (registration "ana@example.com" "segredo1" "MOTHER" "Ana")))
    = 200.
Proof.
  destruct (register_then_login sample_hash sample_compare sample_token
              "u1" "salt" (mkDb [])
              (registration "ana@example.com" "segredo1" "MOTHER" "Ana") eq_refl)
    as (user & _ & Hid & _ & Hlogin).
  - intros password _. unfold sample_compare. apply String.eqb_refl.
  - exists user. split; [exact Hid|]. now rewrite Hlogin.
Defined.

Lemma login_token_authenticates_witness :
  authenticate sample_verify (mkDb [ana]) (Some "Bearer token-u1")
    (fun ctx => mkResponse 200 true None (Some (ctx_userId ctx)))
  = mkResponse 200 true None (Some "u1").
Proof.
  assert (Hidx : id_index (mkDb [ana]))
    by (unfold id_index; simpl; constructor; [intros [] | constructor]).
  destruct (login_token_authenticates sample_compare sample_token sample_verify
              (mkDb [ana]) (credentials "ana@example.com" "segredo1")
              "ana@example.com" ana Hidx eq_refl eq_refl eq_refl eq_refl eq_refl)
    as [_ Hgate].
  apply (Hgate _ (fun ctx => mkResponse 200 true None (Some (ctx_userId ctx)))).
Defined.

Lemma changePassword_changes_one_credential_witness :
  snd (changePassword sample_hash sample_compare "salt" "u1" (mkDb [ana])
         (passwordChange "errada" "segredo2"))
  = mkDb [ana] /\
  exists user,
    findUserById (mkDb [ana]) "u1" = Some user /\
    users (snd (changePassword sample_hash sample_compare "salt" "u1" (mkDb [ana])
                  (passwordChange "segredo1" "segredo2")))
    = [withPasswordHash (sample_hash "salt" "segredo2") user].
Proof.
  split.
  - apply (changePassword_changes_one_credential sample_hash sample_compare).
    vm_compute. discriminate.
  - destruct (changePassword_changes_one_credential sample_hash sample_compare
                "salt" "u1" (mkDb [ana]) (passwordChange "segredo1" "segredo2"))
      as [_ Hchanged].
    destruct (Hchanged eq_refl)
      as (user & current & new & Hfind & _ & Hnew & _ & _ & Husers).
    exists user. split; [exact Hfind|].
    injection Hnew as <-. rewrite Husers.
    cbv in Hfind. injection Hfind as <-. reflexivity.
Defined.

Lemma changePassword_then_login_witness :
  status (fst (login sample_compare sample_token
                 (snd (changePassword sample_hash sample_compare "salt" "u1"
                         (mkDb [ana]) (passwordChange "segredo1" "segredo2")))
                 (credentials "ana@example.com" "segredo2"))) = 200 /\
  status (fst (login sample_compare sample_token
                 (snd (changePassword sample_hash sample_compare "salt" "u1"
                         (mkDb [ana]) (passwordChange "segredo1" "segredo2")))
                 (credentials "ana@example.com" "segredo1"))) <> 200.
Proof.
  assert (Hidx : email_index (mkDb [ana]))
    by (unfold email_index; simpl; constructor; [intros [] | constructor]).
  destruct (changePassword_then_login sample_hash sample_compare sample_token
              "salt" "u1" (mkDb [ana]) (passwordChange "segredo1" "segredo2")
              ana "segredo2" Hidx eq_refl) as [Hnew Hold];
    [discriminate | reflexivity | reflexivity |].
  split.
  - apply Hnew; reflexivity.
  - apply (Hold _ "segredo1"); reflexivity.
Defined.

End AccountFacts.

Module PregnancyFacts.

Import Validation Pregnancy.

Lemma PregnancyRow_eta (p : PregnancyRow) :
  mkPregnancy (p_id p) (p_motherProfileId p) (p_dueDate p) (p_currentWeek p)
              (p_status p) = p.
Proof. now destruct p. Qed.

Lemma with_same_pregnancies (db : Db) : with_pregnancies db (pregnancies db) = db.
Proof. now destruct db. Qed.

Lemma calculateCurrentWeek_range now due :
  1 <= calculateCurrentWeek now due <= 40.
Proof. unfold calculateCurrentWeek. cbv zeta. lia. Qed.

(** The row of a profile after the rows with one id were rewritten by a
    function that keeps the profile of every row. *)
Lemma pregnancyOf_update db id change motherProfileId :
  (forall p, p_motherProfileId (change p) = p_motherProfileId p) ->
  pregnancyOf (pregnancy_update db id change) motherProfileId
  = option_map (fun p => if (p_id p =? id)%string then change p else p)
               (pregnancyOf db motherProfileId).
Proof.
  intros Hkeep. unfold pregnancyOf, pregnancy_update. simpl.
  apply find_map_key. intros p. destruct (p_id p =? id)%string; [|reflexivity].
  now rewrite Hkeep.
Qed.

(** The row with the week that [getCurrentPregnancy] computes at [now]. *)
Lemma getCurrentPregnancy_200 now db req :
  status (fst (getCurrentPregnancy now db req)) = 200 ->
  exists motherProfile pregnancy,
    req_role req = MOTHER /\
    findMotherProfile db (req_userId req) = Some motherProfile /\
    activePregnancyOf db (mp_id motherProfile) = Some pregnancy /\
    fst (getCurrentPregnancy now db req)
    = mkResponse 200 true None
        (Some (mkPregnancy (p_id pregnancy) (p_motherProfileId pregnancy)
                 (p_dueDate pregnancy)
                 (calculateCurrentWeek now (p_dueDate pregnancy))
                 (p_status pregnancy))) /\
    motherProfiles (snd (getCurrentPregnancy now db req)) = motherProfiles db /\
    symptomLogs (snd (getCurrentPregnancy now db req)) = symptomLogs db /\
    activePregnancyOf (snd (getCurrentPregnancy now db req)) (mp_id motherProfile)
    = Some (mkPregnancy (p_id pregnancy) (p_motherProfileId pregnancy)
              (p_dueDate pregnancy)
              (calculateCurrentWeek now (p_dueDate pregnancy))
              (p_status pregnancy)).
Proof.
  unfold getCurrentPregnancy.
  destruct (req_role req) eqn:Hrole; simpl; try discriminate.
  destruct (findMotherProfile db (req_userId req)) as [mp|]; simpl; [|discriminate].
  destruct (activePregnancyOf db (mp_id mp)) as [p|] eqn:Hact; [|discriminate].
  destruct (calculateCurrentWeek now (p_dueDate p) =? p_currentWeek p) eqn:Hweek; simpl.
  - apply Z.eqb_eq in Hweek. intros _. exists mp, p.
    rewrite Hweek, PregnancyRow_eta. repeat split; auto.
  - intros _. exists mp, p.
    split; [reflexivity | split; [reflexivity | split; [exact Hact|]]].
    split; [reflexivity | split; [reflexivity | split; [reflexivity|]]].
    unfold activePregnancyOf in *.
    rewrite pregnancyOf_update by reflexivity.
    destruct (pregnancyOf db (mp_id mp)) as [q|]; [|discriminate]. simpl.
    destruct (PregnancyStatus_eqb (p_status q) ACTIVE) eqn:Hst; [|discriminate].
    injection Hact as ->. rewrite String.eqb_refl. simpl. now rewrite Hst.
Qed.

(** X11: a request for the current pregnancy that is answered 200 returns
    the active row of the requester with the week computed at the time of
    the request, a week in 1..40, and leaves exactly that row in the
    table: the same request repeated at the same time returns the same row
    and writes nothing.  Any other answer leaves the table as it was. *)
Theorem getCurrentPregnancy_stores_week (now : Z) (db : Db) (req : Request) :
  (status (fst (getCurrentPregnancy now db req)) <> 200 ->
   snd (getCurrentPregnancy now db req) = db) /\
  (status (fst (getCurrentPregnancy now db req)) = 200 ->
   exists motherProfile row,
     findMotherProfile db (req_userId req) = Some motherProfile /\
     data (fst (getCurrentPregnancy now db req)) = Some row /\
     p_currentWeek row = calculateCurrentWeek now (p_dueDate row) /\
     1 <= p_currentWeek row <= 40 /\
     activePregnancyOf (snd (getCurrentPregnancy now db req)) (mp_id motherProfile)
     = Some row /\
     getCurrentPregnancy now (snd (getCurrentPregnancy now db req)) req
     = (mkResponse 200 true None (Some row), snd (getCurrentPregnancy now db req))).
Proof.
  split.
  - unfold getCurrentPregnancy.
    destruct (negb _); [reflexivity|].
    destruct (option_map _ _) as [[p|]|]; [|reflexivity|reflexivity].
    destruct (negb _); simpl; [intros H; now elim H | reflexivity].
  - intros Hok.
    destruct (getCurrentPregnancy_200 now db req Hok)
      as (mp & p & Hrole & Hmp & Hact & Hres & Hprofiles & _ & Hstored).
    exists mp, (mkPregnancy (p_id p) (p_motherProfileId p) (p_dueDate p)
                  (calculateCurrentWeek now (p_dueDate p)) (p_status p)).
    split; [exact Hmp|]. split; [now rewrite Hres|].
    split; [reflexivity|]. split; [apply calculateCurrentWeek_range|].
    split; [exact Hstored|].
    set (db' := snd (getCurrentPregnancy now db req)) in *.
    unfold getCurrentPregnancy at 1.
    rewrite Hrole. simpl.
    unfold findMotherProfile in *. rewrite Hprofiles, Hmp. simpl.
    rewrite Hstored. simpl. now rewrite Z.eqb_refl.
Qed.

Lemma getCurrentPregnancy_stores_week_witness :
  let db := mkDb [mkMotherProfile "mp1" "u1"]
                 [mkPregnancy "p1" "mp1" 7257600000 20 ACTIVE] [] in
  let req := mkRequest MOTHER "u1" "" None None None None None in
  pregnancies (snd (getCurrentPregnancy 0 db req))
  = [mkPregnancy "p1" "mp1" 7257600000 28 ACTIVE] /\
  getCurrentPregnancy 0 (snd (getCurrentPregnancy 0 db req)) req
  = (mkResponse 200 true None (Some (mkPregnancy "p1" "mp1" 7257600000 28 ACTIVE)),
     snd (getCurrentPregnancy 0 db req)).
Proof.
  intros db req. split; [reflexivity|].
  destruct (getCurrentPregnancy_stores_week 0 db req) as [_ Hok].
  destruct (Hok eq_refl) as (mp & row & _ & Hdata & _ & _ & _ & Hagain).
  cbv in Hdata. injection Hdata as <-. exact Hagain.
Defined.

(** X12: the symptom log stores the week that the pregnancy row holds at
    that moment: logged right after a request for the current pregnancy
    answered 200 at time [now], the entry belongs to the requester's active
    pregnancy and carries the week computed at [now]; the pregnancy table
    is not written. *)
Theorem logSymptoms_after_recompute (now : Z) (db : Db) (req : Request) :
  status (fst (getCurrentPregnancy now db req)) = 200 ->
  exists motherProfile pregnancy symptomLog,
    findMotherProfile db (req_userId req) = Some motherProfile /\
    activePregnancyOf db (mp_id motherProfile) = Some pregnancy /\
    status (fst (logSymptoms (snd (getCurrentPregnancy now db req)) req)) = 201 /\
    symptomLogs (snd (logSymptoms (snd (getCurrentPregnancy now db req)) req))
    = (symptomLogs db ++ [symptomLog])%list /\
    sl_pregnancyId symptomLog = p_id pregnancy /\
    sl_week symptomLog = calculateCurrentWeek now (p_dueDate pregnancy) /\
    sl_symptoms symptomLog
    = match body_symptoms req with Some l => l | None => [] end /\
    pregnancies (snd (logSymptoms (snd (getCurrentPregnancy now db req)) req))
    = pregnancies (snd (getCurrentPregnancy now db req)).
Proof.
  intros Hok.
  destruct (getCurrentPregnancy_200 now db req Hok)
    as (mp & p & Hrole & Hmp & Hact & _ & Hprofiles & Hlogs & Hstored).
  set (db' := snd (getCurrentPregnancy now db req)) in *.
  exists mp, p.
  unfold logSymptoms. rewrite Hrole. simpl.
  unfold findMotherProfile in *. rewrite Hprofiles, Hmp. simpl.
  rewrite Hstored. simpl. rewrite Hlogs.
  eexists. repeat split; auto.
Qed.

Lemma logSymptoms_after_recompute_witness :
  let db := mkDb [mkMotherProfile "mp1" "u1"]
                 [mkPregnancy "p1" "mp1" 7257600000 20 ACTIVE] [] in
  let req := mkRequest MOTHER "u1" "" None None (Some ["enjoo"]) None None in
  exists symptomLog,
    symptomLogs (snd (logSymptoms (snd (getCurrentPregnancy 0 db req)) req))
    = [symptomLog] /\
    sl_week symptomLog = 28.
Proof.
  intros db req.
  destruct (logSymptoms_after_recompute 0 db req eq_refl)
    as (mp & p & symptomLog & Hmp & Hact & _ & Hlogs & _ & Hweek & _).
  exists symptomLog. split; [exact Hlogs|].
  cbv in Hmp. injection Hmp as <-.
  cbv in Hact. injection Hact as <-. exact Hweek.
Defined.

Section Handlers.

Variable parseDate : string -> JsDate.

(** X13: a request to create a pregnancy that is not answered 201 writes
    nothing; one that is answered 201 comes from a mother whose pregnancy
    record is not Active, carries a due date later than the clock, and
    appends one row: Active, owned by her profile, with the posted due date
    and the week computed from it, a week in 1..40.  When she had no
    pregnancy row before, that row is then her active pregnancy. *)
Theorem createPregnancy_creates_active_row
  (now1 now2 : Z) (newId : string) (db : Db) (req : Request) :
  (status (fst (createPregnancy parseDate now1 now2 newId db req)) <> 201 ->
   snd (createPregnancy parseDate now1 now2 newId db req) = db) /\
  (status (fst (createPregnancy parseDate now1 now2 newId db req)) = 201 ->
   exists raw due motherProfile,
     req_role req = MOTHER /\
     body_dueDate req = Some raw /\ parseDate raw = DateAt due /\ now1 < due /\
     findMotherProfile db (req_userId req) = Some motherProfile /\
     activePregnancyOf db (mp_id motherProfile) = None /\
     1 <= calculateCurrentWeek now2 due <= 40 /\
     pregnancies (snd (createPregnancy parseDate now1 now2 newId db req))
     = (pregnancies db
        ++ [mkPregnancy newId (mp_id motherProfile) due
                        (calculateCurrentWeek now2 due) ACTIVE])%list /\
     data (fst (createPregnancy parseDate now1 now2 newId db req))
     = Some (mkPregnancy newId (mp_id motherProfile) due
                         (calculateCurrentWeek now2 due) ACTIVE) /\
     (pregnancyOf db (mp_id motherProfile) = None ->
      activePregnancyOf (snd (createPregnancy parseDate now1 now2 newId db req))
                        (mp_id motherProfile)
      = Some (mkPregnancy newId (mp_id motherProfile) due
                          (calculateCurrentWeek now2 due) ACTIVE))).
Proof.
  unfold createPregnancy. rewrite PregnancyInvariant.required_dueDate.
  destruct (req_role req) eqn:Hrole; simpl;
    try (split; [reflexivity | discriminate]).
  destruct (truthy (body_dueDate req)); simpl;
    [|split; [reflexivity | discriminate]].
  destruct (body_dueDate req) as [raw|]; simpl;
    [|split; [reflexivity | discriminate]].
  destruct (parseDate raw) as [|due] eqn:Hparse;
    [split; [reflexivity | discriminate]|].
  destruct (now1 <? due) eqn:Hfuture; simpl;
    [|split; [reflexivity | discriminate]].
  destruct (findMotherProfile db (req_userId req)) as [mp|];
    [|split; [reflexivity | discriminate]].
  unfold activePregnancyOf, pregnancy_create. simpl.
  destruct (match pregnancyOf db (mp_id mp) with
            | Some p => PregnancyStatus_eqb (p_status p) ACTIVE
            | None => false
            end) eqn:Hread; [split; [reflexivity | discriminate]|].
  destruct (existsb _ (pregnancies db)); simpl;
    [split; [reflexivity | discriminate]|].
  split; [intros H; now elim H|]. intros _.
  exists raw, due, mp. apply Z.ltb_lt in Hfuture.
  repeat split; auto; try apply calculateCurrentWeek_range.
  - destruct (pregnancyOf db (mp_id mp)) as [p|]; [|reflexivity].
    now rewrite Hread.
  - intros Hnone. unfold pregnancyOf in *. simpl. rewrite find_app, Hnone. simpl.
    now rewrite String.eqb_refl.
Qed.

Lemma updatePregnancy_cases now1 now2 db req :
  (exists r, status r <> 200 /\
             updatePregnancy parseDate now1 now2 db req = (r, db)) \/
  (exists pregnancy motherProfile change,
     req_role req = MOTHER /\
     find (fun p => (p_id p =? params_id req)%string) (pregnancies db)
     = Some pregnancy /\
     find (fun mp => (mp_id mp =? p_motherProfileId pregnancy)%string)
          (motherProfiles db) = Some motherProfile /\
     mp_userId motherProfile = req_userId req /\
     dueDateUpdate parseDate now1 now2 req = Some change /\
     updatePregnancy parseDate now1 now2 db req
     = (mkResponse 200 true (Some "Gravidez atualizada com sucesso")
          (Some (statusUpdate req (change pregnancy))),
        pregnancy_update db (params_id req)
          (fun p => statusUpdate req (change p)))).
Proof.
  unfold updatePregnancy.
  destruct (req_role req) eqn:Hrole; simpl;
    try (left; eexists; split; [|reflexivity]; discriminate).
  destruct (find _ (pregnancies db)) as [pregnancy|] eqn:Hfind;
    [|left; eexists; split; [|reflexivity]; discriminate].
  destruct (find _ (motherProfiles db)) as [mp|] eqn:Hmp;
    [|left; eexists; split; [|reflexivity]; discriminate].
  destruct (mp_userId mp =? req_userId req)%string eqn:Howner; simpl;
    [|left; eexists; split; [|reflexivity]; discriminate].
  destruct (dueDateUpdate parseDate now1 now2 req) as [change|] eqn:Hchange;
    [|left; eexists; split; [|reflexivity]; discriminate].
  right. exists pregnancy, mp, change. apply String.eqb_eq in Howner.
  repeat split; auto.
Qed.

(** X14: [updatePregnancy] writes only when it answers 200, which takes the
    requester to be a mother whose account owns the profile of the
    pregnancy; the rows with another id stay as they are, and no row
    changes its id or its profile. *)
Theorem updatePregnancy_owner_only (now1 now2 : Z) (db : Db) (req : Request) :
  (status (fst (updatePregnancy parseDate now1 now2 db req)) <> 200 ->
   snd (updatePregnancy parseDate now1 now2 db req) = db) /\
  (status (fst (updatePregnancy parseDate now1 now2 db req)) = 200 ->
   exists pregnancy motherProfile,
     req_role req = MOTHER /\
     find (fun p => (p_id p =? params_id req)%string) (pregnancies db)
     = Some pregnancy /\
     find (fun mp => (mp_id mp =? p_motherProfileId pregnancy)%string)
          (motherProfiles db) = Some motherProfile /\
     mp_userId motherProfile = req_userId req) /\
  (forall p, In p (pregnancies db) -> p_id p <> params_id req ->
             In p (pregnancies (snd (updatePregnancy parseDate now1 now2 db req)))) /\
  map (fun p => (p_id p, p_motherProfileId p))
      (pregnancies (snd (updatePregnancy parseDate now1 now2 db req)))
  = map (fun p => (p_id p, p_motherProfileId p)) (pregnancies db).
Proof.
  destruct (updatePregnancy_cases now1 now2 db req)
    as [(r & Hr & ->) | (pregnancy & mp & change & Hrole & Hfind & Hmp & Howner
                         & Hchange & ->)]; simpl.
  - split; [reflexivity|].
    split; [intros H; now elim Hr|]. split; [auto | reflexivity].
  - split; [intros H; now elim H|].
    split; [intros _; exists pregnancy, mp; auto|].
    split.
    + intros p Hin Hid. apply in_map_iff. exists p.
      apply String.eqb_neq in Hid. now rewrite Hid.
    + rewrite map_map. apply map_ext. intros p.
      destruct (p_id p =? params_id req)%string eqn:Hid; [|reflexivity].
      f_equal.
      * unfold statusUpdate, dueDateUpdate in *.
        destruct (truthy (body_dueDate req));
          [destruct (option_map parseDate (body_dueDate req)) as [[|due]|];
           try discriminate;
           destruct (isFutureDate now1 (DateAt due)); [|discriminate]|];
          injection Hchange as <-;
          destruct (truthy (body_status req)); simpl; auto;
          destruct (option_map statusOfString (body_status req)) as [[st|]|];
          reflexivity.
      * rewrite PregnancyInvariant.statusUpdate_keeps_profile.
        eapply PregnancyInvariant.dueDateUpdate_keeps_profile; eauto.
Qed.

(** X15: the status of an update is not checked against the stored one: an
    owner's request without a due date and with a status of the list stores
    that status whatever the row held, so a Completed or Lost pregnancy can
    be made Active again; a status outside the list is ignored and the
    request is still answered 200, with nothing changed. *)
Theorem updatePregnancy_status_unchecked
  (now1 now2 : Z) (db : Db) (req : Request)
  (pregnancy : PregnancyRow) (motherProfile : MotherProfile) (raw : string) :
  req_role req = MOTHER ->
  find (fun p => (p_id p =? params_id req)%string) (pregnancies db)
  = Some pregnancy ->
  find (fun mp => (mp_id mp =? p_motherProfileId pregnancy)%string)
       (motherProfiles db) = Some motherProfile ->
  mp_userId motherProfile = req_userId req ->
  truthy (body_dueDate req) = false ->
  body_status req = Some raw ->
  (forall st,
     statusOfString raw = Some st ->
     fst (updatePregnancy parseDate now1 now2 db req)
     = mkResponse 200 true (Some "Gravidez atualizada com sucesso")
         (Some (mkPregnancy (p_id pregnancy) (p_motherProfileId pregnancy)
                  (p_dueDate pregnancy) (p_currentWeek pregnancy) st)) /\
     In (mkPregnancy (p_id pregnancy) (p_motherProfileId pregnancy)
           (p_dueDate pregnancy) (p_currentWeek pregnancy) st)
        (pregnancies (snd (updatePregnancy parseDate now1 now2 db req)))) /\
  (statusOfString raw = None ->
   updatePregnancy parseDate now1 now2 db req
   = (mkResponse 200 true (Some "Gravidez atualizada com sucesso") (Some pregnancy),
      db)).
Proof.
  intros Hrole Hfind Hmp Howner Hdate Hstatus.
  assert (Hid : p_id pregnancy = params_id req /\ In pregnancy (pregnancies db)).
  { apply find_some in Hfind as [Hin Hid]. apply String.eqb_eq in Hid. auto. }
  destruct Hid as [Hid Hin].
  unfold updatePregnancy.
  rewrite Hrole, Hfind, Hmp, Howner, String.eqb_refl. simpl.
  unfold dueDateUpdate. rewrite Hdate. cbv zeta.
  unfold statusUpdate. rewrite Hstatus. simpl.
  assert (Hraw : raw = "" -> statusOfString raw = None) by (intros ->; reflexivity).
  split.
  - intros st Hst.
    destruct (raw =? "")%string eqn:Hempty.
    { apply String.eqb_eq in Hempty. rewrite (Hraw Hempty) in Hst. discriminate. }
    simpl. rewrite Hst. split; [reflexivity|].
    apply in_map_iff. exists pregnancy. rewrite Hid, String.eqb_refl. auto.
  - intros Hnone. rewrite Hnone.
    assert (Hsame : forall p : PregnancyRow,
              (if negb (raw =? "")%string then p else p) = p)
      by (intros p; now destruct (negb _)).
    unfold pregnancy_update. rewrite Hsame.
    erewrite map_ext; [|intros p; rewrite Hsame; reflexivity].
    now rewrite map_same, with_same_pregnancies.
Qed.

End Handlers.

Lemma createPregnancy_creates_active_row_witness :
  let parse := fun _ : string => DateAt 7257600000 in
  let db := mkDb [mkMotherProfile "mp1" "u1"] [] [] in
  snd (createPregnancy parse 0 0 "p1" db
         (mkRequest MOTHER "u1" "" None None None None None)) = db /\
  pregnancies (snd (createPregnancy parse 0 0 "p1" db
                      (mkRequest MOTHER "u1" "" (Some "2031-05-01")
                                 None None None None)))
  = [mkPregnancy "p1" "mp1" 7257600000 28 ACTIVE].
Proof.
  intros parse db. split.
  - apply (createPregnancy_creates_active_row parse). vm_compute. discriminate.
  - destruct (createPregnancy_creates_active_row parse 0 0 "p1" db
                (mkRequest MOTHER "u1" "" (Some "2031-05-01") None None None None))
      as [_ Hcreated].
    destruct (Hcreated eq_refl)
      as (raw & due & mp & _ & _ & Hparse & _ & Hmp & _ & _ & Hrows & _).
    rewrite Hrows. cbv in Hparse, Hmp.
    injection Hparse as <-. injection Hmp as <-. reflexivity.
Defined.

Lemma updatePregnancy_owner_only_witness :
  let parse := fun _ : string => DateAt 7257600000 in
  let db := mkDb [mkMotherProfile "mp1" "u1"; mkMotherProfile "mp2" "u2"]
                 [mkPregnancy "p1" "mp1" 7257600000 28 ACTIVE] [] in
  snd (updatePregnancy parse 0 0 db
         (mkRequest MOTHER "u2" "p1" None (Some "LOST") None None None)) = db /\
  exists motherProfile,
    mp_userId motherProfile = "u1" /\
    In motherProfile (motherProfiles db).
Proof.
  intros parse db. split.
  - apply (updatePregnancy_owner_only parse). vm_compute. discriminate.
  - destruct (updatePregnancy_owner_only parse 0 0 db
                (mkRequest MOTHER "u1" "p1" None (Some "LOST") None None None))
      as (_ & Howner & _).
    destruct (Howner eq_refl) as (p & mp & _ & _ & Hmp & Huser).
    exists mp. split; [exact Huser|].
    apply find_some in Hmp. tauto.
Defined.

Lemma updatePregnancy_status_unchecked_witness :
  let parse := fun _ : string => DateAt 7257600000 in
  let db := mkDb [mkMotherProfile "mp1" "u1"]
                 [mkPregnancy "p1" "mp1" 7257600000 40 COMPLETED] [] in
  In (mkPregnancy "p1" "mp1" 7257600000 40 ACTIVE)
     (pregnancies (snd (updatePregnancy parse 0 0 db
                          (mkRequest MOTHER "u1" "p1" None (Some "ACTIVE")
                                     None None None)))) /\
  updatePregnancy parse 0 0 db
    (mkRequest MOTHER "u1" "p1" None (Some "active") None None None)
  = (mkResponse 200 true (Some "Gravidez atualizada com sucesso")
       (Some (mkPregnancy "p1" "mp1" 7257600000 40 COMPLETED)), db).
Proof.
  intros parse db. split.
  - destruct (updatePregnancy_status_unchecked parse 0 0 db
                (mkRequest MOTHER "u1" "p1" None (Some "ACTIVE") None None None)
                (mkPregnancy "p1" "mp1" 7257600000 40 COMPLETED)
                (mkMotherProfile "mp1" "u1") "ACTIVE"
                eq_refl eq_refl eq_refl eq_refl eq_refl eq_refl) as [Hset _].
    apply (Hset ACTIVE eq_refl).
  - destruct (updatePregnancy_status_unchecked parse 0 0 db
                (mkRequest MOTHER "u1" "p1" None (Some "active") None None None)
                (mkPregnancy "p1" "mp1" 7257600000 40 COMPLETED)
                (mkMotherProfile "mp1" "u1") "active"
                eq_refl eq_refl eq_refl eq_refl eq_refl eq_refl) as [_ Hignored].
    apply Hignored. reflexivity.
Defined.

End PregnancyFacts.

Module EventFacts.

Import Events EventViews.

(** X16: in the event that [getEventById] returns, [isFull] holds exactly
    when [spotsLeft] is 0; [spotsLeft] is never negative, and it is absent
    exactly when the capacity is null or 0, in which case the event is not
    full.  [isFull] is the test that [registerForEvent] applies. *)
Theorem getEventById_spots (db : Db) (motherProfile : option string)
  (id : string) (view : EventView) :
  data (getEventById db motherProfile id) = Some view ->
  findPublishedEvent db id = Some (v_event view) /\
  (v_isFull view = true <-> v_spotsLeft view = Some 0) /\
  (forall n, v_spotsLeft view = Some n -> 0 <= n) /\
  (v_spotsLeft view = None <->
   e_capacity (v_event view) = None \/ e_capacity (v_event view) = Some 0) /\
  v_isFull view = isFull (e_capacity (v_event view)) (v_registeredCount view) /\
  v_registeredCount view = registeredCount db id.
Proof.
  unfold getEventById.
  destruct (findPublishedEvent db id) as [event|] eqn:Hev; [|discriminate].
  cbv zeta. simpl. intros [= <-]. simpl.
  assert (Hid : e_id event = id).
  { apply find_some in Hev as [_ H]. apply andb_true_iff in H as [H _].
    now apply String.eqb_eq. }
  rewrite Hid.
  split; [reflexivity|].
  destruct (e_capacity event) as [c|]; simpl.
  - destruct (Z.eqb_spec c 0) as [->|Hc]; simpl.
    + split; [split; discriminate|].
      split; [discriminate|].
      split; [split; auto | split; reflexivity].
    + split.
      { split.
        - intros Hfull. apply Z.leb_le in Hfull. f_equal. lia.
        - intros [= Hmax]. apply Z.leb_le. lia. }
      split; [intros n [= <-]; lia|].
      split; [|split; reflexivity].
      split; [discriminate | intros [H|H]; [discriminate | congruence]].
  - split; [split; discriminate|].
    split; [discriminate|].
    split; [split; auto | split; reflexivity].
Qed.

Lemma getEventById_spots_witness :
  let db := mkDb [mkEvent "e1" (Some 1) false true]
                 [mkRegistration "e1" "mp1" REGISTERED None] in
  exists view,
    data (getEventById db None "e1") = Some view /\
    v_isFull view = true /\ v_spotsLeft view = Some 0.
Proof.
  intros db.
  eexists. split; [reflexivity|].
  destruct (getEventById_spots db None "e1" _ eq_refl) as (_ & Hfull & _).
  split; [apply Hfull|]; reflexivity.
Defined.

Lemma findPublishedEvent_id db id event :
  findPublishedEvent db id = Some event -> e_id event = id.
Proof.
  intros Hev. apply find_some in Hev as [_ H].
  apply andb_true_iff in H as [H _]. now apply String.eqb_eq.
Qed.

Lemma registeredCount_app evs regs row eventId :
  registeredCount (mkDb evs (regs ++ [row])) eventId
  = registeredCount (mkDb evs regs) eventId
    + (if (r_eventId row =? eventId)%string
          && RegistrationStatus_eqb (r_status row) REGISTERED
       then 1 else 0).
Proof.
  unfold registeredCount. simpl. rewrite filter_app, length_app. simpl.
  destruct (_ && _); simpl; lia.
Qed.

(** What a registration leaves in the table, with the new row. *)
Lemma registerForEvent_row db req :
  (status (fst (registerForEvent db req)) <> 201 /\
   snd (registerForEvent db req) = db) \/
  (exists event userId st,
     req_role req = MOTHER /\
     req_motherProfile req = Some userId /\
     findPublishedEvent db (params_id req) = Some event /\
     findRegistration db (params_id req) userId = None /\
     st = (if isFull (e_capacity event) (registeredCount db (params_id req))
           then WAITLIST else REGISTERED) /\
     status (fst (registerForEvent db req)) = 201 /\
     snd (registerForEvent db req)
     = mkDb (events db)
            (registrations db ++ [mkRegistration (params_id req) userId st None])).
Proof.
  unfold registerForEvent.
  destruct (req_role req) eqn:Hrole; simpl; try (left; split; [discriminate | reflexivity]).
  destruct (findPublishedEvent db (params_id req)) as [event|] eqn:Hev;
    [|left; split; [discriminate | reflexivity]].
  destruct (req_motherProfile req) as [userId|];
    [|left; split; [discriminate | reflexivity]].
  destruct (findRegistration db (params_id req) userId) eqn:Hnone;
    [left; split; [discriminate | reflexivity]|].
  cbv zeta. rewrite !EventRegistration.registration_create_fresh by exact Hnone.
  rewrite (findPublishedEvent_id _ _ _ Hev).
  unfold registeredCount.
  destruct (isFull _ _) eqn:Hfull;
    [destruct (e_waitlistEnabled event)|]; simpl;
    try (left; split; [discriminate | reflexivity]);
    right; exists event, userId; eexists;
    (split; [reflexivity|]); (split; [reflexivity|]); (split; [reflexivity|]);
    (split; [exact Hnone|]); (split; [reflexivity|]);
    (split; [reflexivity|]); simpl in Hfull; rewrite ?Hfull; reflexivity.
Qed.

(** X17: served one after the other, registrations never push the number
    of Registered rows of an event above a positive capacity, and a
    registration never changes the count of another event. *)
Theorem registerForEvent_respects_capacity
  (db : Db) (req : Request) (event : Event) (capacity : Z) :
  findPublishedEvent db (params_id req) = Some event ->
  e_capacity event = Some capacity ->
  0 < capacity ->
  registeredCount db (params_id req) <= capacity ->
  registeredCount (snd (registerForEvent db req)) (params_id req) <= capacity /\
  (forall other, other <> params_id req ->
     registeredCount (snd (registerForEvent db req)) other
     = registeredCount db other).
Proof.
  intros Hev Hcap Hpos Hle.
  destruct (registerForEvent_row db req)
    as [[_ ->] | (event' & userId & st & _ & _ & Hev' & _ & Hst & _ & ->)];
    [split; [exact Hle | reflexivity]|].
  rewrite Hev in Hev'. injection Hev' as <-.
  destruct db as [evs regs]. simpl in *.
  split.
  - rewrite registeredCount_app. simpl. rewrite String.eqb_refl. simpl.
    subst st. unfold isFull. rewrite Hcap.
    destruct (Z.eqb_spec capacity 0) as [->|_]; [lia|]. simpl.
    destruct (capacity <=? registeredCount (mkDb evs regs) (params_id req)) eqn:Hfull;
      simpl; [lia|].
    apply Z.leb_gt in Hfull. lia.
  - intros other Hother. rewrite registeredCount_app. simpl.
    apply not_eq_sym, String.eqb_neq in Hother. rewrite Hother. simpl. lia.
Qed.

Lemma registerForEvent_respects_capacity_witness :
  let db := mkDb [mkEvent "e1" (Some 1) true true]
                 [mkRegistration "e1" "mp1" REGISTERED None] in
  registeredCount (snd (registerForEvent db (mkRequest MOTHER (Some "mp2") "e1")))
                  "e1" <= 1.
Proof.
  intros db.
  apply (registerForEvent_respects_capacity db (mkRequest MOTHER (Some "mp2") "e1")
           (mkEvent "e1" (Some 1) true true) 1);
    try reflexivity; try (vm_compute; discriminate).
Defined.

(** X18: the same registration request served twice: after an answer 201,
    whether the row is Registered or Waitlisted, the second request is
    answered 409 Conflict and writes nothing. *)
Theorem registerForEvent_twice (db : Db) (req : Request) :
  status (fst (registerForEvent db req)) = 201 ->
  registerForEvent (snd (registerForEvent db req)) req
  = (failure 409 "Você já está registrada neste evento",
     snd (registerForEvent db req)).
Proof.
  intros Hok.
  destruct (registerForEvent_row db req)
    as [[Hno _] | (event & userId & st & Hrole & Hmp & Hev & Hnone & _ & _ & Hdb)];
    [now elim Hno|].
  rewrite Hdb. unfold registerForEvent.
  rewrite (role_is_mother _ Hrole), Hmp.
  unfold findPublishedEvent in *. simpl. rewrite Hev.
  unfold findRegistration in *. simpl. rewrite find_app, Hnone. simpl.
  unfold isRegistrationOf. simpl. now rewrite !String.eqb_refl.
Qed.

Lemma registerForEvent_twice_witness :
  let db := mkDb [mkEvent "e1" None false true] [] in
  let req := mkRequest MOTHER (Some "mp1") "e1" in
  status (fst (registerForEvent (snd (registerForEvent db req)) req)) = 409.
Proof.
  intros db req. now rewrite (registerForEvent_twice db req eq_refl).
Defined.

(** X19: the route [GET /events/:id] is mounted in front of
    [authenticate], so [getEventById] runs without a user and its answer
    carries no registration.  What it shows still predicts the answer to a
    mother's registration in the same state: when she has a registration
    row the answer is 409; when she has none, an event shown as not full
    gives a Registered row, and an event shown as full gives a Waitlisted
    row when the waitlist is enabled and the answer 400 otherwise. *)
Theorem registerForEvent_follows_view
  (db : Db) (req : Request) (userId : string) (view : EventView) :
  req_role req = MOTHER ->
  req_motherProfile req = Some userId ->
  data (getEventById db None (params_id req)) = Some view ->
  v_registration view = None /\
  (forall r, findRegistration db (params_id req) userId = Some r ->
     registerForEvent db req
     = (failure 409 "Você já está registrada neste evento", db)) /\
  (findRegistration db (params_id req) userId = None ->
   (v_isFull view = false ->
    status (fst (registerForEvent db req)) = 201 /\
    registrations (snd (registerForEvent db req))
    = (registrations db ++ [mkRegistration (params_id req) userId REGISTERED None])%list) /\
   (v_isFull view = true -> e_waitlistEnabled (v_event view) = true ->
    status (fst (registerForEvent db req)) = 201 /\
    registrations (snd (registerForEvent db req))
    = (registrations db ++ [mkRegistration (params_id req) userId WAITLIST None])%list) /\
   (v_isFull view = true -> e_waitlistEnabled (v_event view) = false ->
    registerForEvent db req = (failure 400 "Este evento está lotado", db))).
Proof.
  intros Hrole Hmp Hview.
  unfold getEventById in Hview.
  destruct (findPublishedEvent db (params_id req)) as [event|] eqn:Hev;
    [|discriminate].
  cbv zeta in Hview. simpl in Hview. injection Hview as <-. simpl.
  unfold registerForEvent. rewrite (role_is_mother _ Hrole), Hev, Hmp.
  split; [reflexivity|]. split.
  - intros r Hfound. now rewrite Hfound.
  - intros Hnone. rewrite Hnone. cbv zeta.
    rewrite !EventRegistration.registration_create_fresh by exact Hnone.
    assert (Hsame :
              match e_capacity event with
              | Some capacity =>
                  if negb (capacity =? 0)
                  then capacity <=? registeredCount db (e_id event)
                  else false
              | None => false
              end
              = isFull (e_capacity event) (registeredCount db (e_id event))).
    { unfold isFull. destruct (e_capacity event) as [c|]; [|reflexivity].
      now destruct (negb (c =? 0)). }
    rewrite Hsame.
    split; [|split].
    + now intros ->.
    + now intros -> ->.
    + now intros -> ->.
Qed.

Lemma registerForEvent_follows_view_witness :
  let db := mkDb [mkEvent "e1" (Some 1) true true]
                 [mkRegistration "e1" "mp1" REGISTERED None] in
  registrations (snd (registerForEvent db (mkRequest MOTHER (Some "mp2") "e1")))
  = [mkRegistration "e1" "mp1" REGISTERED None;
     mkRegistration "e1" "mp2" WAITLIST None] /\
  registerForEvent db (mkRequest MOTHER (Some "mp1") "e1")
  = (failure 409 "Você já está registrada neste evento", db).
Proof.
  intros db. split.
  - destruct (registerForEvent_follows_view db
                (mkRequest MOTHER (Some "mp2") "e1") "mp2" _
                eq_refl eq_refl eq_refl) as (_ & _ & Hnone).
    destruct (Hnone eq_refl) as (_ & Hwait & _).
    apply Hwait; reflexivity.
  - destruct (registerForEvent_follows_view db
                (mkRequest MOTHER (Some "mp1") "e1") "mp1" _
                eq_refl eq_refl eq_refl) as (_ & Hfound & _).
    apply (Hfound (mkRegistration "e1" "mp1" REGISTERED None)). reflexivity.
Defined.

(** A successful cancellation, with the rows it leaves. *)
Lemma cancelRegistration_rows now db req :
  (status (fst (cancelRegistration now db req)) <> 200 /\
   snd (cancelRegistration now db req) = db) \/
  (exists userId registration,
     req_role req = MOTHER /\
     req_motherProfile req = Some userId /\
     findRegistration db (params_id req) userId = Some registration /\
     status (fst (cancelRegistration now db req)) = 200 /\
     snd (cancelRegistration now db req)
     = mkDb (events db) (map (cancel (params_id req) userId now) (registrations db))).
Proof.
  unfold cancelRegistration.
  destruct (req_role req); simpl; try (left; split; [discriminate | reflexivity]).
  destruct (req_motherProfile req) as [userId|];
    [|left; split; [discriminate | reflexivity]].
  destruct (findRegistration db (params_id req) userId) as [r|] eqn:Hr;
    [|left; split; [discriminate | reflexivity]].
  right. exists userId, r. repeat split; auto.
Qed.

Lemma registeredCount_cancel evs regs id userId now eventId :
  registeredCount (mkDb evs (map (cancel id userId now) regs)) eventId
  <= registeredCount (mkDb evs regs) eventId.
Proof.
  unfold registeredCount. simpl.
  induction regs as [|r regs IH]; simpl; [lia|].
  unfold cancel at 1 2.
  destruct (isRegistrationOf id userId r); simpl.
  - rewrite andb_false_r.
    destruct (_ && _); simpl; lia.
  - destruct (_ && _); simpl; lia.
Qed.

(** X20: a cancellation promotes nobody: afterwards every row with status
    Registered was there with that status before, the rows of the other
    (event, user) pairs are as they were, so a Waitlisted row stays
    Waitlisted, and no event has more Registered rows than before. *)
Theorem cancelRegistration_promotes_nobody (now : Z) (db : Db) (req : Request) :
  (forall r,
     In r (registrations (snd (cancelRegistration now db req))) ->
     r_status r = REGISTERED -> In r (registrations db)) /\
  (forall r userId,
     req_motherProfile req = Some userId ->
     isRegistrationOf (params_id req) userId r = false ->
     In r (registrations db) ->
     In r (registrations (snd (cancelRegistration now db req)))) /\
  (forall eventId,
     registeredCount (snd (cancelRegistration now db req)) eventId
     <= registeredCount db eventId).
Proof.
  destruct (cancelRegistration_rows now db req)
    as [[_ ->] | (userId & reg & _ & Hmp & _ & _ & ->)].
  - repeat split; auto. intros. lia.
  - split; [|split].
    + intros r Hin Hst. simpl in Hin.
      apply in_map_iff in Hin as (r0 & Hr & Hin). unfold cancel in Hr.
      destruct (isRegistrationOf (params_id req) userId r0).
      * subst r. discriminate.
      * now subst r.
    + intros r userId' Hmp' Hkey Hin. rewrite Hmp in Hmp'. injection Hmp' as <-.
      simpl. apply in_map_iff. exists r. unfold cancel. now rewrite Hkey.
    + intros eventId. destruct db as [evs regs]. apply registeredCount_cancel.
Qed.

Lemma cancelRegistration_promotes_nobody_witness :
  let db := mkDb [mkEvent "e1" (Some 1) true true]
                 [mkRegistration "e1" "mp1" REGISTERED None;
                  mkRegistration "e1" "mp2" WAITLIST None] in
  In (mkRegistration "e1" "mp2" WAITLIST None)
     (registrations (snd (cancelRegistration 7 db (mkRequest MOTHER (Some "mp1") "e1")))).
Proof.
  intros db.
  destruct (cancelRegistration_promotes_nobody 7 db
              (mkRequest MOTHER (Some "mp1") "e1")) as (_ & Hkept & _).
  apply (Hkept _ "mp1"); [reflexivity | reflexivity | right; now left].
Defined.

Lemma registeredCount_cancel_registered evs regs id userId now registration :
  find (isRegistrationOf id userId) regs = Some registration ->
  r_status registration = REGISTERED ->
  registeredCount (mkDb evs (map (cancel id userId now) regs)) id + 1
  <= registeredCount (mkDb evs regs) id.
Proof.
  induction regs as [|r regs IH]; simpl; [discriminate|].
  intros Hfind Hst.
  pose proof (registeredCount_cancel evs regs id userId now id) as Hle.
  unfold registeredCount in *. simpl in *.
  unfold cancel at 1 2.
  destruct (isRegistrationOf id userId r) eqn:Hkey; simpl.
  - injection Hfind as ->. rewrite Hst, andb_false_r. simpl.
    apply andb_true_iff in Hkey as [Hid _]. rewrite Hid. simpl. lia.
  - specialize (IH Hfind Hst).
    destruct (_ && _); simpl; lia.
Qed.

(** X21: a cancellation frees a place.  In an event that holds no more
    Registered rows than its positive capacity, after the cancellation of a
    Registered row the registration of another mother, who has no row for
    the event, is accepted with status Registered. *)
Theorem cancellation_frees_a_place
  (now : Z) (db : Db) (leaving arriving : Request)
  (event : Event) (capacity : Z) (userId newcomer : string)
  (registration : EventRegistration) :
  req_role leaving = MOTHER -> req_motherProfile leaving = Some userId ->
  req_role arriving = MOTHER -> req_motherProfile arriving = Some newcomer ->
  params_id arriving = params_id leaving ->
  findPublishedEvent db (params_id leaving) = Some event ->
  e_capacity event = Some capacity -> 0 < capacity ->
  registeredCount db (params_id leaving) <= capacity ->
  findRegistration db (params_id leaving) userId = Some registration ->
  r_status registration = REGISTERED ->
  findRegistration db (params_id leaving) newcomer = None ->
  status (fst (cancelRegistration now db leaving)) = 200 /\
  status (fst (registerForEvent (snd (cancelRegistration now db leaving)) arriving))
  = 201 /\
  registrations (snd (registerForEvent (snd (cancelRegistration now db leaving))
                                       arriving))
  = (registrations (snd (cancelRegistration now db leaving))
     ++ [mkRegistration (params_id leaving) newcomer REGISTERED None])%list.
Proof.
  intros Hrole Hmp Hrole' Hmp' Hid Hev Hcap Hpos Hle Hfind Hst Hnone.
  unfold cancelRegistration. rewrite (role_is_mother _ Hrole), Hmp, Hfind. simpl.
  split; [reflexivity|].
  set (db' := mkDb (events db)
                   (map (cancel (params_id leaving) userId now) (registrations db))).
  assert (Hnone' : findRegistration db' (params_id leaving) newcomer = None).
  { unfold findRegistration, db'. simpl. rewrite find_map_key.
    - unfold findRegistration in Hnone. now rewrite Hnone.
    - intros a. apply EventRegistration.cancel_keeps_key. }
  assert (Hcount : registeredCount db' (e_id event) < capacity).
  { rewrite (findPublishedEvent_id _ _ _ Hev).
    pose proof (registeredCount_cancel_registered (events db) (registrations db)
                  (params_id leaving) userId now registration Hfind Hst) as Hdec.
    destruct db as [evs regs]. simpl in *. unfold db'. simpl. lia. }
  unfold registerForEvent.
  rewrite (role_is_mother _ Hrole'), Hmp', Hid.
  replace (findPublishedEvent db' (params_id leaving)) with (Some event)
    by (symmetry; exact Hev).
  rewrite Hnone'. cbv zeta.
  rewrite !EventRegistration.registration_create_fresh by exact Hnone'.
  unfold isFull. rewrite Hcap.
  apply Z.leb_gt in Hcount. rewrite Hcount, andb_false_r. simpl. auto.
Qed.

Lemma cancellation_frees_a_place_witness :
  let db := mkDb [mkEvent "e1" (Some 1) false true]
                 [mkRegistration "e1" "mp1" REGISTERED None] in
  registerForEvent db (mkRequest MOTHER (Some "mp2") "e1")
  = (failure 400 "Este evento está lotado", db) /\
  registrations
    (snd (registerForEvent
            (snd (cancelRegistration 7 db (mkRequest MOTHER (Some "mp1") "e1")))
            (mkRequest MOTHER (Some "mp2") "e1")))
  = [mkRegistration "e1" "mp1" CANCELLED (Some 7);
     mkRegistration "e1" "mp2" REGISTERED None].
Proof.
  intros db. split; [reflexivity|].
  apply (cancellation_frees_a_place 7 db (mkRequest MOTHER (Some "mp1") "e1")
           (mkRequest MOTHER (Some "mp2") "e1")
           (mkEvent "e1" (Some 1) false true) 1 "mp1" "mp2"
           (mkRegistration "e1" "mp1" REGISTERED None));
    try reflexivity; try (vm_compute; discriminate).
Defined.

Lemma findRegistration_none_key db eventId userId :
  findRegistration db eventId userId = None ->
  ~ In (eventId, userId)
       (map (fun r => (r_eventId r, r_userId r)) (registrations db)).
Proof.
  intros Hnone Hin. apply in_map_iff in Hin as (r & Hkey & Hin).
  apply (find_none _ _ Hnone) in Hin. injection Hkey as He Hu.
  unfold isRegistrationOf in Hin. now rewrite He, Hu, !String.eqb_refl in Hin.
Qed.

Lemma step_registration_index db db' :
  step db db' -> registration_index db -> registration_index db'.
Proof.
  unfold registration_index. intros Hstep Hidx. destruct Hstep.
  - exact Hidx.
  - destruct (EventRegistration.publishEvent_db db id) as [-> | ->]; exact Hidx.
  - destruct (registerForEvent_row db req)
      as [[_ ->] | (event & userId & st & _ & _ & _ & Hnone & _ & _ & ->)];
      [exact Hidx|].
    simpl. rewrite map_app. simpl.
    apply NoDup_app; [exact Hidx | repeat constructor; intros [] |].
    intros k Hin [<- | []]. now apply (findRegistration_none_key _ _ _ Hnone).
  - destruct (cancelRegistration_rows now db req)
      as [[_ ->] | (userId & reg & _ & _ & _ & _ & ->)]; [exact Hidx|].
    simpl. rewrite map_map.
    erewrite map_ext; [exact Hidx|].
    intros r. unfold cancel. now destruct (isRegistrationOf _ _ r).
Qed.

(** X22: whatever requests the event handlers serve, an (event, user) pair
    never has two registration rows: the duplicate check of
    [registerForEvent] keeps the table within its unique index, and a
    cancellation rewrites the row in place. *)
Theorem one_registration_per_pair (db0 db : Db) :
  registration_index db0 ->
  steps db0 db ->
  registration_index db /\
  forall eventId userId,
    (List.length (filter (isRegistrationOf eventId userId) (registrations db))
     <= 1)%nat.
Proof.
  intros Hidx0 Hsteps.
  assert (Hidx : registration_index db).
  { induction Hsteps; [exact Hidx0|]. eapply step_registration_index; eauto. }
  split; [exact Hidx|].
  intros eventId userId. unfold registration_index in Hidx.
  induction (registrations db) as [|a l IH]; simpl; [lia|].
  inversion Hidx as [|? ? Hnotin Hnd]; subst.
  destruct (isRegistrationOf eventId userId a) eqn:Ha; [|auto].
  assert (Hnone : filter (isRegistrationOf eventId userId) l = []).
  { apply andb_true_iff in Ha as [He Hu]. apply String.eqb_eq in He, Hu.
    rewrite He, Hu in Hnotin.
    clear IH Hidx Hnd. induction l as [|b l IHl]; simpl; [reflexivity|].
    destruct (isRegistrationOf eventId userId b) eqn:Hb.
    - exfalso. apply Hnotin. left.
      apply andb_true_iff in Hb as [He' Hu']. apply String.eqb_eq in He', Hu'.
      now rewrite He', Hu'.
    - apply IHl. intros Hin. apply Hnotin. now right. }
  simpl. rewrite Hnone. simpl. lia.
Qed.

Lemma one_registration_per_pair_witness :
  let db0 := mkDb [mkEvent "e1" None false true] [] in
  let req := mkRequest MOTHER (Some "mp1") "e1" in
  let db := snd (registerForEvent (snd (cancelRegistration 7
                   (snd (registerForEvent db0 req)) req)) req) in
  (List.length (filter (isRegistrationOf "e1" "mp1") (registrations db)) <= 1)%nat.
Proof.
  intros db0 req db.
  assert (Hidx : registration_index db0) by constructor.
  assert (Hsteps : steps db0 db).
  { eapply steps_step; [|apply step_registerForEvent].
    eapply steps_step; [|apply step_cancelRegistration].
    eapply steps_step; [apply steps_refl | apply step_registerForEvent]. }
  apply (one_registration_per_pair db0 db Hidx Hsteps).
Defined.

Lemma find_after_publish (evs : list Event) (id : string) (event : Event) :
  find (fun e => (e_id e =? id)%string) evs = Some event ->
  find (fun e => (e_id e =? id)%string && e_isPublished e)
       (map (fun e => if (e_id e =? id)%string
                      then mkEvent (e_id e) (e_capacity e) (e_waitlistEnabled e) true
                      else e) evs)
  = Some (mkEvent (e_id event) (e_capacity event) (e_waitlistEnabled event) true).
Proof.
  induction evs as [|a l IH]; simpl; [discriminate|].
  destruct (e_id a =? id)%string eqn:Ha; simpl.
  - rewrite Ha. simpl. now intros [= ->].
  - rewrite Ha. simpl. exact IH.
Qed.

Lemma publish_twice (evs : list Event) (id : string) :
  map (fun e => if (e_id e =? id)%string
                then mkEvent (e_id e) (e_capacity e) (e_waitlistEnabled e) true
                else e)
      (map (fun e => if (e_id e =? id)%string
                     then mkEvent (e_id e) (e_capacity e) (e_waitlistEnabled e) true
                     else e) evs)
  = map (fun e => if (e_id e =? id)%string
                  then mkEvent (e_id e) (e_capacity e) (e_waitlistEnabled e) true
                  else e) evs.
Proof.
  rewrite map_map. apply map_ext. intros e.
  destruct (e_id e =? id)%string eqn:He; simpl; now rewrite He.
Qed.

(** X23: [publishEvent] on an unknown id answers 500 and writes nothing; on
    a known id it writes no registration, leaves the event findable as
    published with its capacity and waitlist setting, so that a mother's
    registration is no longer answered 404, and publishing again changes
    nothing. *)
Theorem publishEvent_opens_registration (db : Db) (id : string) :
  (find (fun e => (e_id e =? id)%string) (events db) = None ->
   publishEvent db id = (failure 500 "Erro ao publicar evento", db)) /\
  (forall event,
     find (fun e => (e_id e =? id)%string) (events db) = Some event ->
     status (fst (publishEvent db id)) = 200 /\
     registrations (snd (publishEvent db id)) = registrations db /\
     findPublishedEvent (snd (publishEvent db id)) id
     = Some (mkEvent (e_id event) (e_capacity event) (e_waitlistEnabled event) true) /\
     snd (publishEvent (snd (publishEvent db id)) id) = snd (publishEvent db id) /\
     forall req,
       params_id req = id ->
       status (fst (registerForEvent (snd (publishEvent db id)) req)) <> 404).
Proof.
  split; [unfold publishEvent; now intros ->|].
  intros event Hfind.
  pose proof (find_after_publish _ _ _ Hfind) as Hpublished.
  assert (Hdb : snd (publishEvent db id)
                = mkDb (map (fun e => if (e_id e =? id)%string
                                      then mkEvent (e_id e) (e_capacity e)
                                                   (e_waitlistEnabled e) true
                                      else e) (events db))
                       (registrations db)).
  { unfold publishEvent. now rewrite Hfind. }
  split; [unfold publishEvent; now rewrite Hfind|].
  rewrite Hdb.
  split; [reflexivity|]. split; [exact Hpublished|].
  split.
  - unfold publishEvent at 1. simpl.
    destruct (find (fun e => (e_id e =? id)%string) (map _ (events db)))
      as [e'|] eqn:Hagain.
    + simpl. now rewrite publish_twice.
    + exfalso. apply find_some in Hpublished as [Hin Hp].
      apply (find_none _ _ Hagain) in Hin. simpl in Hin.
      apply andb_true_iff in Hp as [Hp _]. simpl in Hp. congruence.
  - intros req Hid. unfold registerForEvent.
    destruct (negb _); [discriminate|].
    unfold findPublishedEvent. simpl. rewrite Hid, Hpublished.
    destruct (req_motherProfile req) as [userId|]; [|discriminate].
    destruct (findRegistration _ _ _) eqn:Hreg; [discriminate|].
    cbv zeta. rewrite !EventRegistration.registration_create_fresh by exact Hreg.
    destruct (isFull _ _); [destruct (e_waitlistEnabled event)|]; discriminate.
Qed.

Lemma publishEvent_opens_registration_witness :
  let db := mkDb [mkEvent "e1" (Some 5) false false] [] in
  let req := mkRequest MOTHER (Some "mp1") "e1" in
  status (fst (registerForEvent db req)) = 404 /\
  status (fst (registerForEvent (snd (publishEvent db "e1")) req)) <> 404 /\
  publishEvent db "e9" = (failure 500 "Erro ao publicar evento", db).
Proof.
  intros db req.
  destruct (publishEvent_opens_registration db "e1") as [_ Hknown].
  destruct (Hknown (mkEvent "e1" (Some 5) false false) eq_refl)
    as (_ & _ & _ & _ & Hopen).
  destruct (publishEvent_opens_registration db "e9") as [Hunknown _].
  split; [reflexivity | split; [apply Hopen; reflexivity | apply Hunknown; reflexivity]].
Defined.

End EventFacts.

(** ** Groups: membership and visibility *)

Module GroupFacts.

Import Validation Groups.

Lemma findGroup_id db id group :
  findGroup db id = Some group -> g_id group = id /\ In group (groups db).
Proof.
  unfold findGroup. intros Hfind. apply find_some in Hfind as [Hin Hb].
  apply andb_true_iff in Hb as [Hid _]. apply String.eqb_eq in Hid. auto.
Qed.

Lemma isMemberOf_key groupId userId m :
  isMemberOf groupId userId m = true <-> m_groupId m = groupId /\ m_userId m = userId.
Proof.
  unfold isMemberOf. rewrite andb_true_iff, !String.eqb_eq. tauto.
Qed.

Lemma filter_find_none {A : Type} (f : A -> bool) (l : list A) :
  find f l = None -> filter (fun a => negb (f a)) l = l.
Proof.
  induction l as [|a l IH]; simpl; [reflexivity|].
  destruct (f a); [discriminate|]. simpl. intros Hnone. now rewrite IH.
Qed.

Lemma find_filter_negb {A : Type} (f : A -> bool) (l : list A) :
  find f (filter (fun a => negb (f a)) l) = None.
Proof.
  induction l as [|a l IH]; simpl; [reflexivity|].
  destruct (f a) eqn:Hfa; simpl; [exact IH|]. now rewrite Hfa.
Qed.

Lemma isMember_findMember db id userId :
  existsb (fun m => (m_userId m =? userId)%string) (membersOf db id) = true
  <-> findMember db id userId <> None.
Proof.
  unfold membersOf, findMember. rewrite existsb_exists. split.
  - intros (m & Hin & Hu). apply filter_In in Hin as [Hin Hg].
    intros Hnone. apply (find_none _ _ Hnone) in Hin.
    unfold isMemberOf in Hin. now rewrite Hg, Hu in Hin.
  - destruct (find _ _) as [m|] eqn:Hfind; [intros _ | intros H; now destruct H].
    apply find_some in Hfind as [Hin Hb]. unfold isMemberOf in Hb.
    apply andb_true_iff in Hb as [Hg Hu]. exists m. split; [|exact Hu].
    apply filter_In. auto.
Qed.

Lemma required_name req :
  validateRequiredFields (body req) ["name"]
  = if truthy (body_name req) then (true, []) else (false, ["name"]).
Proof.
  unfold validateRequiredFields, body. simpl.
  destruct (truthy (body_name req)); reflexivity.
Qed.

Lemma joinGroup_200 db req userId group :
  req_role req = MOTHER ->
  req_motherProfile req = Some userId ->
  findGroup db (params_id req) = Some group ->
  findMember db (params_id req) userId = None ->
  joinGroup db req
  = (mkResponse 200 true (Some "Você entrou no grupo com sucesso")
       (Some (mkGroupMember (params_id req) userId GROUP_MEMBER)),
     mkDb (groups db)
          (members db ++ [mkGroupMember (params_id req) userId GROUP_MEMBER])).
Proof.
  intros Hrole Hmp Hgroup Hnone. unfold joinGroup.
  now rewrite Hrole, Hgroup, Hmp, Hnone.
Qed.

Lemma findMember_joined db id userId :
  findMember db id userId = None ->
  findMember (mkDb (groups db) (members db ++ [mkGroupMember id userId GROUP_MEMBER]))
             id userId
  = Some (mkGroupMember id userId GROUP_MEMBER).
Proof.
  unfold findMember. simpl. intros Hnone. rewrite find_app, Hnone. simpl.
  unfold isMemberOf. simpl. now rewrite !String.eqb_refl.
Qed.

Lemma createGroup_201 newId db req userId name :
  req_role req = MOTHER ->
  body_name req = Some name -> name <> "" ->
  req_motherProfile req = Some userId ->
  ~ In newId (map g_id (groups db)) ->
  findMember db newId userId = None ->
  let group :=
    mkGroup newId name (body_description req)
      (match body_isPublic req with Some false => false | _ => true end)
      (body_category req) (body_coverImage req) userId None in
  createGroup newId db req
  = (mkResponse 201 true (Some "Grupo criado com sucesso") (Some group),
     mkDb (groups db ++ [group])
          (members db ++ [mkGroupMember newId userId GROUP_ADMIN])).
Proof.
  intros Hrole Hname Hne Hmp Hfresh Hnone group. unfold createGroup.
  rewrite Hrole, required_name, Hname. simpl.
  destruct (name =? "")%string eqn:Hempty;
    [apply String.eqb_eq in Hempty; contradiction|].
  simpl. rewrite Hmp. unfold group_create. simpl.
  destruct (existsb _ (groups db)) eqn:Hex.
  - apply existsb_exists in Hex as (g & Hin & Hid). apply String.eqb_eq in Hid.
    destruct Hfresh. rewrite <- Hid. now apply in_map.
  - now rewrite Hnone.
Qed.

Lemma findGroup_fresh db newId group :
  ~ In newId (map g_id (groups db)) ->
  g_id group = newId -> g_deletedAt group = None ->
  forall members',
    findGroup (mkDb (groups db ++ [group]) members') newId = Some group.
Proof.
  intros Hfresh Hid Hdel members'. unfold findGroup. simpl. rewrite find_app.
  destruct (find _ (groups db)) as [g|] eqn:Hfind.
  - apply find_some in Hfind as [Hin Hb]. apply andb_true_iff in Hb as [Hg _].
    apply String.eqb_eq in Hg. destruct Hfresh. rewrite <- Hg. now apply in_map.
  - simpl. now rewrite Hid, String.eqb_refl, Hdel.
Qed.

Lemma NoDup_keys_filter {A B : Type} (key : A -> B) (f : A -> bool) (l : list A) :
  NoDup (map key l) -> NoDup (map key (filter f l)).
Proof.
  induction l as [|a l IH]; simpl; intros Hnd; [constructor|].
  inversion Hnd as [|? ? Hnotin Hnd']; subst.
  destruct (f a); simpl; [|now apply IH].
  constructor; [|now apply IH].
  intros Hin. apply Hnotin. apply in_map_iff in Hin as (x & Hkey & Hin).
  apply filter_In in Hin as [Hin _]. apply in_map_iff. eauto.
Qed.

Lemma findMember_none_key db groupId userId :
  findMember db groupId userId = None ->
  ~ In (groupId, userId) (map (fun m => (m_groupId m, m_userId m)) (members db)).
Proof.
  intros Hnone Hin. apply in_map_iff in Hin as (m & Hkey & Hin).
  apply (find_none _ _ Hnone) in Hin. injection Hkey as Hg Hu.
  unfold isMemberOf in Hin. now rewrite Hg, Hu, !String.eqb_refl in Hin.
Qed.

Lemma NoDup_snoc {B : Type} (l : list B) (b : B) :
  NoDup l -> ~ In b l -> NoDup (l ++ [b]).
Proof.
  intros Hnd Hnotin. apply NoDup_app; [exact Hnd | repeat constructor; intros [] |].
  intros x Hin [<- | []]. contradiction.
Qed.

Lemma step_group_indexes db db' :
  step db db' -> group_index db /\ member_index db ->
  group_index db' /\ member_index db'.
Proof.
  unfold group_index, member_index. intros Hstep [Hg Hm]. destruct Hstep.
  - unfold createGroup.
    destruct (negb _); [now split|].
    destruct (validateRequiredFields _ _) as [valid missing].
    destruct (negb valid); [now split|].
    destruct (req_motherProfile req) as [userId|]; [|now split].
    unfold group_create. simpl.
    destruct (existsb _ (groups db)) eqn:Hex; [now split|].
    destruct (findMember db newId userId) eqn:Hmember; [now split|].
    simpl. rewrite !map_app. simpl. split.
    + apply NoDup_snoc; [exact Hg|]. intros Hin.
      apply in_map_iff in Hin as (g & Hid & Hin).
      assert (Htrue : existsb (fun g0 => (g_id g0 =? newId)%string) (groups db) = true)
        by (apply existsb_exists; exists g; split; [exact Hin | now apply String.eqb_eq]).
      now rewrite Htrue in Hex.
    + apply NoDup_snoc; [exact Hm | now apply findMember_none_key].
  - unfold joinGroup.
    destruct (negb _); [now split|].
    destruct (findGroup db (params_id req)); [|now split].
    destruct (req_motherProfile req) as [userId|]; [|now split].
    destruct (findMember db (params_id req) userId) eqn:Hmember; [now split|].
    simpl. rewrite map_app. simpl. split; [exact Hg|].
    apply NoDup_snoc; [exact Hm | now apply findMember_none_key].
  - unfold leaveGroup.
    destruct (negb _); [now split|].
    destruct (req_motherProfile req) as [userId|]; [|now split].
    destruct (findMember db (params_id req) userId); [|now split].
    simpl. split; [exact Hg | now apply NoDup_keys_filter].
Qed.

Lemma getGroupById_status_member db userId id group :
  findGroup db id = Some group ->
  findMember db id userId <> None ->
  status (getGroupById db (Some userId) id) = 200.
Proof.
  intros Hgroup Hmember. destruct (findGroup_id _ _ _ Hgroup) as [Hid _].
  unfold getGroupById. rewrite Hgroup, Hid.
  apply isMember_findMember in Hmember. rewrite Hmember.
  now destruct (g_isPublic group).
Qed.

(** X24: [getGroupById] shows a group that is not deleted to everybody when
    it is public and to its members only when it is private: the answer is
    200 with the group and its member rows, or else 403 'Este grupo é
    privado'; a requester without a mother profile is a member of
    nothing. *)
Theorem getGroupById_private_members_only
  (db : Db) (motherProfile : option string) (id : string) (group : Group) :
  findGroup db id = Some group ->
  (status (getGroupById db motherProfile id) = 200 <->
   g_isPublic group = true \/
   exists userId, motherProfile = Some userId /\ findMember db id userId <> None) /\
  (status (getGroupById db motherProfile id) <> 200 ->
   getGroupById db motherProfile id = failure 403 "Este grupo é privado") /\
  (status (getGroupById db motherProfile id) = 200 ->
   data (getGroupById db motherProfile id)
   = Some (mkGroupView group (membersOf db id))).
Proof.
  intros Hgroup. destruct (findGroup_id _ _ _ Hgroup) as [Hid _].
  unfold getGroupById. rewrite Hgroup, Hid.
  destruct (g_isPublic group); simpl.
  - split; [split; auto | split; [intros H; now destruct H | reflexivity]].
  - destruct motherProfile as [userId|].
    + pose proof (isMember_findMember db id userId) as Hmem.
      destruct (existsb _ _); simpl.
      * split; [|split; [intros H; now destruct H | reflexivity]].
        split; [intros _ | reflexivity]. right. exists userId. split; [reflexivity|].
        now apply Hmem.
      * split; [|split; [reflexivity | discriminate]].
        split; [discriminate|]. intros [Hpub | (u & Hu & Hfound)]; [discriminate|].
        injection Hu as <-. apply Hmem in Hfound. discriminate.
    + assert (Hfalse : existsb (fun _ : GroupMember => false) (membersOf db id) = false)
        by (induction (membersOf db id); simpl; auto).
      rewrite Hfalse. simpl.
      split; [|split; [reflexivity | discriminate]].
      split; [discriminate|]. intros [Hpub | (u & Hu & _)]; discriminate.
Qed.

Lemma getGroupById_private_members_only_witness :
  let db := mkDb [mkGroup "g1" "Maio" None false None None "mp1" None]
                 [mkGroupMember "g1" "mp1" GROUP_ADMIN] in
  status (getGroupById db (Some "mp1") "g1") = 200 /\
  getGroupById db (Some "mp2") "g1" = failure 403 "Este grupo é privado".
Proof.
  intros db.
  destruct (getGroupById_private_members_only db (Some "mp1") "g1"
              (mkGroup "g1" "Maio" None false None None "mp1" None) eq_refl)
    as [[_ Hin] _].
  destruct (getGroupById_private_members_only db (Some "mp2") "g1"
              (mkGroup "g1" "Maio" None false None None "mp1" None) eq_refl)
    as [_ [Hout _]].
  split.
  - apply Hin. right. exists "mp1". split; [reflexivity | discriminate].
  - apply Hout. discriminate.
Defined.

(** X25: Joining a group and leaving it again is a round trip: a mother
    who is not a member of a group that exists joins it with 200 as a
    MEMBER, a second join is refused with 409, leaving answers 200 and
    gives back the tables as they were, and leaving once more answers
    404. *)
Theorem joinGroup_then_leaveGroup
  (db : Db) (req : Request) (userId : string) (group : Group) :
  req_role req = MOTHER ->
  req_motherProfile req = Some userId ->
  findGroup db (params_id req) = Some group ->
  findMember db (params_id req) userId = None ->
  let joined := snd (joinGroup db req) in
  status (fst (joinGroup db req)) = 200 /\
  findMember joined (params_id req) userId
  = Some (mkGroupMember (params_id req) userId GROUP_MEMBER) /\
  joinGroup joined req = (failure 409 "Você já é membro deste grupo", joined) /\
  leaveGroup joined req
  = (mkResponse 200 true (Some "Você saiu do grupo") None, db) /\
  leaveGroup db req = (failure 404 "Você não é membro deste grupo", db).
Proof.
  intros Hrole Hmp Hgroup Hnone joined. subst joined.
  rewrite (joinGroup_200 db req userId group Hrole Hmp Hgroup Hnone). simpl.
  pose proof (findMember_joined db (params_id req) userId Hnone) as Hjoined.
  split; [reflexivity|]. split; [exact Hjoined|]. split; [|split].
  - unfold joinGroup. rewrite Hrole, Hmp, Hjoined. simpl.
    unfold findGroup in *. simpl. now rewrite Hgroup.
  - unfold leaveGroup. rewrite Hrole, Hmp, Hjoined. simpl.
    rewrite filter_app. simpl. unfold isMemberOf at 2. simpl.
    rewrite !String.eqb_refl. simpl. rewrite app_nil_r.
    unfold findMember in Hnone. rewrite (filter_find_none _ _ Hnone).
    now destruct db.
  - unfold leaveGroup. now rewrite Hrole, Hmp, Hnone.
Qed.

Lemma joinGroup_then_leaveGroup_witness :
  let db := mkDb [mkGroup "g1" "Maio" None true None None "mp1" None]
                 [mkGroupMember "g1" "mp1" GROUP_ADMIN] in
  let req := mkRequest MOTHER (Some "mp2") "g1" None None None None None in
  leaveGroup (snd (joinGroup db req)) req
  = (mkResponse 200 true (Some "Você saiu do grupo") None, db).
Proof.
  intros db req.
  destruct (joinGroup_then_leaveGroup db req "mp2"
              (mkGroup "g1" "Maio" None true None None "mp1" None)
              eq_refl eq_refl eq_refl eq_refl)
    as (_ & _ & _ & Hleave & _).
  exact Hleave.
Defined.

(** X26: [joinGroup] does not look at [isPublic]: a mother whom
    [getGroupById] refuses a private group with 403 joins that group with
    200 all the same, and [getGroupById] then answers her 200. *)
Theorem joinGroup_opens_private_group
  (db : Db) (req : Request) (userId : string) (group : Group) :
  req_role req = MOTHER ->
  req_motherProfile req = Some userId ->
  findGroup db (params_id req) = Some group ->
  g_isPublic group = false ->
  findMember db (params_id req) userId = None ->
  getGroupById db (Some userId) (params_id req)
  = failure 403 "Este grupo é privado" /\
  status (fst (joinGroup db req)) = 200 /\
  status (getGroupById (snd (joinGroup db req)) (Some userId) (params_id req)) = 200.
Proof.
  intros Hrole Hmp Hgroup Hprivate Hnone.
  destruct (findGroup_id _ _ _ Hgroup) as [Hid _].
  rewrite (joinGroup_200 db req userId group Hrole Hmp Hgroup Hnone). simpl.
  split; [|split; [reflexivity|]].
  - unfold getGroupById. rewrite Hgroup, Hprivate, Hid. simpl.
    destruct (existsb _ _) eqn:Hex; [|reflexivity].
    apply isMember_findMember in Hex. contradiction.
  - unfold getGroupById, findGroup in *. simpl. rewrite Hgroup, Hprivate, Hid.
    simpl.
    assert (Hex : existsb (fun m => (m_userId m =? userId)%string)
                    (membersOf (mkDb (groups db)
                       (members db ++ [mkGroupMember (params_id req) userId GROUP_MEMBER]))
                       (params_id req)) = true).
    { apply isMember_findMember. rewrite findMember_joined by exact Hnone.
      discriminate. }
    rewrite Hex. reflexivity.
Qed.

Lemma joinGroup_opens_private_group_witness :
  let db := mkDb [mkGroup "g1" "Maio" None false None None "mp1" None]
                 [mkGroupMember "g1" "mp1" GROUP_ADMIN] in
  let req := mkRequest MOTHER (Some "mp2") "g1" None None None None None in
  status (getGroupById db (Some "mp2") "g1") = 403 /\
  status (getGroupById (snd (joinGroup db req)) (Some "mp2") "g1") = 200.
Proof.
  intros db req.
  destruct (joinGroup_opens_private_group db req "mp2"
              (mkGroup "g1" "Maio" None false None None "mp1" None)
              eq_refl eq_refl eq_refl eq_refl eq_refl)
    as (Hbefore & _ & Hafter).
  split; [exact (f_equal status Hbefore) | exact Hafter].
Defined.

(** X27: [createGroup] by a mother with a name stores a group that is not
    deleted, created by her, public unless the body says [isPublic: false],
    and makes her its one new member, with role ADMIN: she can read the
    group at once, and the other groups and the earlier member rows stay as
    they were. *)
Theorem createGroup_creator_is_admin
  (newId : string) (db : Db) (req : Request) (userId name : string) :
  req_role req = MOTHER ->
  body_name req = Some name -> name <> "" ->
  req_motherProfile req = Some userId ->
  ~ In newId (map g_id (groups db)) ->
  findMember db newId userId = None ->
  let created := snd (createGroup newId db req) in
  status (fst (createGroup newId db req)) = 201 /\
  (exists group,
     findGroup created newId = Some group /\
     g_name group = name /\ g_createdById group = userId /\
     (g_isPublic group = false <-> body_isPublic req = Some false)) /\
  findMember created newId userId = Some (mkGroupMember newId userId GROUP_ADMIN) /\
  status (getGroupById created (Some userId) newId) = 200 /\
  members created = (members db ++ [mkGroupMember newId userId GROUP_ADMIN])%list /\
  (forall id, id <> newId -> findGroup created id = findGroup db id).
Proof.
  intros Hrole Hname Hne Hmp Hfresh Hnone created. subst created.
  rewrite (createGroup_201 newId db req userId name Hrole Hname Hne Hmp Hfresh Hnone).
  simpl.
  set (group := mkGroup newId name _ _ _ _ userId None).
  pose proof (findGroup_fresh db newId group Hfresh eq_refl eq_refl
                (members db ++ [mkGroupMember newId userId GROUP_ADMIN])) as Hfound.
  assert (Hmember :
    findMember (mkDb (groups db ++ [group])
                     (members db ++ [mkGroupMember newId userId GROUP_ADMIN]))
               newId userId
    = Some (mkGroupMember newId userId GROUP_ADMIN)).
  { unfold findMember in *. simpl. rewrite find_app, Hnone. simpl.
    unfold isMemberOf. simpl. now rewrite !String.eqb_refl. }
  split; [reflexivity|]. split; [|split; [exact Hmember | split; [|split]]].
  - exists group. split; [exact Hfound|]. split; [reflexivity|]. split; [reflexivity|].
    subst group. simpl. destruct (body_isPublic req) as [[|]|]; split; congruence.
  - apply (getGroupById_status_member _ _ _ _ Hfound). rewrite Hmember. discriminate.
  - reflexivity.
  - intros id Hother. unfold findGroup. simpl. rewrite find_app.
    destruct (find _ (groups db)); [reflexivity|]. simpl.
    destruct (newId =? id)%string eqn:Heq; [|reflexivity].
    apply String.eqb_eq in Heq. now destruct Hother.
Qed.

Lemma createGroup_creator_is_admin_witness :
  let req := mkRequest MOTHER (Some "mp1") "" (Some "Maio") None (Some false) None None in
  let created := snd (createGroup "g1" (mkDb [] []) req) in
  findMember created "g1" "mp1" = Some (mkGroupMember "g1" "mp1" GROUP_ADMIN) /\
  status (getGroupById created (Some "mp1") "g1") = 200.
Proof.
  intros req created.
  assert (Hname : "Maio" <> "") by discriminate.
  assert (Hfresh : ~ In "g1" (map g_id (groups (mkDb [] [])))) by (intros []).
  destruct (createGroup_creator_is_admin "g1" (mkDb [] []) req "mp1" "Maio"
              eq_refl eq_refl Hname eq_refl Hfresh eq_refl)
    as (_ & _ & Hadmin & Hread & _).
  split; [exact Hadmin | exact Hread].
Defined.

Lemma membersOf_left db id userId :
  filter (fun m => (m_groupId m =? id)%string)
         (filter (fun m => negb (isMemberOf id userId m)) (members db))
  = filter (fun m => negb (m_userId m =? userId)%string) (membersOf db id).
Proof.
  unfold membersOf, isMemberOf. induction (members db) as [|m l IH]; simpl; [reflexivity|].
  destruct (m_groupId m =? id)%string eqn:Hg; simpl.
  - destruct (m_userId m =? userId)%string; simpl; rewrite ?Hg, IH; reflexivity.
  - rewrite Hg. exact IH.
Qed.

(** X28: [leaveGroup] looks at neither the role of the member nor the
    members that stay: when the only member of a private group leaves, the
    answer is 200, the group stays with no member, [getGroupById] answers
    403 to every requester, and the one who left can only come back as an
    ordinary MEMBER. *)
Theorem leaveGroup_last_member
  (db : Db) (req : Request) (userId : string) (group : Group) (member : GroupMember) :
  req_role req = MOTHER ->
  req_motherProfile req = Some userId ->
  findGroup db (params_id req) = Some group ->
  g_isPublic group = false ->
  membersOf db (params_id req) = [member] ->
  m_userId member = userId ->
  let left := snd (leaveGroup db req) in
  status (fst (leaveGroup db req)) = 200 /\
  findGroup left (params_id req) = Some group /\
  membersOf left (params_id req) = [] /\
  (forall motherProfile,
     getGroupById left motherProfile (params_id req)
     = failure 403 "Este grupo é privado") /\
  data (fst (joinGroup left req))
  = Some (mkGroupMember (params_id req) userId GROUP_MEMBER).
Proof.
  intros Hrole Hmp Hgroup Hprivate Hmembers Huser left.
  destruct (findGroup_id _ _ _ Hgroup) as [Hid _].
  assert (Hfound : findMember db (params_id req) userId <> None).
  { apply isMember_findMember. rewrite Hmembers. simpl.
    rewrite Huser, String.eqb_refl. reflexivity. }
  assert (Hleave : leaveGroup db req
    = (mkResponse 200 true (Some "Você saiu do grupo") None,
       mkDb (groups db)
            (filter (fun m => negb (isMemberOf (params_id req) userId m)) (members db)))).
  { unfold leaveGroup. rewrite Hrole, Hmp.
    destruct (findMember db (params_id req) userId); [reflexivity | now destruct Hfound]. }
  subst left. rewrite Hleave. simpl.
  assert (Hnone : membersOf
            (mkDb (groups db)
               (filter (fun m => negb (isMemberOf (params_id req) userId m)) (members db)))
            (params_id req) = []).
  { unfold membersOf at 1. simpl. rewrite membersOf_left, Hmembers. simpl.
    now rewrite Huser, String.eqb_refl. }
  split; [reflexivity|]. split; [exact Hgroup|]. split; [exact Hnone|]. split.
  - intros motherProfile. unfold getGroupById.
    change (findGroup (mkDb (groups db) _) (params_id req))
      with (findGroup db (params_id req)).
    rewrite Hgroup, Hprivate, Hid, Hnone. reflexivity.
  - rewrite (joinGroup_200
               (mkDb (groups db)
                  (filter (fun m => negb (isMemberOf (params_id req) userId m))
                          (members db)))
               req userId group Hrole Hmp Hgroup); [reflexivity|].
    unfold findMember. simpl. apply find_filter_negb.
Qed.

Lemma leaveGroup_last_member_witness :
  let db := mkDb [mkGroup "g1" "Maio" None false None None "mp1" None]
                 [mkGroupMember "g1" "mp1" GROUP_ADMIN] in
  let req := mkRequest MOTHER (Some "mp1") "g1" None None None None None in
  status (fst (leaveGroup db req)) = 200 /\
  getGroupById (snd (leaveGroup db req)) (Some "mp1") "g1"
  = failure 403 "Este grupo é privado".
Proof.
  intros db req.
  destruct (leaveGroup_last_member db req "mp1"
              (mkGroup "g1" "Maio" None false None None "mp1" None)
              (mkGroupMember "g1" "mp1" GROUP_ADMIN)
              eq_refl eq_refl eq_refl eq_refl eq_refl eq_refl)
    as (Hstatus & _ & _ & Hnobody & _).
  split; [exact Hstatus | exact (Hnobody (Some "mp1"))].
Defined.

(** X29: Creating groups, joining and leaving keep the two keys of the
    tables: whatever sequence of these requests is served, no two groups
    share an id and no mother has two member rows in one group. *)
Theorem groups_keys_kept (db db' : Db) :
  steps db db' ->
  group_index db -> member_index db ->
  group_index db' /\ member_index db'.
Proof.
  intros Hsteps Hg Hm. induction Hsteps as [db | db1 db2 db3 _ IH Hstep].
  - now split.
  - apply (step_group_indexes db2 db3 Hstep). now apply IH.
Qed.

Lemma groups_keys_kept_witness :
  let req := mkRequest MOTHER (Some "mp1") "g1" (Some "Maio") None None None None in
  let db := mkDb [] [] in
  group_index (snd (joinGroup (snd (createGroup "g1" db req)) req)) /\
  member_index (snd (joinGroup (snd (createGroup "g1" db req)) req)).
Proof.
  intros req db.
  apply (groups_keys_kept db).
  - eapply steps_step; [eapply steps_step; [apply steps_refl|]|].
    + apply (step_createGroup "g1" db req).
    + apply step_joinGroup.
  - constructor.
  - constructor.
Defined.

End GroupFacts.

(** ** Posts: deletion *)

Module PostFacts.

Import Posts.

Lemma find_deleted (now : Z) (id id' : string) (l : list Post) :
  find (fun p => (po_id p =? id')%string
                 && match po_deletedAt p with None => true | Some _ => false end)
       (map (fun p => if (po_id p =? id)%string
                      then mkPost (po_id p) (po_content p) (po_groupId p)
                                  (po_authorId p) (Some now)
                      else p) l)
  = if (id =? id')%string then None
    else find (fun p => (po_id p =? id')%string
                        && match po_deletedAt p with None => true | Some _ => false end) l.
Proof.
  destruct (id =? id')%string eqn:Hsame.
  - apply String.eqb_eq in Hsame. subst id'.
    induction l as [|p l IH]; simpl; [reflexivity|].
    destruct (po_id p =? id)%string eqn:Hp; simpl; rewrite ?Hp; simpl; exact IH.
  - induction l as [|p l IH]; simpl; [reflexivity|].
    destruct (po_id p =? id)%string eqn:Hp; simpl.
    + apply String.eqb_eq in Hp. rewrite Hp, Hsame. simpl. exact IH.
    + now rewrite IH.
Qed.

Lemma find_soft_deleted (now : Z) (id : string) (l : list Post) (post : Post) :
  find (fun p => (po_id p =? id)%string) l = Some post ->
  find (fun p => (po_id p =? id)%string)
       (map (fun p => if (po_id p =? id)%string
                      then mkPost (po_id p) (po_content p) (po_groupId p)
                                  (po_authorId p) (Some now)
                      else p) l)
  = Some (mkPost (po_id post) (po_content post) (po_groupId post)
                 (po_authorId post) (Some now)).
Proof.
  induction l as [|p l IH]; simpl; [discriminate|].
  destruct (po_id p =? id)%string eqn:Hp; simpl.
  - rewrite Hp. now intros [= ->].
  - rewrite Hp. exact IH.
Qed.

Lemma deletePost_200 (now : Z) (db : Db) (req : Request) (post : Post) :
  find (fun p => (po_id p =? params_id req)%string) (posts db) = Some post ->
  req_motherProfile req = Some (po_authorId post) \/ req_role req = ADMIN ->
  deletePost now db req
  = (mkResponse 200 true (Some "Post deletado com sucesso") None,
     mkDb (map (fun p => if (po_id p =? params_id req)%string
                         then mkPost (po_id p) (po_content p) (po_groupId p)
                                     (po_authorId p) (Some now)
                         else p) (posts db))).
Proof.
  intros Hfind Hallowed. unfold deletePost. rewrite Hfind.
  destruct Hallowed as [-> | ->].
  - now rewrite String.eqb_refl.
  - simpl. now rewrite andb_false_r.
Qed.

(** X30: [deletePost] lets the author of a post and an ADMIN delete it and
    answers 403 to anyone else, changing nothing.  The deletion is soft:
    the row stays with its content and a [deletedAt], [getPostById] then
    answers 404 for it and as before for every other id, and, since
    [deletePost] finds deleted rows too, deleting again answers 200 and
    replaces the [deletedAt]. *)
Theorem deletePost_author_or_admin
  (now now' : Z) (db : Db) (req : Request) (post : Post) :
  find (fun p => (po_id p =? params_id req)%string) (posts db) = Some post ->
  (req_motherProfile req <> Some (po_authorId post) -> req_role req <> ADMIN ->
   deletePost now db req
   = (failure 403 "Você não tem permissão para deletar este post", db)) /\
  (req_motherProfile req = Some (po_authorId post) \/ req_role req = ADMIN ->
   let deleted := snd (deletePost now db req) in
   fst (deletePost now db req)
   = mkResponse 200 true (Some "Post deletado com sucesso") None /\
   getPostById deleted (params_id req) = failure 404 "Post não encontrado" /\
   (forall id, id <> params_id req -> getPostById deleted id = getPostById db id) /\
   map po_content (posts deleted) = map po_content (posts db) /\
   status (fst (deletePost now' deleted req)) = 200 /\
   find (fun p => (po_id p =? params_id req)%string)
        (posts (snd (deletePost now' deleted req)))
   = Some (mkPost (po_id post) (po_content post) (po_groupId post)
                  (po_authorId post) (Some now'))).
Proof.
  intros Hfind. split.
  - intros Hauthor Hrole. unfold deletePost. rewrite Hfind.
    assert (Hnot : match req_motherProfile req with
                   | Some userId => (po_authorId post =? userId)%string
                   | None => false
                   end = false).
    { destruct (req_motherProfile req) as [userId|]; [|reflexivity].
      destruct (po_authorId post =? userId)%string eqn:Heq; [|reflexivity].
      apply String.eqb_eq in Heq. subst userId. now destruct Hauthor. }
    rewrite Hnot. destruct (req_role req); simpl; try reflexivity.
    now destruct Hrole.
  - intros Hallowed. simpl.
    rewrite (deletePost_200 now db req post Hfind Hallowed). simpl.
    split; [reflexivity|]. split; [|split; [|split]].
    + unfold getPostById. simpl. now rewrite find_deleted, String.eqb_refl.
    + intros id Hother. unfold getPostById. simpl. rewrite find_deleted.
      destruct (params_id req =? id)%string eqn:Heq; [|reflexivity].
      apply String.eqb_eq in Heq. now destruct Hother.
    + rewrite map_map. apply map_ext. intros p.
      now destruct (po_id p =? params_id req)%string.
    + pose proof (find_soft_deleted now _ _ _ Hfind) as Hfound.
      match goal with
      | |- context [deletePost now' ?d req] =>
          rewrite (deletePost_200 now' d req _ Hfound Hallowed)
      end.
      simpl. split; [reflexivity|].
      now rewrite (find_soft_deleted now' _ _ _ Hfound).
Qed.

Lemma deletePost_author_or_admin_witness :
  let db := mkDb [mkPost "p1" "Bom dia" None "mp1" None] in
  deletePost 5 db (mkRequest MOTHER (Some "mp2") "p1")
  = (failure 403 "Você não tem permissão para deletar este post", db) /\
  getPostById (snd (deletePost 5 db (mkRequest ADMIN None "p1"))) "p1"
  = failure 404 "Post não encontrado".
Proof.
  intros db.
  destruct (deletePost_author_or_admin 5 6 db (mkRequest MOTHER (Some "mp2") "p1")
              (mkPost "p1" "Bom dia" None "mp1" None) eq_refl) as [Hdenied _].
  destruct (deletePost_author_or_admin 5 6 db (mkRequest ADMIN None "p1")
              (mkPost "p1" "Bom dia" None "mp1" None) eq_refl) as [_ Hallowed].
  split.
  - apply Hdenied; discriminate.
  - destruct (Hallowed (or_intror eq_refl)) as (_ & Hgone & _). exact Hgone.
Defined.

End PostFacts.
